(** * Rain Solana withdrawal: message codecs, Ed25519 instruction framing and
      the two-phase submission flow, embedded from the TypeScript sources

    Sources embedded here:
    - [src/hashUtils.ts]             module [HashUtils]
    - [src/collateral.ts]            modules [Collateral], [CollateralPDA]
    - [src/coordinator.ts]           module [Coordinator]
    - [src/utils/ed25519.program.ts] module [Ed25519]
    - [src/withdraw.ts]              module [Withdraw]

    What the sources take from their platform (JavaScript strings, Node
    buffers, crypto-js, Keccak-256) is in [Js] and [Keccak]; what they take
    from the network is the class [Network].  [Layout] and [Spec] restate
    the blob layout and the custody digest in the words of the
    specification; [Fixture] and [Scenario] hold concrete inputs.

    Bytes are integers in [0, 256) carried in [Z]; a [Buffer] or
    [Uint8Array] is a [list Z]; hex strings are [string]s. *)

From Stdlib Require Import ZArith String Ascii List Lia.
From stdpp Require Import base list.
Import ListNotations.
Local Open Scope Z_scope.

(** ** Keccak-256, the primitive behind [crypto.SHA3(_, { outputLength: 256 })]

    crypto-js's [SHA3] is the original Keccak (padding byte 0x01), rate 136
    bytes for a 256-bit output.  The state is 25 lanes of 64 bits, lane
    (x, y) at index [x + 5 y]. *)
Module Keccak.

Definition mask64 : Z := 2 ^ 64 - 1.

Definition rotl64 (v : Z) (n : Z) : Z :=
  Z.land (Z.lor (Z.shiftl v n) (Z.shiftr v (64 - n))) mask64.

Definition lane (st : list Z) (x y : nat) : Z :=
  nth (x mod 5 + 5 * (y mod 5))%nat st 0.

Definition build (f : nat -> nat -> Z) : list Z :=
  map (fun i => f (i mod 5)%nat (i / 5)%nat) (seq 0 25).

Definition rotc : list Z :=
  [ 0;  1; 62; 28; 27;
   36; 44;  6; 55; 20;
    3; 10; 43; 25; 39;
   41; 45; 15; 21;  8;
   18;  2; 61; 56; 14].

Definition RC : list Z :=
  [0x0000000000000001; 0x0000000000008082; 0x800000000000808A;
   0x8000000080008000; 0x000000000000808B; 0x0000000080000001;
   0x8000000080008081; 0x8000000000008009; 0x000000000000008A;
   0x0000000000000088; 0x0000000080008009; 0x000000008000000A;
   0x000000008000808B; 0x800000000000008B; 0x8000000000008089;
   0x8000000000008003; 0x8000000000008002; 0x8000000000000080;
   0x000000000000800A; 0x800000008000000A; 0x8000000080008081;
   0x8000000000008080; 0x0000000080000001; 0x8000000080008008].

Definition theta (st : list Z) : list Z :=
  let C x := Z.lxor (lane st x 0) (Z.lxor (lane st x 1) (Z.lxor (lane st x 2)
               (Z.lxor (lane st x 3) (lane st x 4)))) in
  let D x := Z.lxor (C (x + 4)%nat) (rotl64 (C (x + 1)%nat) 1) in
  build (fun x y => Z.lxor (lane st x y) (D x)).

Definition rho_pi (st : list Z) : list Z :=
  build (fun x y =>
    let sx := ((x + 3 * y) mod 5)%nat in
    rotl64 (lane st sx x) (nth (sx + 5 * x)%nat rotc 0)).

Definition chi (st : list Z) : list Z :=
  build (fun x y =>
    Z.lxor (lane st x y)
           (Z.land (Z.ldiff (lane st (x + 2) y) (lane st (x + 1) y)) mask64)).

Definition iota (rc : Z) (st : list Z) : list Z :=
  match st with
  | [] => []
  | l0 :: rest => Z.lxor l0 rc :: rest
  end.

Definition round (st : list Z) (rc : Z) : list Z :=
  iota rc (chi (rho_pi (theta st))).

Definition keccak_f (st : list Z) : list Z := fold_left round RC st.

(** Little-endian lane <-> 8 bytes. *)
Definition lane_of_bytes (bs : list Z) : Z :=
  fold_right (fun b acc => Z.lor (Z.land b 255) (Z.shiftl acc 8)) 0 bs.

Definition bytes_of_lane (v : Z) : list Z :=
  map (fun j => Z.land (Z.shiftr v (8 * Z.of_nat j)) 255) (seq 0 8).

Definition rate : nat := 136.

(** XOR one full rate-sized block into the first 17 lanes. *)
Definition xor_block (st : list Z) (block : list Z) : list Z :=
  map (fun i =>
         if (i <? 17)%nat
         then Z.lxor (nth i st 0) (lane_of_bytes (firstn 8 (skipn (8 * i) block)))
         else nth i st 0)
      (seq 0 25).

(** Keccak padding of the last, partial block ([length part < rate]). *)
Definition pad (part : list Z) : list Z :=
  let free := (rate - length part)%nat in
  if (free =? 1)%nat then part ++ [0x81]
  else part ++ [0x01] ++ repeat 0 (free - 2) ++ [0x80].

(** Absorb byte by byte; [part] is the current partial block. *)
Fixpoint absorb (st : list Z) (part : list Z) (msg : list Z) : list Z :=
  match msg with
  | [] => keccak_f (xor_block st (pad part))
  | b :: msg' =>
      let part' := part ++ [b] in
      if (length part' =? rate)%nat
      then absorb (keccak_f (xor_block st part')) [] msg'
      else absorb st part' msg'
  end.

Definition squeeze32 (st : list Z) : list Z :=
  bytes_of_lane (nth 0 st 0) ++ bytes_of_lane (nth 1 st 0) ++
  bytes_of_lane (nth 2 st 0) ++ bytes_of_lane (nth 3 st 0).

Definition keccak256 (msg : list Z) : list Z :=
  squeeze32 (absorb (repeat 0 25) [] msg).

End Keccak.

(** ** Platform functions used by the sources (JavaScript strings, Node
    [Buffer], crypto-js encoders) *)
Module Js.

Definition hexDigits : list ascii :=
  ["0"; "1"; "2"; "3"; "4"; "5"; "6"; "7"; "8"; "9";
   "a"; "b"; "c"; "d"; "e"; "f"]%char.

Definition hexDigit (d : Z) : ascii := nth (Z.to_nat d) hexDigits "0"%char.

(** Number of base-16 digits of a non-negative integer (1 for 0). *)
Definition numDigits16 (a : Z) : nat := S (Z.to_nat (Z.log2 a / 4)).

(** [v.toString(16)] for an integer [number] or a [bigint]. *)
Definition toString16 (v : Z) : string :=
  let a := Z.abs v in
  let ds := string_of_list_ascii
              (map (fun i => hexDigit ((a / 16 ^ Z.of_nat i) mod 16))
                   (rev (seq 0 (numDigits16 a)))) in
  if v <? 0 then String "-" ds else ds.

Fixpoint replicate_char (n : nat) (c : ascii) : string :=
  match n with
  | O => EmptyString
  | S n' => String c (replicate_char n' c)
  end.

(** [s.padStart(n, c)]: never truncates. *)
Definition padStart (s : string) (n : nat) (c : ascii) : string :=
  String.append (replicate_char (n - String.length s) c) s.

(** [[...].join('')] *)
Definition join (parts : list string) : string := String.concat "" parts.

(** [new Uint8Array(numbers)]: every element is reduced modulo 256. *)
Definition Uint8Array_from (l : list Z) : list Z := map (fun x => x mod 256) l.

(** [buf.toString('hex')] and crypto-js [WordArray.toString()]: two
    lower-case digits per byte. *)
Definition byteToHex (b : Z) : string :=
  String (hexDigit (b / 16 mod 16)) (String (hexDigit (b mod 16)) EmptyString).

Definition toHex (bs : list Z) : string := String.concat "" (map byteToHex bs).

Definition hexVal (c : ascii) : option Z :=
  let n := Z.of_N (N_of_ascii c) in
  if (48 <=? n) && (n <=? 57) then Some (n - 48)
  else if (97 <=? n) && (n <=? 102) then Some (n - 87)
  else if (65 <=? n) && (n <=? 70) then Some (n - 55)
  else None.

(** [parseInt(pair, 16)] on a chunk of at most two characters, for chunks
    that start with a hex digit or hold none (NaN, which the bit operations
    of the caller read as 0).  A chunk that starts with a sign or a blank is
    read as 0 here, where [parseInt] may give a negative number: such chunks
    come from negative fields only ([toString(16)] writes a minus sign), and
    the value of a digest is stated below for non-negative fields only. *)
Definition parsePair (c1 : ascii) (c2 : option ascii) : Z :=
  match hexVal c1 with
  | None => 0
  | Some h =>
      match c2 with
      | None => h
      | Some c => match hexVal c with
                  | Some l => 16 * h + l
                  | None => h
                  end
      end
  end.

(** crypto-js [enc.Hex.parse]: one byte per pair of characters.  On a
    string of an even number of hex digits this is the library's result.
    On a string of odd length the library builds a word array with a
    fractional byte count, and the hash that follows is not the hash of any
    byte string; this function is extended there by reading the last
    character as one more byte, so that every call has a result of the
    right type, but the bytes, and the digest computed from them, are the
    library's on even-length strings of hex digits only.  The integer
    encoders give such strings for values within their width (and for
    wider values with an even number of digits); the value of a digest is
    stated below under these conditions, its length for every input. *)
Fixpoint Hex_parse (s : string) : list Z :=
  match s with
  | EmptyString => []
  | String c1 EmptyString => [parsePair c1 None]
  | String c1 (String c2 rest) => parsePair c1 (Some c2) :: Hex_parse rest
  end.

(** crypto-js [enc.Utf8.parse] on a string already held as its UTF-8 bytes. *)
Definition Utf8_parse (s : string) : list Z :=
  map (fun c => Z.of_N (N_of_ascii c)) (list_ascii_of_string s).

(** Node's [Buffer.from(s, 'hex')]: decoding stops at the first pair that is
    not two hex digits; a trailing single character is dropped. *)
Fixpoint Buffer_from_hex (s : string) : list Z :=
  match s with
  | String c1 (String c2 rest) =>
      match hexVal c1, hexVal c2 with
      | Some h, Some l => (16 * h + l) :: Buffer_from_hex rest
      | _, _ => []
      end
  | _ => []
  end.

(** [crypto.SHA3(wordArray, { outputLength: 256 })] *)
Definition SHA3_256 (bytes : list Z) : list Z := Keccak.keccak256 bytes.

End Js.

(** A [PublicKey] of @solana/web3.js: its 32-byte buffer. *)
Record PublicKey := mkPublicKey { toBuffer : list Z }.

Definition PublicKey_equals (a b : PublicKey) : bool :=
  bool_decide (toBuffer a = toBuffer b).

(** The anchor [BN] fields are arbitrary-precision integers. *)
Record WithdrawCollateral := mkWithdrawCollateral {
  amountOfAsset : Z;
  signatureExpirationTime : Z;
  coordinatorSignatureSalt : list Z
}.

(** ** src/hashUtils.ts *)
Module HashUtils.

(** The digest is that of the source where [Js.Hex_parse] is that of the
    library: on even-length strings of hex digits. *)
Definition keccak256Hex (data : string) : string :=
  let wordArray := Js.Hex_parse data in
  let hash := Js.SHA3_256 wordArray in
  Js.toHex hash.

Definition keccak256 (data : string) : string :=
  let hash := Js.SHA3_256 (Js.Utf8_parse data) in
  Js.toHex hash.

Definition encodeString (value : string) : string := keccak256 value.

Definition encodeAddress (value : PublicKey) : string :=
  Js.toHex (toBuffer value).

Definition encodeUInt32 (value : Z) : string :=
  Js.padStart (Js.toString16 value) 8 "0".

Definition encodeUInt64 (value : Z) : string :=
  Js.padStart (Js.toString16 value) 16 "0".

Definition encodeBytes (value : list Z) : string :=
  Js.join (map (fun b => Js.padStart (Js.toString16 b) 2 "0") value).

End HashUtils.

(** ** src/collateral.ts *)
Module Collateral.

Definition encode : string :=
  HashUtils.encodeBytes (Js.Uint8Array_from [0x19; 0x01]).

Definition DOMAIN_TYPE_HASH : string :=
  HashUtils.encodeString
    "EIP712Domain(string name,string version,uint256 chainId,address verifyingContract,bytes32 salt)".

Definition domainSeparatorEncode (name version : string) (chainId : Z)
    (verifyingContract : PublicKey) (salt : list Z) : string :=
  let encodedStructure := Js.join [
    DOMAIN_TYPE_HASH;
    HashUtils.encodeString name;
    HashUtils.encodeString version;
    HashUtils.encodeUInt64 chainId;
    HashUtils.encodeAddress verifyingContract;
    HashUtils.encodeBytes salt ] in
  HashUtils.keccak256Hex encodedStructure.

Definition COLLATERAL_ADMIN_SIGNATURE_SEED : list Z :=
  Js.Utf8_parse "CollateralAdminSignatures".

Definition WITHDRAW_TYPE_HASH : string :=
  HashUtils.encodeString
    "Withdraw(address user,address asset,uint256 amount,address recipient,uint256 nonce)".

Definition encodeWithdrawMessage (collateral sender receiver asset : PublicKey)
    (withdraw : WithdrawCollateral) (adminFundsNonce : Z) : string :=
  let amount := amountOfAsset withdraw in
  let encodedStructure := Js.join [
    WITHDRAW_TYPE_HASH;
    HashUtils.encodeAddress sender;
    HashUtils.encodeAddress collateral;
    HashUtils.encodeAddress asset;
    HashUtils.encodeUInt64 amount;
    HashUtils.encodeAddress receiver;
    HashUtils.encodeUInt32 adminFundsNonce ] in
  let hashedStructure := HashUtils.keccak256Hex encodedStructure in
  hashedStructure.

Definition getWithdrawMessage (collateral sender receiver asset : PublicKey)
    (withdraw : WithdrawCollateral) (salt : list Z) (adminFundsNonce : Z)
    : list Z :=
  let encodedData := Js.join [
    encode;
    domainSeparatorEncode "Collateral" "2" 900 collateral
      (Js.Uint8Array_from salt);
    encodeWithdrawMessage collateral sender receiver asset withdraw
      adminFundsNonce ] in
  let encodedDataHash := HashUtils.keccak256Hex encodedData in
  Js.Buffer_from_hex encodedDataHash.

End Collateral.

(** ** src/coordinator.ts *)
Module Coordinator.

Definition encode : string :=
  HashUtils.encodeBytes (Js.Uint8Array_from [0x19; 0x01]).

Definition DOMAIN_TYPE_HASH : string :=
  HashUtils.encodeString
    "EIP712Domain(string name,string version,uint256 chainId,address verifyingContract,bytes32 salt)".

Definition domainSeparatorEncode (name version : string) (chainId : Z)
    (verifyingContract : PublicKey) (salt : list Z) : string :=
  let encodedStructure := Js.join [
    DOMAIN_TYPE_HASH;
    HashUtils.encodeString name;
    HashUtils.encodeString version;
    HashUtils.encodeUInt64 chainId;
    HashUtils.encodeAddress verifyingContract;
    HashUtils.encodeBytes salt ] in
  HashUtils.keccak256Hex encodedStructure.

Definition WITHDRAW_TYPE_HASH : string :=
  HashUtils.encodeString
    "Withdraw(address user,address collateral,address asset,uint256 amount,address recipient,uint256 nonce,uint256 expiresAt)".

Definition encodeWithdrawMessage (collateral sender receiver asset : PublicKey)
    (withdrawRequest : WithdrawCollateral) (adminFundsNonce : Z) : string :=
  let amount := amountOfAsset withdrawRequest in
  let nonce := adminFundsNonce in
  let expiresAt := signatureExpirationTime withdrawRequest in
  let encodedStructure := Js.join [
    WITHDRAW_TYPE_HASH;
    HashUtils.encodeAddress sender;
    HashUtils.encodeAddress collateral;
    HashUtils.encodeAddress asset;
    HashUtils.encodeUInt64 amount;
    HashUtils.encodeAddress receiver;
    HashUtils.encodeUInt32 nonce;
    HashUtils.encodeUInt64 expiresAt ] in
  HashUtils.keccak256Hex encodedStructure.

Definition getWithdrawMessage (collateral coordinator sender receiver asset
    : PublicKey) (withdraw : WithdrawCollateral) (adminFundsNonce : Z)
    : list Z :=
  let encodedData := Js.join [
    encode;
    domainSeparatorEncode "Coordinator" "2" 900 coordinator
      (Js.Uint8Array_from (coordinatorSignatureSalt withdraw));
    encodeWithdrawMessage collateral sender receiver asset withdraw
      adminFundsNonce ] in
  let encodedDataHash := HashUtils.keccak256Hex encodedData in
  Js.Buffer_from_hex encodedDataHash.

End Coordinator.

(** ** Exceptions

    A call either returns or throws; what is thrown is one of the two
    [Error]s the sources raise themselves, a [RangeError] of a [Buffer]
    write, a [TypeError] of a call on [undefined], or a failure reported by
    a collaborator (RPC, ledger). *)
Inductive Thrown :=
| JsError (message : string)
| JsRangeError
| JsTypeError
| TransportFailure (reason : string).

Inductive Result (A : Type) :=
| Ok (a : A)
| Throw (e : Thrown).
Arguments Ok {A} a.
Arguments Throw {A} e.

Definition rbind {A B} (r : Result A) (k : A -> Result B) : Result B :=
  match r with
  | Ok a => k a
  | Throw e => Throw e
  end.

Notation "'try!' x <- r ; k" := (rbind r (fun x => k))
  (at level 10, x name, r at level 100, k at level 200).

(** ** src/utils/ed25519.program.ts *)
Module Ed25519.

Definition INSTRUCTION_INDEX : Z := 2 ^ 16 - 1.
Definition SIGNATURE_STRUCTURE_SIZE : nat := 14.
Definition PUBKEY_SIZE : nat := 32.
Definition SIGNATURE_SIZE : nat := 64.
Definition MESSAGE_SIZE : nat := 32.
Definition SIGNATURE_DATA_SIZE : nat := PUBKEY_SIZE + SIGNATURE_SIZE + MESSAGE_SIZE.
Definition SIGNATURE_DATA_PLUS_STRUCTURE_SIZE : nat :=
  SIGNATURE_STRUCTURE_SIZE + SIGNATURE_DATA_SIZE.

(** [Buffer.alloc(n)]: zero-filled. *)
Definition alloc (n : nat) : list Z := repeat 0 n.

(** [buf.writeUInt8(value, offset)]: a [RangeError] outside 0..255 or
    outside the buffer. *)
Definition writeUInt8 (value : Z) (offset : nat) (buf : list Z)
    : Result (list Z) :=
  if (value <? 0) || (255 <? value) then Throw JsRangeError
  else if (length buf <? offset + 1)%nat then Throw JsRangeError
  else Ok (<[offset := value]> buf).

(** [buf.writeUInt16LE(value, offset)]: low byte first. *)
Definition writeUInt16LE (value : Z) (offset : nat) (buf : list Z)
    : Result (list Z) :=
  if (value <? 0) || (65535 <? value) then Throw JsRangeError
  else if (length buf <? offset + 2)%nat then Throw JsRangeError
  else Ok (<[S offset := Z.shiftr value 8]> (<[offset := Z.land value 255]> buf)).

(** [source.copy(target, targetStart)]: copies what fits, never throws for
    a non-negative start. *)
Definition copy (source target : list Z) (targetStart : nat) : list Z :=
  list_inserts targetStart source target.

Record SignatureVerificationData := mkSignatureVerificationData {
  signer : PublicKey;
  signature : list Z;
  message : list Z
}.

Record SignatureStructure := mkSignatureStructure {
  publicKeyOffset : nat;
  signatureOffset : nat;
  messageOffset : nat;
  structureOffset : nat
}.

Definition SignatureStructure_new (signatureIndex signaturesStartOffset : nat)
    : SignatureStructure :=
  let structureOffset := (signatureIndex * SIGNATURE_STRUCTURE_SIZE + 2)%nat in
  let publicKeyOffset :=
    (signatureIndex * SIGNATURE_DATA_SIZE + signaturesStartOffset)%nat in
  let signatureOffset := (publicKeyOffset + 32)%nat in
  let messageOffset := (signatureOffset + 64)%nat in
  mkSignatureStructure publicKeyOffset signatureOffset messageOffset
    structureOffset.

Definition SignatureStructure_toBuffer (s : SignatureStructure)
    : Result (list Z) :=
  let buffer := alloc SIGNATURE_STRUCTURE_SIZE in
  try! buffer <- writeUInt16LE (Z.of_nat (signatureOffset s)) 0 buffer;
  try! buffer <- writeUInt16LE INSTRUCTION_INDEX 2 buffer;
  try! buffer <- writeUInt16LE (Z.of_nat (publicKeyOffset s)) 4 buffer;
  try! buffer <- writeUInt16LE INSTRUCTION_INDEX 6 buffer;
  try! buffer <- writeUInt16LE (Z.of_nat (messageOffset s)) 8 buffer;
  try! buffer <- writeUInt16LE (Z.of_nat MESSAGE_SIZE) 10 buffer;
  try! buffer <- writeUInt16LE INSTRUCTION_INDEX 12 buffer;
  Ok buffer.

Record TransactionInstruction := mkTransactionInstruction {
  keys : list PublicKey;
  programId : PublicKey;
  data : list Z
}.

(** [Ed25519Program.programId], Ed25519SigVerify111111111111111111111111111. *)
Definition ed25519ProgramId : PublicKey :=
  mkPublicKey
    [3; 125; 70; 214; 124; 147; 251; 190; 18; 249; 66; 143; 131; 141; 64; 255;
     5; 112; 116; 73; 39; 244; 138; 100; 252; 202; 112; 68; 128; 0; 0; 0].

(** One turn of the [for] loop, for the entry at index [i]. *)
Definition writeSignature (signaturesStartOffset i : nat)
    (entry : SignatureVerificationData) (dataBuffer : list Z)
    : Result (list Z) :=
  if negb (length (signature entry) =? SIGNATURE_SIZE)%nat then
    Throw (JsError "Signature size must be 64 bytes")
  else if negb (length (message entry) =? MESSAGE_SIZE)%nat then
    Throw (JsError "Message size must be 32 bytes")
  else
    let signatureOffset_ := SignatureStructure_new i signaturesStartOffset in
    try! structure <- SignatureStructure_toBuffer signatureOffset_;
    let dataBuffer := copy structure dataBuffer (structureOffset signatureOffset_) in
    let dataBuffer :=
      copy (toBuffer (signer entry)) dataBuffer (publicKeyOffset signatureOffset_) in
    let dataBuffer :=
      copy (signature entry) dataBuffer (signatureOffset signatureOffset_) in
    let dataBuffer :=
      copy (message entry) dataBuffer (messageOffset signatureOffset_) in
    Ok dataBuffer.

(** The [for] loop from index [i] over the entries still to write. *)
Fixpoint writeSignatures (signaturesStartOffset i : nat)
    (rest : list SignatureVerificationData) (dataBuffer : list Z)
    : Result (list Z) :=
  match rest with
  | [] => Ok dataBuffer
  | entry :: rest' =>
      try! dataBuffer <- writeSignature signaturesStartOffset i entry dataBuffer;
      writeSignatures signaturesStartOffset (S i) rest' dataBuffer
  end.

Definition createSignatureVerificationInstruction
    (signatures : list SignatureVerificationData)
    : Result TransactionInstruction :=
  let dataBuffer :=
    alloc (length signatures * SIGNATURE_DATA_PLUS_STRUCTURE_SIZE + 2) in
  try! dataBuffer <- writeUInt8 (Z.of_nat (length signatures)) 0 dataBuffer;
  let signaturesStartOffset :=
    (length signatures * SIGNATURE_STRUCTURE_SIZE + 2)%nat in
  try! dataBuffer <- writeSignatures signaturesStartOffset 0 signatures dataBuffer;
  Ok (mkTransactionInstruction [] ed25519ProgramId dataBuffer).

End Ed25519.

(** ** Collaborators of the submission flow

    Pure collaborators (address derivation, signing) are functions; the
    network and the ledger behind it are an abstract, mutable [World] that
    answers fetches and takes transactions. *)
Class Solana := {
  findProgramAddressSync : list (list Z) -> PublicKey -> PublicKey;
  getAssociatedTokenAddress : PublicKey -> PublicKey -> PublicKey;
  nacl_sign_detached : list Z -> list Z -> list Z
}.

Record Keypair := mkKeypair { publicKey : PublicKey; secretKey : list Z }.

Record CollateralAccount := mkCollateralAccount {
  adminFundsNonce : Z;
  coordinator : PublicKey
}.

Record CoordinatorAccount := mkCoordinatorAccount {
  executors : option (list PublicKey)
}.

Record CollateralAdminSignatures := mkCollateralAdminSignatures {
  signers : list PublicKey
}.

Record TokenAccount := mkTokenAccount { address : PublicKey }.

Record SubmitSignaturesArgs := mkSubmitSignaturesArgs {
  ss_salts : list (list Z);
  ss_targetNonce : Z;
  ss_sender : PublicKey;
  ss_receiver : PublicKey;
  ss_asset : PublicKey;
  ss_withdrawRequest : WithdrawCollateral;
  ss_collateral : PublicKey;
  ss_collateralAdminSignatures : PublicKey;
  ss_rentPayer : PublicKey
}.

Record WithdrawCollateralAssetArgs := mkWithdrawCollateralAssetArgs {
  wc_withdrawRequest : WithdrawCollateral;
  wc_sender : PublicKey;
  wc_receiver : PublicKey;
  wc_asset : PublicKey;
  wc_collateralTokenAccount : PublicKey;
  wc_receiverTokenAccount : PublicKey;
  wc_coordinator : PublicKey;
  wc_collateral : PublicKey;
  wc_collateralAdminSignatures : PublicKey
}.

Inductive Instruction :=
| IxVerify (ix : Ed25519.TransactionInstruction)
| IxSubmitSignatures (args : SubmitSignaturesArgs)
| IxWithdrawCollateralAsset (args : WithdrawCollateralAssetArgs).

Record Transaction := mkTransaction { instructions : list Instruction }.

(** The transport calls, in the order they are made. *)
Inductive Call :=
| CallFetchCollateral (addr : PublicKey)
| CallGetOrCreateTokenAccount (mint owner : PublicKey)
| CallFetchNullableAdminSignatures (addr : PublicKey)
| CallFetchCoordinator (addr : PublicKey)
| CallSendTransaction (tx : Transaction) (txSigners : list Keypair).

(** What a collaborator answers: a value, or a failure with its reason. *)
Inductive Reply (A : Type) :=
| Answer (a : A)
| Failure (reason : string).
Arguments Answer {A} a.
Arguments Failure {A} reason.

(** A failed call rejects the awaited promise. *)
Definition awaited {A} (r : Reply A) : Result A :=
  match r with
  | Answer a => Ok a
  | Failure reason => Throw (TransportFailure reason)
  end.

Class Network (World : Type) := {
  randomBytes : nat -> World -> list Z * World;
  account_collateral_fetch : PublicKey -> World -> Reply CollateralAccount;
  account_coordinator_fetch : PublicKey -> World -> Reply CoordinatorAccount;
  account_collateralAdminSignatures_fetchNullable :
    PublicKey -> World -> Reply (option CollateralAdminSignatures);
  rpc_getOrCreateAssociatedTokenAccount :
    Keypair -> PublicKey -> PublicKey -> World -> Reply TokenAccount * World;
  rpc_sendAndConfirmTransaction :
    Transaction -> list Keypair -> World -> Reply string * World
}.

(** ** [generateAdminSignaturePDA] and [generateWithdrawCollateralPDA] of
    src/collateral.ts *)
Module CollateralPDA.
Section PDA.
Context `{Solana}.

Definition generateAdminSignaturePDA (collateral : PublicKey) (id : list Z)
    (programId : PublicKey) : PublicKey :=
  findProgramAddressSync
    [Collateral.COLLATERAL_ADMIN_SIGNATURE_SEED; toBuffer collateral; id]
    programId.

Definition generateWithdrawCollateralPDA
    (collateral sender receiver asset : PublicKey)
    (request : WithdrawCollateral) (adminFundsNonce : Z)
    (programId : PublicKey) : PublicKey :=
  let withdrawCollateralMessageEncoded :=
    Collateral.encodeWithdrawMessage collateral sender receiver asset request
      adminFundsNonce in
  let id := Js.Buffer_from_hex withdrawCollateralMessageEncoded in
  generateAdminSignaturePDA collateral id programId.

End PDA.
End CollateralPDA.

(** ** src/withdraw.ts *)

(** [new BN(number)] of bn.js for an integer [number]: [_initNumber] takes
    the absolute value and asserts that it is below 2^53; a failed
    assertion throws [Error("Assertion failed")]. *)
Definition BN_fits (number : Z) : Prop := Z.abs number < 2 ^ 53.

Definition AssertionFailed : Thrown := JsError "Assertion failed".

Definition BN_new (number : Z) : Result Z :=
  if Z.abs number <? 2 ^ 53 then Ok number else Throw AssertionFailed.

Module Withdraw.
Section Flow.
Context `{Solana} {World : Type} `{Network World}.

(** An [async] computation: external state and the log of transport calls
    go in, a result or a thrown value comes out with the new state. *)
Definition M (A : Type) : Type :=
  World * list Call -> Result A * (World * list Call).

Definition ret {A} (a : A) : M A := fun s => (Ok a, s).

Definition throw {A} (e : Thrown) : M A := fun s => (Throw e, s).

Definition bind {A B} (m : M A) (k : A -> M B) : M B :=
  fun s => match m s with
           | (Ok a, s') => k a s'
           | (Throw e, s') => (Throw e, s')
           end.

Definition lift {A} (r : Result A) : M A := fun s => (r, s).

Notation "'await!' x <- m ; k" := (bind m (fun x => k))
  (at level 10, x name, m at level 100, k at level 200).

Definition random (n : nat) : M (list Z) :=
  fun '(w, log) => let '(bytes, w') := randomBytes n w in (Ok bytes, (w', log)).

Definition fetchCollateral (addr : PublicKey) : M CollateralAccount :=
  fun '(w, log) =>
    (awaited (account_collateral_fetch addr w),
     (w, log ++ [CallFetchCollateral addr])).

Definition fetchCoordinator (addr : PublicKey) : M CoordinatorAccount :=
  fun '(w, log) =>
    (awaited (account_coordinator_fetch addr w),
     (w, log ++ [CallFetchCoordinator addr])).

Definition fetchNullableAdminSignatures (addr : PublicKey)
    : M (option CollateralAdminSignatures) :=
  fun '(w, log) =>
    (awaited (account_collateralAdminSignatures_fetchNullable addr w),
     (w, log ++ [CallFetchNullableAdminSignatures addr])).

Definition getOrCreateAssociatedTokenAccount (payer : Keypair)
    (mint owner : PublicKey) : M TokenAccount :=
  fun '(w, log) =>
    let '(r, w') := rpc_getOrCreateAssociatedTokenAccount payer mint owner w in
    (awaited r, (w', log ++ [CallGetOrCreateTokenAccount mint owner])).

Definition sendAndConfirmTransaction (tx : Transaction)
    (txSigners : list Keypair) : M string :=
  fun '(w, log) =>
    let '(r, w') := rpc_sendAndConfirmTransaction tx txSigners w in
    (awaited r, (w', log ++ [CallSendTransaction tx txSigners])).

Definition submitCollateralSignature (sender : Keypair)
    (recipientAddress mintAddress : PublicKey)
    (withdrawRequest : WithdrawCollateral) (adminFundsNonce : Z)
    (programId collateralAddress : PublicKey) : M PublicKey :=
  await! collateralMessageSalt <- random 32;
  let collateralMessage :=
    Collateral.getWithdrawMessage collateralAddress (publicKey sender)
      recipientAddress mintAddress withdrawRequest collateralMessageSalt
      adminFundsNonce in
  let collateralSignature :=
    nacl_sign_detached collateralMessage (secretKey sender) in
  let collateralSignatureAddress :=
    CollateralPDA.generateWithdrawCollateralPDA collateralAddress
      (publicKey sender) recipientAddress mintAddress withdrawRequest
      adminFundsNonce programId in
  await! collateralSignatureAccount <-
    fetchNullableAdminSignatures collateralSignatureAddress;
  let absentOrUnsigned :=
    match collateralSignatureAccount with
    | None => true
    | Some account =>
        forallb (fun signer => negb (PublicKey_equals signer (publicKey sender)))
                (signers account)
    end in
  if absentOrUnsigned then
    await! signatureVereficationInstruction <-
      lift (Ed25519.createSignatureVerificationInstruction
              [Ed25519.mkSignatureVerificationData (publicKey sender)
                 collateralSignature collateralMessage]);
    let transaction :=
      mkTransaction
        [IxVerify signatureVereficationInstruction;
         IxSubmitSignatures
           (mkSubmitSignaturesArgs [collateralMessageSalt] adminFundsNonce
              (publicKey sender) recipientAddress mintAddress withdrawRequest
              collateralAddress collateralSignatureAddress (publicKey sender))] in
    await! submitSignaturesHash <- sendAndConfirmTransaction transaction [sender];
    ret collateralSignatureAddress
  else
    ret collateralSignatureAddress.

Definition executeWithdrawal (programId collateral depositAddress : PublicKey)
    (sender : Keypair) (recipientAddress mintAddress : PublicKey)
    (expiration amountInCents : Z) (signatureSalt signatureData : list Z)
    : M string :=
  let coordinatorMessageSalt := signatureSalt in
  let coordinatorSignature := signatureData in
  await! expiresAt <- lift (BN_new expiration);
  await! amountOfAsset <- lift (BN_new amountInCents);
  let withdrawRequest :=
    mkWithdrawCollateral amountOfAsset expiresAt coordinatorMessageSalt in
  await! collateralAccount <- fetchCollateral collateral;
  let collateralTokenAccount :=
    getAssociatedTokenAddress mintAddress depositAddress in
  await! destinationTokenAccount <-
    getOrCreateAssociatedTokenAccount sender mintAddress recipientAddress;
  await! collateralSignatureAddress <-
    submitCollateralSignature sender recipientAddress mintAddress
      withdrawRequest (adminFundsNonce collateralAccount) programId collateral;
  await! coordinator_ <- fetchCoordinator (coordinator collateralAccount);
  let noExecutors :=
    match executors coordinator_ with
    | None => true
    | Some l => (length l =? 0)%nat
    end in
  if noExecutors then
    throw (JsError "Not executors found in the given coordinator")
  else
    (* [coordinator.executors.find(c => c)!]: every [PublicKey] is truthy *)
    match List.find (fun c => true) (default [] (executors coordinator_)) with
    | None => throw JsTypeError
    | Some first =>
        await! verify <-
          lift (Ed25519.createSignatureVerificationInstruction
                  [Ed25519.mkSignatureVerificationData first
                     coordinatorSignature
                     (Coordinator.getWithdrawMessage collateral
                        (coordinator collateralAccount) (publicKey sender)
                        recipientAddress mintAddress withdrawRequest
                        (adminFundsNonce collateralAccount))]);
        let withdrawIx :=
          IxWithdrawCollateralAsset
            (mkWithdrawCollateralAssetArgs withdrawRequest (publicKey sender)
               recipientAddress mintAddress collateralTokenAccount
               (address destinationTokenAccount)
               (coordinator collateralAccount) collateral
               collateralSignatureAddress) in
        sendAndConfirmTransaction (mkTransaction [IxVerify verify; withdrawIx])
          [sender]
    end.

End Flow.
End Withdraw.

(** ** The documented layout of the verification blob (spec section 4.3) *)
Module Layout.

(** A little-endian 16-bit field. *)
Definition le16 (v : Z) : list Z := [v mod 256; v / 256].

(** The sentinel "current instruction". *)
Definition sentinel : Z := 65535.

Definition dataRegionStart (N : nat) : nat := N * 14 + 2.
Definition publicKeyOffset (N i : nat) : nat := i * 128 + dataRegionStart N.
Definition signatureOffset (N i : nat) : nat := publicKeyOffset N i + 32.
Definition messageOffset (N i : nat) : nat := signatureOffset N i + 64.

(** The 14-byte descriptor of entry [i] in a blob of [N] entries. *)
Definition descriptor (N i : nat) : list Z :=
  le16 (Z.of_nat (signatureOffset N i)) ++ le16 sentinel ++
  le16 (Z.of_nat (publicKeyOffset N i)) ++ le16 sentinel ++
  le16 (Z.of_nat (messageOffset N i)) ++ le16 32 ++ le16 sentinel.

Definition slice (blob : list Z) (offset len : nat) : list Z :=
  take len (drop offset blob).

(** Reading entry [i] back at the documented offsets. *)
Definition decodeEntry (blob : list Z) (N i : nat)
    : Ed25519.SignatureVerificationData :=
  Ed25519.mkSignatureVerificationData
    (mkPublicKey (slice blob (publicKeyOffset N i) 32))
    (slice blob (signatureOffset N i) 64)
    (slice blob (messageOffset N i) 32).

Definition decode (blob : list Z) (N : nat)
    : list Ed25519.SignatureVerificationData :=
  map (decodeEntry blob N) (seq 0 N).

(** A valid entry: 32-byte key, 64-byte signature, 32-byte message. *)
Definition valid_entry (e : Ed25519.SignatureVerificationData) : Prop :=
  length (toBuffer (Ed25519.signer e)) = 32%nat /\
  length (Ed25519.signature e) = 64%nat /\
  length (Ed25519.message e) = 32%nat.

(** The descriptor table of the entries [rest], the first of which has
    index [i], and the data block of one entry. *)
Fixpoint descriptors (N i : nat) (rest : list Ed25519.SignatureVerificationData)
    : list Z :=
  match rest with
  | [] => []
  | _ :: rest' => descriptor N i ++ descriptors N (S i) rest'
  end.

Definition entryData (e : Ed25519.SignatureVerificationData) : list Z :=
  toBuffer (Ed25519.signer e) ++ Ed25519.signature e ++ Ed25519.message e.

(** The whole blob, written out as one list. *)
Definition image (sigs : list Ed25519.SignatureVerificationData) : list Z :=
  [Z.of_nat (length sigs); 0] ++ descriptors (length sigs) 0 sigs ++
  flat_map entryData sigs.

End Layout.

(** ** The message codec as the specification words it (section 4.2)

    Nothing here is taken from [HashUtils] or [Js]: the hex alphabet, the
    encoders and the decoder are written from the specification's
    sentences, and an input the specification rejects (an address that is
    not 32 bytes, a number that does not fit its width, a salt that is not
    32 bytes, a string that is not hex) has no encoding. *)
Module Spec.

(** A byte. *)
Definition is_byte (b : Z) : Prop := 0 <= b < 256.

Definition bytes (buf : list Z) : bool :=
  forallb (fun b => (0 <=? b) && (b <? 256)) buf.

(** The hex alphabet, in lower case: a digit is the character at its
    place, the value of a character is its place. *)
Definition alphabet : string := "0123456789abcdef".

Definition digit (d : Z) : ascii :=
  match String.get (Z.to_nat d) alphabet with
  | Some c => c
  | None => "0"%char
  end.

Fixpoint place (c : ascii) (among : string) : option Z :=
  match among with
  | EmptyString => None
  | String x rest =>
      if Ascii.eqb c x then Some 0
      else match place c rest with
           | Some p => Some (p + 1)
           | None => None
           end
  end.

Definition value (c : ascii) : option Z := place c alphabet.

(** [encodeBytes(buf)]: byte-for-byte hex. *)
Fixpoint hexOfBytes (buf : list Z) : string :=
  match buf with
  | [] => EmptyString
  | b :: rest =>
      String (digit (b / 16)) (String (digit (b mod 16)) (hexOfBytes rest))
  end.

Definition encodeBytes (buf : list Z) : option string :=
  if bytes buf then Some (hexOfBytes buf) else None.

(** [encodeAddress(a)]: the raw 32 bytes of an address. *)
Definition encodeAddress (a : PublicKey) : option string :=
  if (length (toBuffer a) =? 32)%nat then encodeBytes (toBuffer a) else None.

(** A salt is a 32-byte value. *)
Definition encodeSalt (salt : list Z) : option string :=
  if (length salt =? 32)%nat then encodeBytes salt else None.

(** [encodeUInt(n, width)]: big-endian hex, left-zero-padded to [width / 4]
    characters; a number that does not fit in [width] bits is rejected. *)
Fixpoint digits (k : nat) (n : Z) : string :=
  match k with
  | O => EmptyString
  | S k' => (digits k' (n / 16) ++ String (digit (n mod 16)) EmptyString)%string
  end.

Definition encodeUInt (n : Z) (width : Z) : option string :=
  if (0 <=? n) && (n <? 2 ^ width)
  then Some (digits (Z.to_nat (width / 4)) n)
  else None.

(** Parsing a hex string back to bytes. *)
Fixpoint bytesOfHex (s : string) : option (list Z) :=
  match s with
  | EmptyString => Some []
  | String c1 EmptyString => None
  | String c1 (String c2 rest) =>
      match value c1, value c2, bytesOfHex rest with
      | Some h, Some l, Some buf => Some (16 * h + l :: buf)
      | _, _, _ => None
      end
  end.

(** [hash(hexInput)]: keccak-256 over the decoded bytes of a hex string, as
    hex. *)
Definition hash (hexInput : string) : option string :=
  buf ← bytesOfHex hexInput; Some (hexOfBytes (Keccak.keccak256 buf)).

(** The digest of a raw string (a type signature, a domain name or
    version): keccak-256 over its characters. *)
Definition characters (s : string) : list Z :=
  map (fun c => Z.of_nat (nat_of_ascii c)) (list_ascii_of_string s).

Definition typeHash (signature : string) : string :=
  hexOfBytes (Keccak.keccak256 (characters signature)).

Definition domainSeparatorHash (name version : string) (chainId : Z)
    (verifyingEntity : PublicKey) (salt : list Z) : option string :=
  chain ← encodeUInt chainId 64;
  entity ← encodeAddress verifyingEntity;
  salt ← encodeSalt salt;
  hash (typeHash "EIP712Domain(string name,string version,uint256 chainId,address verifyingContract,bytes32 salt)"
        ++ typeHash name ++ typeHash version ++ chain ++ entity ++ salt)%string.

Definition custodyStructHash (collateral sender receiver asset : PublicKey)
    (amount nonce : Z) : option string :=
  sender ← encodeAddress sender;
  collateral ← encodeAddress collateral;
  asset ← encodeAddress asset;
  amount ← encodeUInt amount 64;
  receiver ← encodeAddress receiver;
  nonce ← encodeUInt nonce 32;
  hash (typeHash "Withdraw(address user,address asset,uint256 amount,address recipient,uint256 nonce)"
        ++ sender ++ collateral ++ asset ++ amount ++ receiver ++ nonce)%string.

(** The custody final digest: keccak-256 of the decoded bytes of
    [encodeBytes([0x19, 0x01]) ++ domainSeparatorHash ++ structHash]. *)
Definition custodyFinalDigest (collateral sender receiver asset : PublicKey)
    (amount nonce : Z) (salt : list Z) : option (list Z) :=
  prefix ← encodeBytes [0x19; 0x01];
  domain ← domainSeparatorHash "Collateral" "2" 900 collateral salt;
  struct ← custodyStructHash collateral sender receiver asset amount nonce;
  buf ← bytesOfHex (prefix ++ domain ++ struct)%string;
  Some (Keccak.keccak256 buf).

End Spec.

(** Entries whose two checked sizes are right, and the two errors the
    builder raises for the others (the specification's [InvalidEntrySize]). *)
Definition sizes_ok (e : Ed25519.SignatureVerificationData) : Prop :=
  length (Ed25519.signature e) = 64%nat /\ length (Ed25519.message e) = 32%nat.

Definition InvalidEntrySize (t : Thrown) : Prop :=
  t = JsError "Signature size must be 64 bytes" \/
  t = JsError "Message size must be 32 bytes".

(** The specification's [NoApproverConfigured]. *)
Definition NoApproverConfigured : Thrown :=
  JsError "Not executors found in the given coordinator".

(** ** Concrete inputs: the parameters of src/index.ts and a scripted world *)
Module Fixture.

(** 3eZDvw9tgCEPqprPWH5PCM47dQ1yvVTECQkzdqnCZv16 *)
Definition collateralProxy : PublicKey := mkPublicKey
  [39; 86; 76; 98; 4; 139; 84; 103; 136; 185; 34; 97; 216; 111; 160; 167;
   209; 50; 171; 171; 117; 82; 208; 169; 36; 99; 2; 34; 194; 115; 91; 73].

(** CcuoBwMZJgupcdx81m3vYqBongw2PhhZ4yiYA2jo3K5 *)
Definition assetAddress : PublicKey := mkPublicKey
  [2; 249; 254; 39; 42; 35; 126; 181; 213; 191; 84; 237; 182; 73; 129; 131;
   19; 95; 242; 14; 179; 119; 150; 167; 75; 155; 30; 169; 56; 210; 142; 144].

(** 4iu37ZckR6MvJhYF7jbAcva3e6io29ABP1b3F7FpBbcT *)
Definition recipient : PublicKey := mkPublicKey
  [55; 78; 182; 52; 52; 141; 15; 37; 237; 129; 242; 155; 209; 248; 236; 176;
   102; 158; 208; 45; 32; 142; 138; 26; 196; 190; 168; 71; 248; 199; 31; 144].

Definition range (from : Z) (n : nat) : list Z :=
  map (fun i => from + Z.of_nat i) (seq 0 n).

Definition senderKey : PublicKey := mkPublicKey (range 1 32).
Definition coordinatorKey : PublicKey := mkPublicKey (range 101 32).
Definition executorKey : PublicKey := mkPublicKey (range 201 32).
Definition programKey : PublicKey := mkPublicKey (range 51 32).
Definition sender : Keypair := mkKeypair senderKey (range 1 64).

Definition salt : list Z :=
  [233; 173; 254; 8; 92; 182; 238; 44; 197; 203; 46; 217; 52; 2; 101; 34;
   53; 98; 96; 114; 235; 77; 203; 151; 182; 120; 234; 66; 7; 21; 52; 21].

Definition request : WithdrawCollateral :=
  mkWithdrawCollateral 1000000 1763066371 salt.

Definition coordinatorSignature : list Z := range 0 64.

(** Stand-ins for address derivation and signing: any functions do; these
    have the right output sizes for 32-byte keys and digests. *)
#[export] Instance solana : Solana := {
  findProgramAddressSync seeds programId :=
    mkPublicKey (take 32 (concat (drop 2 seeds) ++ toBuffer programId));
  getAssociatedTokenAddress mint owner :=
    mkPublicKey (zip_with Z.lxor (toBuffer mint) (toBuffer owner));
  nacl_sign_detached msg secret := take 64 (msg ++ secret)
}.

(** A scripted world: what the approval record holds, the executors of the
    coordinator, and whether the ledger rejects transactions. *)
Record Script := mkScript {
  approvalRecord : option CollateralAdminSignatures;
  approvers : option (list PublicKey);
  rejection : option string
}.

#[export] Instance network : Network Script := {
  randomBytes n w := (take n salt, w);
  account_collateral_fetch _ w := Answer (mkCollateralAccount 7 coordinatorKey);
  account_coordinator_fetch _ w := Answer (mkCoordinatorAccount (approvers w));
  account_collateralAdminSignatures_fetchNullable _ w := Answer (approvalRecord w);
  rpc_getOrCreateAssociatedTokenAccount payer mint owner w :=
    (Answer (mkTokenAccount (getAssociatedTokenAddress mint owner)), w);
  rpc_sendAndConfirmTransaction tx txSigners w :=
    match rejection w with
    | Some reason => (Failure reason, w)
    | None => (Answer "5VERv8NMvzbJMEkV8xnrLkEaWRtSz9CosKDYjCJjBRnb"%string, w)
    end
}.

Definition approved : Script :=
  mkScript (Some (mkCollateralAdminSignatures [executorKey; senderKey]))
           (Some [executorKey]) None.

Definition fresh : Script := mkScript None (Some [executorKey]) None.

Definition racing : Script :=
  mkScript None (Some [executorKey]) (Some "DuplicateApproval"%string).

Definition unconfigured : Script := mkScript None (Some []) None.

Definition shared : Script :=
  mkScript None (Some [executorKey; coordinatorKey; senderKey]) None.

Definition validEntry : Ed25519.SignatureVerificationData :=
  Ed25519.mkSignatureVerificationData senderKey (range 0 64) (range 100 32).

Definition badEntry : Ed25519.SignatureVerificationData :=
  Ed25519.mkSignatureVerificationData senderKey [] (range 100 32).

End Fixture.

(** The approval record already lists the sender (step 2 of the flow). *)
Definition recorded (account : option CollateralAdminSignatures)
    (pk : PublicKey) : Prop :=
  exists a, account = Some a /\ pk ∈ signers a.

(** ** One withdrawal in the scripted worlds: names for its parts *)
Module Scenario.
Import Fixture.

Definition collateralAccount : CollateralAccount :=
  mkCollateralAccount 7 coordinatorKey.

(** The instruction built for a single entry (empty if the builder throws). *)
Definition verifyOf (e : Ed25519.SignatureVerificationData)
    : Ed25519.TransactionInstruction :=
  match Ed25519.createSignatureVerificationInstruction [e] with
  | Ok ix => ix
  | Throw _ => Ed25519.mkTransactionInstruction [] Ed25519.ed25519ProgramId []
  end.

Abbreviation withdrawRequest :=
  (mkWithdrawCollateral 1000000 1763066371 salt).

Abbreviation nonce := (adminFundsNonce collateralAccount).

Abbreviation pda :=
  (CollateralPDA.generateWithdrawCollateralPDA collateralProxy
     (publicKey sender) recipient assetAddress withdrawRequest nonce
     programKey).

Abbreviation custodyDigest :=
  (Collateral.getWithdrawMessage collateralProxy (publicKey sender) recipient
     assetAddress withdrawRequest salt nonce).

Abbreviation coordinatorDigest :=
  (Coordinator.getWithdrawMessage collateralProxy
     (coordinator collateralAccount) (publicKey sender) recipient
     assetAddress withdrawRequest nonce).

Abbreviation custodySignature :=
  (nacl_sign_detached custodyDigest (secretKey sender)).

Abbreviation custodyEntry :=
  (Ed25519.mkSignatureVerificationData (publicKey sender) custodySignature
     custodyDigest).

Abbreviation coordinatorEntry :=
  (Ed25519.mkSignatureVerificationData executorKey coordinatorSignature
     coordinatorDigest).

Abbreviation destination :=
  (mkTokenAccount (getAssociatedTokenAddress assetAddress recipient)).

Abbreviation approvalTx :=
  (mkTransaction
     [IxVerify (verifyOf custodyEntry);
      IxSubmitSignatures
        (mkSubmitSignaturesArgs [salt] nonce (publicKey sender) recipient
           assetAddress withdrawRequest collateralProxy pda
           (publicKey sender))]).

Abbreviation withdrawalTx :=
  (mkTransaction
     [IxVerify (verifyOf coordinatorEntry);
      IxWithdrawCollateralAsset
        (mkWithdrawCollateralAssetArgs withdrawRequest (publicKey sender)
           recipient assetAddress
           (getAssociatedTokenAddress assetAddress collateralProxy)
           (address destination) (coordinator collateralAccount)
           collateralProxy pda)]).

Abbreviation prefix :=
  [CallFetchCollateral collateralProxy;
   CallGetOrCreateTokenAccount assetAddress recipient].

Abbreviation approvalCalls :=
  [CallFetchNullableAdminSignatures pda;
   CallSendTransaction approvalTx [sender]].

Abbreviation execute w :=
  (Withdraw.executeWithdrawal programKey collateralProxy collateralProxy
     sender recipient assetAddress 1763066371 1000000 salt
     coordinatorSignature (w, [])).

End Scenario.

(** ** Reading a verification blob the way its consumer does

    The consumer of the instruction (the Ed25519 signature-verification
    program) takes the entry count from byte 0 and, for each entry, the seven
    little-endian 16-bit fields of its descriptor at [2 + 14 i]; it then
    reads the signature (64 bytes), the public key (32 bytes) and the
    message (as many bytes as the descriptor says) at the offsets found
    there, in the current instruction (index 0xFFFF). *)
Module Reader.

(** [buf.readUInt16LE(offset)]; nothing outside the buffer. *)
Definition readUInt16LE (buf : list Z) (offset : nat) : option Z :=
  match buf !! offset, buf !! S offset with
  | Some lo, Some hi => Some (lo + 256 * hi)
  | _, _ => None
  end.

(** [len] bytes from [offset]; nothing if they are not all there. *)
Definition readBytes (buf : list Z) (offset len : nat) : option (list Z) :=
  if (offset + len <=? length buf)%nat
  then Some (take len (drop offset buf))
  else None.

Record Offsets := mkOffsets {
  signature_offset : Z;
  signature_instruction_index : Z;
  public_key_offset : Z;
  public_key_instruction_index : Z;
  message_data_offset : Z;
  message_data_size : Z;
  message_instruction_index : Z
}.

Definition readOffsets (buf : list Z) (i : nat) : option Offsets :=
  let start := (2 + i * 14)%nat in
  so ← readUInt16LE buf start;
  si ← readUInt16LE buf (start + 2);
  po ← readUInt16LE buf (start + 4);
  pi ← readUInt16LE buf (start + 6);
  mo ← readUInt16LE buf (start + 8);
  ms ← readUInt16LE buf (start + 10);
  mi ← readUInt16LE buf (start + 12);
  Some (mkOffsets so si po pi mo ms mi).

Definition readEntry (buf : list Z) (i : nat)
    : option Ed25519.SignatureVerificationData :=
  o ← readOffsets buf i;
  if (signature_instruction_index o =? 65535)
     && (public_key_instruction_index o =? 65535)
     && (message_instruction_index o =? 65535)
  then
    sig ← readBytes buf (Z.to_nat (signature_offset o)) 64;
    key ← readBytes buf (Z.to_nat (public_key_offset o)) 32;
    msg ← readBytes buf (Z.to_nat (message_data_offset o))
                    (Z.to_nat (message_data_size o));
    Some (Ed25519.mkSignatureVerificationData (mkPublicKey key) sig msg)
  else None.

Definition readAll (buf : list Z)
    : option (list Ed25519.SignatureVerificationData) :=
  count ← buf !! 0%nat;
  mapM (readEntry buf) (seq 0 (Z.to_nat count)).

End Reader.

(** ** The codecs at the level of bytes

    What the hex strings of [HashUtils] stand for once they are decoded:
    fixed-width big-endian integers and plain byte strings, and the three
    byte strings that are hashed for a withdrawal message. *)
Module Wire.

(** [k] hex digits of [v], most significant first. *)
Definition digits16 (k : nat) (v : Z) : string :=
  string_of_list_ascii
    (map (fun i => Js.hexDigit ((v / 16 ^ Z.of_nat i) mod 16)) (rev (seq 0 k))).

(** [n] bytes of [v], most significant first, and back. *)
Definition bigEndian (n : nat) (v : Z) : list Z :=
  map (fun i => (v / 256 ^ Z.of_nat i) mod 256) (rev (seq 0 n)).

Definition fromBigEndian (bytes : list Z) : Z :=
  fold_left (fun acc b => acc * 256 + b) bytes 0.

Definition typeHashBytes (signature : string) : list Z :=
  Keccak.keccak256 (Js.Utf8_parse signature).

Definition domainBytes (name version : string) (chainId : Z)
    (verifyingContract : PublicKey) (salt : list Z) : list Z :=
  typeHashBytes "EIP712Domain(string name,string version,uint256 chainId,address verifyingContract,bytes32 salt)"
  ++ typeHashBytes name ++ typeHashBytes version
  ++ bigEndian 8 chainId ++ toBuffer verifyingContract ++ salt.

Definition custodyStructBytes (collateral sender receiver asset : PublicKey)
    (amount nonce : Z) : list Z :=
  typeHashBytes "Withdraw(address user,address asset,uint256 amount,address recipient,uint256 nonce)"
  ++ toBuffer sender ++ toBuffer collateral ++ toBuffer asset
  ++ bigEndian 8 amount ++ toBuffer receiver ++ bigEndian 4 nonce.

Definition coordinatorStructBytes
    (collateral sender receiver asset : PublicKey)
    (amount nonce expiresAt : Z) : list Z :=
  typeHashBytes "Withdraw(address user,address collateral,address asset,uint256 amount,address recipient,uint256 nonce,uint256 expiresAt)"
  ++ toBuffer sender ++ toBuffer collateral ++ toBuffer asset
  ++ bigEndian 8 amount ++ toBuffer receiver ++ bigEndian 4 nonce
  ++ bigEndian 8 expiresAt.

(** The digest of a domain and a struct: the two-byte prefix, then the two
    32-byte hashes. *)
Definition finalDigest (domain struct : list Z) : list Z :=
  Keccak.keccak256
    ([0x19; 0x01] ++ Keccak.keccak256 domain ++ Keccak.keccak256 struct).

(** A public key made of bytes, and one of the 32 bytes every
    [PublicKey] of web3.js holds. *)
Definition key_bytes (k : PublicKey) : Prop := Forall Spec.is_byte (toBuffer k).

Definition key32 (k : PublicKey) : Prop :=
  length (toBuffer k) = 32%nat /\ key_bytes k.

End Wire.

(** ** The shape of a run of src/withdraw.ts: kinds of transport calls *)
Module Trace.

Inductive Kind :=
| FetchCollateral
| GetTokenAccount
| FetchApproval
| FetchCoordinator
| SendApproval
| SendWithdrawal
| SendOther.

(** A transaction is known by its instructions: the verification
    instruction followed by the program instruction. *)
Definition kindOfTransaction (tx : Transaction) : Kind :=
  match instructions tx with
  | [IxVerify _; IxSubmitSignatures _] => SendApproval
  | [IxVerify _; IxWithdrawCollateralAsset _] => SendWithdrawal
  | _ => SendOther
  end.

Definition kind (c : Call) : Kind :=
  match c with
  | CallFetchCollateral _ => FetchCollateral
  | CallGetOrCreateTokenAccount _ _ => GetTokenAccount
  | CallFetchNullableAdminSignatures _ => FetchApproval
  | CallFetchCoordinator _ => FetchCoordinator
  | CallSendTransaction tx _ => kindOfTransaction tx
  end.

(** Every transaction of the log is signed by [signer] alone. *)
Definition signedBy (signer : Keypair) (c : Call) : Prop :=
  match c with
  | CallSendTransaction _ txSigners => txSigners = [signer]
  | _ => True
  end.

(** The errors a run can end with. *)
Definition SignatureSizeError : Thrown :=
  JsError "Signature size must be 64 bytes".

Definition expected (t : Thrown) : Prop :=
  t = SignatureSizeError \/
  t = NoApproverConfigured \/
  exists reason, t = TransportFailure reason.

(** The two transactions of src/withdraw.ts and the entries their
    verification instructions are built from. *)
Section Transactions.
Context `{Solana}.
Variables (programId collateral depositAddress : PublicKey) (sender : Keypair).
Variables (recipientAddress mintAddress : PublicKey).
Variable (withdrawRequest : WithdrawCollateral).

Definition approvalEntry (nonce : Z) (salt : list Z)
    : Ed25519.SignatureVerificationData :=
  let collateralMessage :=
    Collateral.getWithdrawMessage collateral (publicKey sender)
      recipientAddress mintAddress withdrawRequest salt nonce in
  Ed25519.mkSignatureVerificationData (publicKey sender)
    (nacl_sign_detached collateralMessage (secretKey sender))
    collateralMessage.

Definition approvalTransaction (nonce : Z) (salt : list Z)
    (verify : Ed25519.TransactionInstruction) : Transaction :=
  mkTransaction
    [IxVerify verify;
     IxSubmitSignatures
       (mkSubmitSignaturesArgs [salt] nonce (publicKey sender)
          recipientAddress mintAddress withdrawRequest collateral
          (CollateralPDA.generateWithdrawCollateralPDA collateral
             (publicKey sender) recipientAddress mintAddress withdrawRequest
             nonce programId)
          (publicKey sender))].

Definition withdrawalEntry (account : CollateralAccount) (executor : PublicKey)
    (signatureData : list Z) : Ed25519.SignatureVerificationData :=
  Ed25519.mkSignatureVerificationData executor signatureData
    (Coordinator.getWithdrawMessage collateral (coordinator account)
       (publicKey sender) recipientAddress mintAddress withdrawRequest
       (adminFundsNonce account)).

Definition withdrawalTransaction (account : CollateralAccount)
    (destination : TokenAccount) (verify : Ed25519.TransactionInstruction)
    : Transaction :=
  mkTransaction
    [IxVerify verify;
     IxWithdrawCollateralAsset
       (mkWithdrawCollateralAssetArgs withdrawRequest (publicKey sender)
          recipientAddress mintAddress
          (getAssociatedTokenAddress mintAddress depositAddress)
          (address destination) (coordinator account) collateral
          (CollateralPDA.generateWithdrawCollateralPDA collateral
             (publicKey sender) recipientAddress mintAddress withdrawRequest
             (adminFundsNonce account) programId))].

End Transactions.

End Trace.

(** * Proofs *)

Lemma land_255 v : Z.land v 255 = v mod 256.
Proof. change 255 with (Z.ones 8). rewrite Z.land_ones by lia. reflexivity. Qed.

Lemma shiftr_8 v : Z.shiftr v 8 = v / 256.
Proof. rewrite Z.shiftr_div_pow2 by lia. reflexivity. Qed.

(** ** The verification blob *)
Section Ed25519Proofs.
Import Ed25519 Layout.

Lemma writeUInt16LE_ok v off buf :
  0 <= v <= 65535 -> (off + 2 <= length buf)%nat ->
  writeUInt16LE v off buf = Ok (<[S off := v / 256]> (<[off := v mod 256]> buf)).
Proof.
  intros Hv Hoff. unfold writeUInt16LE.
  destruct (Z.ltb_spec v 0); [lia|].
  destruct (Z.ltb_spec 65535 v); [lia|]. simpl.
  destruct (Nat.ltb_spec (length buf) (off + 2)); [lia|].
  by rewrite land_255, shiftr_8.
Qed.

Lemma SignatureStructure_toBuffer_ok N i :
  Z.of_nat (messageOffset N i) <= 65535 ->
  SignatureStructure_toBuffer (SignatureStructure_new i (dataRegionStart N))
  = Ok (descriptor N i).
Proof.
  intros Hm. unfold SignatureStructure_toBuffer, SignatureStructure_new.
  cbn [signatureOffset publicKeyOffset messageOffset Ed25519.signatureOffset
       Ed25519.publicKeyOffset Ed25519.messageOffset].
  unfold descriptor, sentinel.
  unfold messageOffset, signatureOffset, publicKeyOffset, dataRegionStart in *.
  unfold INSTRUCTION_INDEX, MESSAGE_SIZE, SIGNATURE_DATA_SIZE, PUBKEY_SIZE,
    SIGNATURE_SIZE, MESSAGE_SIZE, SIGNATURE_STRUCTURE_SIZE, alloc.
  change (2 ^ 16 - 1) with 65535. change (32 + 64 + 32)%nat with 128%nat.
  change (Z.of_nat 32) with 32.
  cbn [repeat].
  repeat (rewrite writeUInt16LE_ok; [ cbn [rbind] | lia | cbn; lia ]).
  reflexivity.
Qed.

Lemma copy_at (l1 old new l3 : list Z) off :
  off = length l1 -> length new = length old ->
  copy new (l1 ++ old ++ l3) off = l1 ++ new ++ l3.
Proof.
  intros -> Hlen. unfold copy.
  replace (length l1) with (length l1 + 0)%nat by lia.
  rewrite list_inserts_app_r. f_equal. by apply list_inserts_0_r.
Qed.

Lemma descriptor_length N i : length (descriptor N i) = 14%nat.
Proof. reflexivity. Qed.

Lemma descriptors_length N i rest :
  length (descriptors N i rest) = (14 * length rest)%nat.
Proof.
  revert i. induction rest as [|e rest IH]; intros i; [done|].
  cbn [descriptors]. rewrite length_app, IH, descriptor_length. simpl. lia.
Qed.

Lemma entryData_length e : valid_entry e -> length (entryData e) = 128%nat.
Proof.
  intros (Hk & Hs & Hm). unfold entryData. rewrite !length_app. lia.
Qed.

Lemma flat_map_entryData_length l :
  Forall valid_entry l -> length (flat_map entryData l) = (128 * length l)%nat.
Proof.
  induction 1 as [|e l He Hl IH]; [done|].
  cbn [flat_map]. rewrite length_app, IH, entryData_length by done. simpl. lia.
Qed.

Lemma writeSignature_ok N i e pre mid z1 z2 :
  valid_entry e ->
  length pre = (2 + 14 * i)%nat ->
  length z1 = (dataRegionStart N - (2 + 14 * S i))%nat ->
  (2 + 14 * S i <= dataRegionStart N)%nat ->
  length mid = (128 * i)%nat ->
  Z.of_nat (messageOffset N i) <= 65535 ->
  writeSignature (dataRegionStart N) i e
    (pre ++ repeat 0 14 ++ z1 ++ mid ++ repeat 0 128 ++ z2)
  = Ok ((pre ++ descriptor N i) ++ z1 ++ (mid ++ entryData e) ++ z2).
Proof.
  intros (Hk & Hs & Hm) Hpre Hz1 Hle Hmid Hoff. unfold writeSignature.
  rewrite Hs, Hm. simpl negb. cbv iota.
  rewrite SignatureStructure_toBuffer_ok by done. cbn [rbind].
  cbn [Ed25519.structureOffset Ed25519.publicKeyOffset
       Ed25519.signatureOffset Ed25519.messageOffset SignatureStructure_new].
  unfold SIGNATURE_STRUCTURE_SIZE, SIGNATURE_DATA_SIZE, PUBKEY_SIZE,
    SIGNATURE_SIZE, MESSAGE_SIZE. 
  rewrite (copy_at pre (repeat 0 14) (descriptor N i)) by (done || lia).
  change (repeat 0 128) with (repeat 0 32 ++ repeat 0 64 ++ repeat 0 32).
  set (D := descriptor N i).
  assert (HD : length D = 14%nat) by reflexivity.
  replace (pre ++ D ++ z1 ++ mid ++ (repeat 0 32 ++ repeat 0 64 ++ repeat 0 32) ++ z2)
    with ((pre ++ D ++ z1 ++ mid) ++ repeat 0 32 ++ (repeat 0 64 ++ repeat 0 32 ++ z2))
    by (by rewrite <- ?app_assoc).
  rewrite (copy_at _ (repeat 0 32) (toBuffer (signer e)));
    [ | rewrite !length_app; unfold dataRegionStart in *; lia | by rewrite Hk ].
  replace ((pre ++ D ++ z1 ++ mid) ++ toBuffer (signer e) ++ repeat 0 64 ++ repeat 0 32 ++ z2)
    with ((pre ++ D ++ z1 ++ mid ++ toBuffer (signer e)) ++ repeat 0 64 ++ (repeat 0 32 ++ z2))
    by (by rewrite <- ?app_assoc).
  rewrite (copy_at _ (repeat 0 64) (signature e));
    [ | rewrite !length_app; unfold dataRegionStart in *; lia | by rewrite Hs ].
  replace ((pre ++ D ++ z1 ++ mid ++ toBuffer (signer e)) ++ signature e ++ repeat 0 32 ++ z2)
    with ((pre ++ D ++ z1 ++ mid ++ toBuffer (signer e) ++ signature e) ++ repeat 0 32 ++ z2)
    by (by rewrite <- ?app_assoc).
  rewrite (copy_at _ (repeat 0 32) (message e));
    [ | rewrite !length_app; unfold dataRegionStart in *; lia | by rewrite Hm ].
  unfold entryData. by rewrite <- ?app_assoc.
Qed.

Lemma writeSignatures_image N rest : forall i pre mid,
  Forall valid_entry rest ->
  (i + length rest = N)%nat -> (N <= 255)%nat ->
  length pre = (2 + 14 * i)%nat ->
  length mid = (128 * i)%nat ->
  writeSignatures (dataRegionStart N) i rest
    (pre ++ repeat 0 (14 * length rest) ++ mid ++ repeat 0 (128 * length rest))
  = Ok (pre ++ descriptors N i rest ++ mid ++ flat_map entryData rest).
Proof.
  induction rest as [|e rest IH]; intros i pre mid Hv HN Hcap Hpre Hmid.
  - simpl. by rewrite ?app_nil_r.
  - apply Forall_cons in Hv as [He Hv]. simpl length in *.
    cbn [writeSignatures].
    replace (14 * S (length rest))%nat with (14 + 14 * length rest)%nat by lia.
    replace (128 * S (length rest))%nat with (128 + 128 * length rest)%nat by lia.
    rewrite !repeat_app, <- !app_assoc.
    rewrite (writeSignature_ok N i e pre mid); try done.
    + cbn [rbind]. rewrite (IH (S i)); try done; try lia.
      * cbn [descriptors flat_map]. by rewrite <- ?app_assoc.
      * rewrite length_app, descriptor_length. lia.
      * rewrite length_app, entryData_length by done. lia.
    + rewrite repeat_length. unfold dataRegionStart. lia.
    + unfold dataRegionStart. lia.
    + unfold messageOffset, signatureOffset, publicKeyOffset, dataRegionStart. lia.
Qed.

Lemma createSignatureVerificationInstruction_image sigs :
  (length sigs <= 255)%nat -> Forall valid_entry sigs ->
  createSignatureVerificationInstruction sigs
  = Ok (mkTransactionInstruction [] ed25519ProgramId (image sigs)).
Proof.
  intros Hcap Hv. unfold createSignatureVerificationInstruction.
  set (N := length sigs) in *.
  unfold writeUInt8.
  destruct (Z.ltb_spec (Z.of_nat N) 0); [lia|].
  destruct (Z.ltb_spec 255 (Z.of_nat N)); [lia|]. simpl orb. cbv iota.
  unfold alloc, SIGNATURE_DATA_PLUS_STRUCTURE_SIZE, SIGNATURE_STRUCTURE_SIZE,
    SIGNATURE_DATA_SIZE, PUBKEY_SIZE, SIGNATURE_SIZE, MESSAGE_SIZE.
  rewrite repeat_length.
  destruct (Nat.ltb_spec (N * (14 + (32 + 64 + 32)) + 2) (0 + 1)); [lia|].
  cbn [rbind].
  replace (N * (14 + (32 + 64 + 32)) + 2)%nat with (2 + (14 * N + (0 + 128 * N)))%nat by lia.
  rewrite !repeat_app. cbn [repeat app].
  change (<[0%nat:=Z.of_nat N]> (0 :: 0 :: repeat 0 (14 * N) ++ repeat 0 (128 * N)))
    with ([Z.of_nat N; 0] ++ repeat 0 (14 * N) ++ [] ++ repeat 0 (128 * N)).
  change (N * 14 + 2)%nat with (dataRegionStart N).
  unfold N. rewrite (writeSignatures_image (length sigs) sigs 0 [Z.of_nat (length sigs); 0] []);
    try done; try lia.
Qed.

Lemma descriptors_app N l1 : forall i l2,
  descriptors N i (l1 ++ l2)
  = descriptors N i l1 ++ descriptors N (i + length l1) l2.
Proof.
  induction l1 as [|e l1 IH]; intros i l2.
  - simpl. by rewrite Nat.add_0_r.
  - cbn [descriptors app length]. rewrite IH, <- app_assoc.
    by replace (S i + length l1)%nat with (i + S (length l1))%nat by lia.
Qed.

Lemma slice_app (a b c : list Z) off len :
  off = length a -> len = length b -> slice (a ++ b ++ c) off len = b.
Proof.
  intros -> ->. unfold slice.
  rewrite drop_app_length. by rewrite take_app_length.
Qed.

(** What the four documented reads see in [image sigs] at entry [i]. *)
Lemma image_entry sigs i e :
  Forall valid_entry sigs -> sigs !! i = Some e ->
  let N := length sigs in
  slice (image sigs) (2 + i * 14) 14 = descriptor N i /\
  slice (image sigs) (publicKeyOffset N i) 32 = toBuffer (signer e) /\
  slice (image sigs) (signatureOffset N i) 64 = signature e /\
  slice (image sigs) (messageOffset N i) 32 = message e.
Proof.
  intros Hv Hi. cbv zeta. unfold image.
  remember (length sigs) as N eqn:HN.
  destruct (list_elem_of_split_length _ _ _ Hi) as (l1 & l2 & Hsplit & Hlen).
  assert (Hv' := Hv). rewrite Hsplit in Hv'.
  apply Forall_app in Hv' as [Hv1 Hv2]. apply Forall_cons in Hv2 as [He Hv2].
  destruct He as (Hk & Hs & Hm).
  assert (Himg : [Z.of_nat N; 0] ++ descriptors N 0 sigs ++ flat_map entryData sigs =
    ([Z.of_nat N; 0] ++ descriptors N 0 l1) ++ descriptor N i ++
    (descriptors N (S i) l2 ++ flat_map entryData l1) ++
    toBuffer (signer e) ++ signature e ++ message e ++ flat_map entryData l2).
  { rewrite Hsplit.
    rewrite descriptors_app, flat_map_app. cbn [descriptors flat_map].
    unfold entryData at 2. rewrite Nat.add_0_l, <- Hlen.
    by rewrite <- ?app_assoc. }
  assert (HN' : N = (i + S (length l2))%nat).
  { rewrite HN, Hsplit, length_app, Hlen. reflexivity. }
  assert (Hpre : length ([Z.of_nat N; 0] ++ descriptors N 0 l1) = (2 + i * 14)%nat).
  { rewrite length_app, descriptors_length. simpl. lia. }
  assert (Hmid : length (descriptors N (S i) l2 ++ flat_map entryData l1)
                 = (14 * length l2 + 128 * i)%nat).
  { rewrite length_app, descriptors_length, flat_map_entryData_length by done. lia. }
  rewrite Himg. clear Himg.
  set (P := [Z.of_nat N; 0] ++ descriptors N 0 l1) in *.
  set (D := descriptor N i). assert (HD : length D = 14%nat) by reflexivity.
  set (Q := descriptors N (S i) l2 ++ flat_map entryData l1) in *.
  set (R := flat_map entryData l2).
  unfold messageOffset, signatureOffset, publicKeyOffset, dataRegionStart.
  repeat split.
  - by apply slice_app.
  - replace (P ++ D ++ Q ++ toBuffer (signer e) ++ signature e ++ message e ++ R)
      with ((P ++ D ++ Q) ++ toBuffer (signer e) ++ (signature e ++ message e ++ R))
      by (by rewrite <- ?app_assoc).
    apply slice_app; [rewrite !length_app; lia | done].
  - replace (P ++ D ++ Q ++ toBuffer (signer e) ++ signature e ++ message e ++ R)
      with ((P ++ D ++ Q ++ toBuffer (signer e)) ++ signature e ++ (message e ++ R))
      by (by rewrite <- ?app_assoc).
    apply slice_app; [rewrite !length_app; lia | done].
  - replace (P ++ D ++ Q ++ toBuffer (signer e) ++ signature e ++ message e ++ R)
      with ((P ++ D ++ Q ++ toBuffer (signer e) ++ signature e) ++ message e ++ R)
      by (by rewrite <- ?app_assoc).
    apply slice_app; [rewrite !length_app; lia | done].
Qed.

Lemma image_length sigs :
  Forall valid_entry sigs -> length (image sigs) = (length sigs * 142 + 2)%nat.
Proof.
  intros Hv. unfold image.
  rewrite !length_app, descriptors_length, flat_map_entryData_length by done.
  simpl. lia.
Qed.

(** C3: for every list of N valid entries, 1 <= N <= 255, the call returns
    an instruction without accounts whose blob has N * 142 + 2 bytes, byte 0
    equal to N, for every entry i the 14-byte descriptor at 2 + i * 14 made
    of the little-endian 16-bit fields signature offset, sentinel,
    public-key offset, sentinel, message offset, 32, sentinel, and the
    entry's 32-byte key, 64-byte signature and 32-byte message at
    publicKeyOffset = i * 128 + N * 14 + 2, publicKeyOffset + 32 and
    publicKeyOffset + 96. *)
Theorem createSignatureVerificationInstruction_layout sigs :
  (1 <= length sigs <= 255)%nat -> Forall valid_entry sigs ->
  exists ix,
    createSignatureVerificationInstruction sigs = Ok ix /\
    keys ix = [] /\
    length (data ix) = (length sigs * 142 + 2)%nat /\
    data ix !! 0%nat = Some (Z.of_nat (length sigs)) /\
    forall i e, sigs !! i = Some e ->
      slice (data ix) (2 + i * 14) 14 = descriptor (length sigs) i /\
      slice (data ix) (publicKeyOffset (length sigs) i) 32 = toBuffer (signer e) /\
      slice (data ix) (signatureOffset (length sigs) i) 64 = signature e /\
      slice (data ix) (messageOffset (length sigs) i) 32 = message e.
Proof.
  intros [_ Hcap] Hv. eexists. split.
  - by apply createSignatureVerificationInstruction_image.
  - cbn [data keys]. split; [done|]. split; [by apply image_length|].
    split; [done|]. intros i e Hi. by apply image_entry.
Qed.

(** C4: round trip.  For every valid list of 1 to 255 entries, reading the
    produced blob back at the documented offsets gives the very list of
    entries (keys, signatures and messages byte for byte). *)
Theorem createSignatureVerificationInstruction_roundtrip sigs :
  (1 <= length sigs <= 255)%nat -> Forall valid_entry sigs ->
  exists ix,
    createSignatureVerificationInstruction sigs = Ok ix /\
    decode (data ix) (length sigs) = sigs.
Proof.
  intros [_ Hcap] Hv. eexists. split.
  - by apply createSignatureVerificationInstruction_image.
  - cbn [data]. apply list_eq. intros i. unfold decode.
    rewrite list_lookup_fmap.
    destruct (sigs !! i) as [e|] eqn:Hi.
    + rewrite lookup_seq_lt by (by eapply lookup_lt_Some).
      simpl. f_equal. unfold decodeEntry.
      destruct (image_entry sigs i e Hv Hi) as (_ & -> & -> & ->).
      by destruct e as [[k] s m].
    + rewrite lookup_seq_ge; [done|]. by apply lookup_ge_None.
Qed.

Lemma writeSignature_rejects start i e buf :
  ~ sizes_ok e ->
  exists t, InvalidEntrySize t /\ writeSignature start i e buf = Throw t.
Proof.
  intros Hbad. unfold writeSignature, SIGNATURE_SIZE, MESSAGE_SIZE.
  destruct (Nat.eqb_spec (length (signature e)) 64%nat) as [Hs|Hs]; simpl.
  - destruct (Nat.eqb_spec (length (message e)) 32%nat) as [Hm|Hm]; simpl.
    + by destruct Hbad.
    + eexists. split; [by right | done].
  - eexists. split; [by left | done].
Qed.

Lemma writeSignature_accepts N i e buf :
  sizes_ok e -> Z.of_nat (messageOffset N i) <= 65535 ->
  exists buf', writeSignature (dataRegionStart N) i e buf = Ok buf'.
Proof.
  intros [Hs Hm] Hoff. unfold writeSignature. rewrite Hs, Hm. simpl negb. cbv iota.
  rewrite SignatureStructure_toBuffer_ok by done. cbn [rbind]. eauto.
Qed.

Lemma sizes_ok_dec e : {sizes_ok e} + {~ sizes_ok e}.
Proof.
  unfold sizes_ok.
  destruct (Nat.eq_dec (length (signature e)) 64%nat);
  destruct (Nat.eq_dec (length (message e)) 32%nat); intuition.
Qed.

Lemma writeSignatures_rejects N rest : forall i buf,
  (i + length rest <= 255)%nat -> (i + length rest <= N)%nat ->
  (N <= 255)%nat ->
  Exists (fun e => ~ sizes_ok e) rest ->
  exists t, InvalidEntrySize t /\
            writeSignatures (dataRegionStart N) i rest buf = Throw t.
Proof.
  induction rest as [|e rest IH]; intros i buf Hcap HN HN' Hex.
  - by apply Exists_nil in Hex.
  - cbn [writeSignatures]. simpl length in *.
    destruct (sizes_ok_dec e) as [Hok|Hbad].
    + destruct (writeSignature_accepts N i e buf Hok) as [buf' ->].
      { unfold messageOffset, signatureOffset, publicKeyOffset, dataRegionStart. lia. }
      cbn [rbind]. apply Exists_cons in Hex as [Hex|Hex]; [done|].
      apply IH; [lia | lia | done | done].
    + destruct (writeSignature_rejects (dataRegionStart N) i e buf Hbad)
        as (t & Ht & ->). by exists t.
Qed.

(** C6 (amended): the size check comes first in the loop body: an entry
    whose signature is not 64 bytes or whose message is not 32 bytes makes
    the body throw one of the two size errors whatever the index, the start
    offset and the buffer, before any offset is computed or written.  For a
    list of at most 255 entries one of which is wrong-sized, the call throws
    a size error and returns no instruction. *)
Theorem createSignatureVerificationInstruction_rejects :
  (forall start i e buf, ~ sizes_ok e ->
     exists t, InvalidEntrySize t /\ writeSignature start i e buf = Throw t) /\
  (forall sigs, (length sigs <= 255)%nat ->
     Exists (fun e => ~ sizes_ok e) sigs ->
     exists t, InvalidEntrySize t /\
               createSignatureVerificationInstruction sigs = Throw t).
Proof.
  split; [apply writeSignature_rejects|].
  intros sigs Hcap Hex. unfold createSignatureVerificationInstruction, writeUInt8.
  destruct (Z.ltb_spec (Z.of_nat (length sigs)) 0); [lia|].
  destruct (Z.ltb_spec 255 (Z.of_nat (length sigs))); [lia|]. simpl orb. cbv iota.
  unfold alloc at 1. rewrite repeat_length.
  destruct (Nat.ltb_spec (length sigs * SIGNATURE_DATA_PLUS_STRUCTURE_SIZE + 2) (0 + 1));
    [lia|].
  cbn [rbind].
  change (length sigs * SIGNATURE_STRUCTURE_SIZE + 2)%nat
    with (dataRegionStart (length sigs)).
  edestruct (writeSignatures_rejects (length sigs) sigs 0) as (t & Ht & ->);
    [simpl; lia | simpl; lia | done | done |].
  by exists t.
Qed.

Lemma createSignatureVerificationInstruction_single e :
  (sizes_ok e ->
     exists ix, createSignatureVerificationInstruction [e] = Ok ix) /\
  (~ sizes_ok e ->
     exists t, createSignatureVerificationInstruction [e] = Throw t) /\
  (forall t, createSignatureVerificationInstruction [e] = Throw t ->
     InvalidEntrySize t).
Proof.
  assert (Hrun : createSignatureVerificationInstruction [e]
    = try! dataBuffer <- writeSignature (dataRegionStart 1) 0 e
                           (<[0%nat := 1]> (alloc 144));
      Ok (mkTransactionInstruction [] ed25519ProgramId dataBuffer)).
  { unfold createSignatureVerificationInstruction. cbn [length writeSignatures].
    change (writeUInt8 (Z.of_nat 1) 0 (alloc (1 * SIGNATURE_DATA_PLUS_STRUCTURE_SIZE + 2)))
      with (Ok (<[0%nat := 1]> (alloc 144))).
    cbn [rbind]. change (1 * SIGNATURE_STRUCTURE_SIZE + 2)%nat with (dataRegionStart 1).
    by destruct (writeSignature _ _ _ _). }
  rewrite Hrun. split; [|split].
  - intros Hok.
    destruct (writeSignature_accepts 1 0 e (<[0%nat := 1]> (alloc 144)) Hok)
      as [buf' ->]; [by vm_compute|]. cbn [rbind]. eauto.
  - intros Hbad.
    destruct (writeSignature_rejects (dataRegionStart 1) 0 e
                (<[0%nat := 1]> (alloc 144)) Hbad) as (t & _ & ->).
    cbn [rbind]. eauto.
  - intros t Ht. destruct (sizes_ok_dec e) as [Hok|Hbad].
    + destruct (writeSignature_accepts 1 0 e (<[0%nat := 1]> (alloc 144)) Hok)
        as [buf' Hw]; [by vm_compute|]. rewrite Hw in Ht. discriminate.
    + destruct (writeSignature_rejects (dataRegionStart 1) 0 e
                  (<[0%nat := 1]> (alloc 144)) Hbad) as (t' & Ht' & Hw).
      rewrite Hw in Ht. cbn [rbind] in Ht. by injection Ht as <-.
Qed.

End Ed25519Proofs.

(** ** The message codecs *)
Section HashProofs.

Lemma bytes_of_lane_length v : length (Keccak.bytes_of_lane v) = 8%nat.
Proof. reflexivity. Qed.

Lemma bytes_of_lane_bytes v : Forall Spec.is_byte (Keccak.bytes_of_lane v).
Proof.
  unfold Keccak.bytes_of_lane. apply Forall_map, Forall_forall. intros j _.
  unfold Spec.is_byte. simpl. rewrite land_255. apply Z.mod_pos_bound. lia.
Qed.

Lemma keccak256_length msg : length (Keccak.keccak256 msg) = 32%nat.
Proof. reflexivity. Qed.

Lemma keccak256_bytes msg : Forall Spec.is_byte (Keccak.keccak256 msg).
Proof.
  unfold Keccak.keccak256, Keccak.squeeze32.
  repeat (apply Forall_app; split); apply bytes_of_lane_bytes.
Qed.

Lemma append_nil_r (s : string) : (s ++ "")%string = s.
Proof. induction s as [|c s IH]; simpl; [done | by rewrite IH]. Qed.

Lemma append_assoc (a b c : string) :
  ((a ++ b) ++ c)%string = (a ++ (b ++ c))%string.
Proof. induction a as [|x a IH]; simpl; [done | by rewrite IH]. Qed.

Lemma append_length (a b : string) :
  String.length (a ++ b) = (String.length a + String.length b)%nat.
Proof. induction a as [|x a IH]; simpl; [done | by rewrite IH]. Qed.

Lemma concat_empty_cons (x : string) (xs : list string) :
  String.concat "" (x :: xs) = (x ++ String.concat "" xs)%string.
Proof. destruct xs; simpl; [by rewrite append_nil_r | done]. Qed.

Lemma toHex_cons b bs :
  Js.toHex (b :: bs) = (Js.byteToHex b ++ Js.toHex bs)%string.
Proof. unfold Js.toHex. cbn [map]. apply concat_empty_cons. Qed.

Lemma toHex_length bs : String.length (Js.toHex bs) = (2 * length bs)%nat.
Proof.
  induction bs as [|b bs IH]; [done|].
  rewrite toHex_cons, append_length, IH. simpl. lia.
Qed.

Lemma hexVal_hexDigit d : 0 <= d < 16 -> Js.hexVal (Js.hexDigit d) = Some d.
Proof.
  intros Hd.
  assert (H : d = 0 \/ d = 1 \/ d = 2 \/ d = 3 \/ d = 4 \/ d = 5 \/ d = 6 \/
              d = 7 \/ d = 8 \/ d = 9 \/ d = 10 \/ d = 11 \/ d = 12 \/
              d = 13 \/ d = 14 \/ d = 15) by lia.
  repeat (destruct H as [-> | H]; [reflexivity|]). by subst.
Qed.

Lemma Buffer_from_hex_toHex bs :
  Forall Spec.is_byte bs -> Js.Buffer_from_hex (Js.toHex bs) = bs.
Proof.
  induction 1 as [|b bs Hb Hbs IH]; [done|].
  rewrite toHex_cons. unfold Js.byteToHex. cbn [String.append Js.Buffer_from_hex].
  unfold Spec.is_byte in Hb.
  rewrite !hexVal_hexDigit by (apply Z.mod_pos_bound; lia).
  rewrite IH. f_equal.
  rewrite (Z.mod_small (b / 16)) by (split; [apply Z.div_pos; lia | apply Z.div_lt_upper_bound; lia]).
  pose proof (Z.div_mod b 16). lia.
Qed.

Lemma keccak256Hex_decoded data :
  Js.Buffer_from_hex (HashUtils.keccak256Hex data)
  = Keccak.keccak256 (Js.Hex_parse data).
Proof.
  unfold HashUtils.keccak256Hex, Js.SHA3_256.
  apply Buffer_from_hex_toHex, keccak256_bytes.
Qed.

Lemma Uint8Array_from_bytes l :
  Forall Spec.is_byte l -> Js.Uint8Array_from l = l.
Proof.
  induction 1 as [|b l Hb Hl IH]; [done|].
  unfold Js.Uint8Array_from in *. cbn [map]. rewrite IH.
  by rewrite Z.mod_small.
Qed.

Lemma join3 (a b c : string) : Js.join [a; b; c] = (a ++ b ++ c)%string.
Proof. unfold Js.join. by rewrite !concat_empty_cons, append_nil_r. Qed.

Lemma join6 (a b c d e f : string) :
  Js.join [a; b; c; d; e; f] = (a ++ b ++ c ++ d ++ e ++ f)%string.
Proof. unfold Js.join. by rewrite !concat_empty_cons, append_nil_r. Qed.

Lemma join7 (a b c d e f g : string) :
  Js.join [a; b; c; d; e; f; g] = (a ++ b ++ c ++ d ++ e ++ f ++ g)%string.
Proof. unfold Js.join. by rewrite !concat_empty_cons, append_nil_r. Qed.

Lemma Collateral_encode_value : Collateral.encode = "1901"%string.
Proof. reflexivity. Qed.

Lemma Collateral_getWithdrawMessage_length c s r a w salt n :
  length (Collateral.getWithdrawMessage c s r a w salt n) = 32%nat.
Proof.
  unfold Collateral.getWithdrawMessage. cbv zeta.
  by rewrite keccak256Hex_decoded, keccak256_length.
Qed.

Lemma Coordinator_getWithdrawMessage_length c k s r a w n :
  length (Coordinator.getWithdrawMessage c k s r a w n) = 32%nat.
Proof.
  unfold Coordinator.getWithdrawMessage. cbv zeta.
  by rewrite keccak256Hex_decoded, keccak256_length.
Qed.

Lemma string_of_list_ascii_length l :
  String.length (string_of_list_ascii l) = length l.
Proof. induction l as [|c l IH]; simpl; [done | by rewrite IH]. Qed.

Lemma toString16_length v :
  0 <= v -> String.length (Js.toString16 v) = Js.numDigits16 v.
Proof.
  intros Hv. unfold Js.toString16.
  destruct (Z.ltb_spec v 0); [lia|]. rewrite Z.abs_eq by done.
  by rewrite string_of_list_ascii_length, length_map, length_rev, length_seq.
Qed.

Lemma replicate_char_length n c : String.length (Js.replicate_char n c) = n.
Proof. induction n as [|n IH]; simpl; [done | by rewrite IH]. Qed.

Lemma padStart_length s n c :
  String.length (Js.padStart s n c) = Nat.max n (String.length s).
Proof.
  unfold Js.padStart. rewrite append_length, replicate_char_length. lia.
Qed.

(** [padStart] leaves a string that is already long enough as it is. *)
Lemma padStart_long s n c :
  (n <= String.length s)%nat -> Js.padStart s n c = s.
Proof.
  intros Hn. unfold Js.padStart.
  by replace (n - String.length s)%nat with 0%nat by lia.
Qed.

Lemma numDigits16_lower v k :
  0 <= k -> 2 ^ (4 * k) <= v -> (Z.to_nat k < Js.numDigits16 v)%nat.
Proof.
  intros Hk Hv. unfold Js.numDigits16.
  assert (4 * k <= Z.log2 v).
  { rewrite <- (Z.log2_pow2 (4 * k)) by lia. apply Z.log2_le_mono. done. }
  assert (k <= Z.log2 v / 4) by (apply Z.div_le_lower_bound; lia).
  lia.
Qed.

Lemma numDigits16_upper v k :
  0 < k -> 0 <= v < 2 ^ (4 * k) -> (Js.numDigits16 v <= Z.to_nat k)%nat.
Proof.
  intros Hk Hv. unfold Js.numDigits16.
  assert (Z.log2 v < 4 * k).
  { destruct (Z.eq_dec v 0) as [->|]; [simpl; lia|].
    apply Z.log2_lt_pow2; lia. }
  assert (Z.log2 v / 4 < k) by (apply Z.div_lt_upper_bound; lia).
  pose proof (Z.log2_nonneg v).
  assert (0 <= Z.log2 v / 4) by (apply Z.div_pos; lia).
  lia.
Qed.

Lemma encodeUInt64_fits v :
  0 <= v < 2 ^ 64 -> String.length (HashUtils.encodeUInt64 v) = 16%nat.
Proof.
  intros Hv. unfold HashUtils.encodeUInt64.
  rewrite padStart_length, toString16_length by lia.
  pose proof (numDigits16_upper v 16 ltac:(lia) Hv). lia.
Qed.

Lemma encodeUInt32_fits v :
  0 <= v < 2 ^ 32 -> String.length (HashUtils.encodeUInt32 v) = 8%nat.
Proof.
  intros Hv. unfold HashUtils.encodeUInt32.
  rewrite padStart_length, toString16_length by lia.
  pose proof (numDigits16_upper v 8 ltac:(lia) Hv). lia.
Qed.

Lemma encodeUInt64_oversized v :
  2 ^ 64 <= v ->
  HashUtils.encodeUInt64 v = Js.toString16 v /\
  (16 < String.length (HashUtils.encodeUInt64 v))%nat.
Proof.
  intros Hv. unfold HashUtils.encodeUInt64.
  pose proof (numDigits16_lower v 16 ltac:(lia) Hv).
  assert (Hlen : String.length (Js.toString16 v) = Js.numDigits16 v)
    by (apply toString16_length; lia).
  rewrite padStart_long by lia. split; [done | lia].
Qed.

Lemma encodeUInt32_oversized v :
  2 ^ 32 <= v ->
  HashUtils.encodeUInt32 v = Js.toString16 v /\
  (8 < String.length (HashUtils.encodeUInt32 v))%nat.
Proof.
  intros Hv. unfold HashUtils.encodeUInt32.
  pose proof (numDigits16_lower v 8 ltac:(lia) Hv).
  assert (Hlen : String.length (Js.toString16 v) = Js.numDigits16 v)
    by (apply toString16_length; lia).
  rewrite padStart_long by lia. split; [done | lia].
Qed.

Lemma encodeBytes_length salt :
  String.length (HashUtils.encodeBytes (Js.Uint8Array_from salt))
  = (2 * length salt)%nat.
Proof.
  unfold HashUtils.encodeBytes, Js.join, Js.Uint8Array_from.
  induction salt as [|b salt IH]; [done|].
  cbn [map]. rewrite concat_empty_cons, append_length, IH.
  rewrite padStart_length, toString16_length by (apply Z.mod_pos_bound; lia).
  assert (0 <= b mod 256 < 2 ^ (4 * 2)) by (apply Z.mod_pos_bound; lia).
  pose proof (numDigits16_upper (b mod 256) 2 ltac:(lia) H).
  unfold Js.numDigits16 in *. simpl length. lia.
Qed.

End HashProofs.

(** ** Type-hash separation of the two message kinds

    The two type strings hash to different values, so the two struct
    pre-images always differ in their first 32 bytes.  Whether the final
    digests can coincide is then a question about Keccak-256 alone: equal
    digests for one field set would exhibit a collision. *)
Section Separation.

Lemma Hex_parse_toHex_app bs rest :
  Forall Spec.is_byte bs ->
  Js.Hex_parse (Js.toHex bs ++ rest)%string = bs ++ Js.Hex_parse rest.
Proof.
  induction 1 as [|b bs Hb Hbs IH]; [done|].
  rewrite toHex_cons, append_assoc. unfold Js.byteToHex.
  cbn [String.append Js.Hex_parse]. rewrite IH. cbn [app]. f_equal.
  unfold Js.parsePair, Spec.is_byte in *.
  rewrite !hexVal_hexDigit by (apply Z.mod_pos_bound; lia).
  rewrite (Z.mod_small (b / 16))
    by (split; [apply Z.div_pos; lia | apply Z.div_lt_upper_bound; lia]).
  pose proof (Z.div_mod b 16). lia.
Qed.

Lemma keccak256Hex_parsed data rest :
  Js.Hex_parse (HashUtils.keccak256Hex data ++ rest)%string
  = Keccak.keccak256 (Js.Hex_parse data) ++ Js.Hex_parse rest.
Proof.
  unfold HashUtils.keccak256Hex, Js.SHA3_256.
  apply Hex_parse_toHex_app, keccak256_bytes.
Qed.

Lemma keccak256Hex_parsed_last data :
  Js.Hex_parse (HashUtils.keccak256Hex data)
  = Keccak.keccak256 (Js.Hex_parse data).
Proof.
  rewrite <- (append_nil_r (HashUtils.keccak256Hex data)).
  rewrite keccak256Hex_parsed. cbn [Js.Hex_parse]. apply app_nil_r.
Qed.

Lemma encodeString_parsed value rest :
  Js.Hex_parse (HashUtils.encodeString value ++ rest)%string
  = Keccak.keccak256 (Js.Utf8_parse value) ++ Js.Hex_parse rest.
Proof.
  unfold HashUtils.encodeString, HashUtils.keccak256, Js.SHA3_256.
  apply Hex_parse_toHex_app, keccak256_bytes.
Qed.

Lemma join8 (a b c d e f g h : string) :
  Js.join [a; b; c; d; e; f; g; h]
  = (a ++ b ++ c ++ d ++ e ++ f ++ g ++ h)%string.
Proof. unfold Js.join. by rewrite !concat_empty_cons, append_nil_r. Qed.

Lemma type_hash_bytes_distinct :
  Keccak.keccak256 (Js.Utf8_parse
    "Withdraw(address user,address asset,uint256 amount,address recipient,uint256 nonce)")
  <> Keccak.keccak256 (Js.Utf8_parse
    "Withdraw(address user,address collateral,address asset,uint256 amount,address recipient,uint256 nonce,uint256 expiresAt)").
Proof. vm_compute. discriminate. Qed.

Lemma cons2_inj (a b : Z) (l l' : list Z) :
  a :: b :: l = a :: b :: l' -> l = l'.
Proof. by intros [= ->]. Qed.

Lemma app_inj_32 (a b x y : list Z) :
  length a = 32%nat -> length b = 32%nat -> a ++ x = b ++ y -> a = b /\ x = y.
Proof. intros Ha Hb Heq. apply app_inj_1; [congruence | done]. Qed.

(** The struct pre-images of the two kinds never coincide. *)
Lemma struct_preimages_differ c s r a w n :
  Js.Hex_parse (Js.join [
    Collateral.WITHDRAW_TYPE_HASH;
    HashUtils.encodeAddress s; HashUtils.encodeAddress c;
    HashUtils.encodeAddress a; HashUtils.encodeUInt64 (amountOfAsset w);
    HashUtils.encodeAddress r; HashUtils.encodeUInt32 n ])
  <> Js.Hex_parse (Js.join [
    Coordinator.WITHDRAW_TYPE_HASH;
    HashUtils.encodeAddress s; HashUtils.encodeAddress c;
    HashUtils.encodeAddress a; HashUtils.encodeUInt64 (amountOfAsset w);
    HashUtils.encodeAddress r; HashUtils.encodeUInt32 n;
    HashUtils.encodeUInt64 (signatureExpirationTime w) ]).
Proof.
  rewrite join7, join8.
  unfold Collateral.WITHDRAW_TYPE_HASH, Coordinator.WITHDRAW_TYPE_HASH.
  rewrite !encodeString_parsed. intros Heq.
  apply app_inj_32 in Heq as [Heq _]; [|apply keccak256_length..].
  by apply type_hash_bytes_distinct.
Qed.

Lemma hexVal_range c v : Js.hexVal c = Some v -> 0 <= v < 16.
Proof.
  unfold Js.hexVal. cbv zeta. intros Hv.
  destruct ((48 <=? _) && (_ <=? 57)) eqn:E1.
  { injection Hv as <-.
    apply andb_true_iff in E1 as [?%Z.leb_le ?%Z.leb_le]. lia. }
  destruct ((97 <=? _) && (_ <=? 102)) eqn:E2.
  { injection Hv as <-.
    apply andb_true_iff in E2 as [?%Z.leb_le ?%Z.leb_le]. lia. }
  destruct ((65 <=? _) && (_ <=? 70)) eqn:E3; [|discriminate].
  injection Hv as <-.
  apply andb_true_iff in E3 as [?%Z.leb_le ?%Z.leb_le]. lia.
Qed.

Lemma parsePair_byte c1 c2 : Spec.is_byte (Js.parsePair c1 c2).
Proof.
  unfold Js.parsePair, Spec.is_byte.
  destruct (Js.hexVal c1) as [h|] eqn:Hh; [|lia].
  apply hexVal_range in Hh. destruct c2 as [c|]; [|lia].
  destruct (Js.hexVal c) as [l|] eqn:Hl; [|lia].
  apply hexVal_range in Hl. lia.
Qed.

(** Whatever the string, [Js.Hex_parse] gives bytes. *)
Lemma Hex_parse_bytes s : Forall Spec.is_byte (Js.Hex_parse s).
Proof.
  assert (Hboth : Forall Spec.is_byte (Js.Hex_parse s) /\
                  forall c, Forall Spec.is_byte (Js.Hex_parse (String c s))).
  { induction s as [|c' s [IH1 IH2]].
    - split; [constructor|]. intros c. cbn [Js.Hex_parse].
      constructor; [apply parsePair_byte | constructor].
    - split; [apply IH2|]. intros c. cbn [Js.Hex_parse].
      constructor; [apply parsePair_byte | exact IH1]. }
  apply Hboth.
Qed.

(** Equal final digests of the two kinds for one field set would be a
    Keccak-256 collision between two strings of bytes. *)
Lemma digest_clash_is_collision c k s r a w salt n :
  Collateral.getWithdrawMessage c s r a w salt n
  = Coordinator.getWithdrawMessage c k s r a w n ->
  exists x y,
    Forall Spec.is_byte x /\ Forall Spec.is_byte y /\ x <> y /\
    Keccak.keccak256 x = Keccak.keccak256 y.
Proof.
  unfold Collateral.getWithdrawMessage, Coordinator.getWithdrawMessage.
  cbv zeta. rewrite !keccak256Hex_decoded, !join3.
  remember (Js.Hex_parse (Collateral.encode ++ _)) as P1 eqn:HP1.
  remember (Js.Hex_parse (Coordinator.encode ++ _)) as P2 eqn:HP2.
  intros Hclash.
  assert (B1 : Forall Spec.is_byte P1) by (subst P1; apply Hex_parse_bytes).
  assert (B2 : Forall Spec.is_byte P2) by (subst P2; apply Hex_parse_bytes).
  destruct (decide (P1 = P2)) as [Heq|Hne]; [|by exists P1, P2].
  clear B1 B2.
  subst P1 P2. revert Heq.
  change Collateral.encode with "1901"%string.
  change Coordinator.encode with "1901"%string.
  cbn [String.append Js.Hex_parse].
  unfold Collateral.domainSeparatorEncode, Coordinator.domainSeparatorEncode,
    Collateral.encodeWithdrawMessage, Coordinator.encodeWithdrawMessage.
  cbv zeta. rewrite !keccak256Hex_parsed.
  intros Heq%cons2_inj.
  apply app_inj_32 in Heq as [_ Heq]; [|apply keccak256_length..].
  rewrite !keccak256Hex_parsed_last in Heq.
  eexists _, _. split; [apply Hex_parse_bytes|].
  split; [apply Hex_parse_bytes|]. split; [|exact Heq].
  apply struct_preimages_differ.
Qed.

End Separation.

(** ** The submission flow *)
Lemma BN_new_fits number : BN_fits number -> BN_new number = Ok number.
Proof.
  unfold BN_fits, BN_new. intros Hfits.
  by destruct (Z.ltb_spec (Z.abs number) (2 ^ 53)); [|lia].
Qed.

Lemma BN_new_overflow number :
  ~ BN_fits number -> BN_new number = Throw AssertionFailed.
Proof.
  unfold BN_fits, BN_new. intros Hover.
  by destruct (Z.ltb_spec (Z.abs number) (2 ^ 53)).
Qed.

Lemma BN_fits_dec number : {BN_fits number} + {~ BN_fits number}.
Proof. unfold BN_fits. destruct (Z_lt_dec (Z.abs number) (2 ^ 53)); auto. Qed.

(** Past the two [new BN] of [executeWithdrawal], for numbers that fit. *)
Ltac pass_BN Hexpiration Hamount :=
  unfold Withdraw.executeWithdrawal; cbv zeta;
  unfold Withdraw.bind at 1, Withdraw.lift at 1;
  rewrite (BN_new_fits _ Hexpiration); cbv beta iota;
  unfold Withdraw.bind at 1, Withdraw.lift at 1;
  rewrite (BN_new_fits _ Hamount); cbv beta iota.

Section FlowProofs.
Context `{Solana} {World : Type} `{Network World}.
Import Withdraw.

Lemma PublicKey_equals_spec a b : PublicKey_equals a b = true <-> a = b.
Proof.
  unfold PublicKey_equals. rewrite bool_decide_eq_true.
  destruct a as [x], b as [y]. simpl. split; [by intros -> | by intros [= ->]].
Qed.

Lemma every_differs_spec (l : list PublicKey) (pk : PublicKey) :
  forallb (fun signer => negb (PublicKey_equals signer pk)) l = true <-> pk ∉ l.
Proof.
  induction l as [|x l IH]; simpl.
  - split; [intros _; apply not_elem_of_nil | done].
  - rewrite andb_true_iff, IH, not_elem_of_cons, negb_true_iff.
    split; intros [Hx Hl]; split; try done.
    + intros ->. apply not_true_iff_false in Hx. apply Hx.
      by apply PublicKey_equals_spec.
    + apply not_true_iff_false. intros Heq%PublicKey_equals_spec. by subst.
Qed.

Lemma absentOrUnsigned_spec account pk :
  match account with
  | None => true
  | Some a => forallb (fun signer => negb (PublicKey_equals signer pk)) (signers a)
  end = true <-> ~ recorded account pk.
Proof.
  unfold recorded. destruct account as [a|].
  - rewrite every_differs_spec. split.
    + intros Hn (a' & [= <-] & Hin). done.
    + intros Hn Hin. apply Hn. eauto.
  - split; [intros _ (a & Ha & _); discriminate | done].
Qed.

(** What [submitCollateralSignature] does once the salt is drawn and the
    approval record is fetched. *)
Lemma submitCollateralSignature_run
    (sender : Keypair) (recipientAddress mintAddress : PublicKey)
    (withdrawRequest : WithdrawCollateral) (nonce : Z)
    (programId collateralAddress : PublicKey)
    (w w1 : World) (log : list Call) (salt : list Z)
    (account : option CollateralAdminSignatures) :
  let pda :=
    CollateralPDA.generateWithdrawCollateralPDA collateralAddress
      (publicKey sender) recipientAddress mintAddress withdrawRequest nonce
      programId in
  let digest :=
    Collateral.getWithdrawMessage collateralAddress (publicKey sender)
      recipientAddress mintAddress withdrawRequest salt nonce in
  let sig := nacl_sign_detached digest (secretKey sender) in
  randomBytes 32 w = (salt, w1) ->
  account_collateralAdminSignatures_fetchNullable pda w1 = Answer account ->
  (recorded account (publicKey sender) ->
     submitCollateralSignature sender recipientAddress mintAddress
       withdrawRequest nonce programId collateralAddress (w, log)
     = (Ok pda, (w1, log ++ [CallFetchNullableAdminSignatures pda]))) /\
  (~ recorded account (publicKey sender) -> length sig = 64%nat ->
     exists ix reply w2,
       Ed25519.createSignatureVerificationInstruction
         [Ed25519.mkSignatureVerificationData (publicKey sender) sig digest]
         = Ok ix /\
       let tx :=
         mkTransaction
           [IxVerify ix;
            IxSubmitSignatures
              (mkSubmitSignaturesArgs [salt] nonce (publicKey sender)
                 recipientAddress mintAddress withdrawRequest
                 collateralAddress pda (publicKey sender))] in
       rpc_sendAndConfirmTransaction tx [sender] w1 = (reply, w2) /\
       submitCollateralSignature sender recipientAddress mintAddress
         withdrawRequest nonce programId collateralAddress (w, log)
       = (try! hash <- awaited reply; Ok pda,
          (w2, log ++ [CallFetchNullableAdminSignatures pda;
                       CallSendTransaction tx [sender]]))).
Proof.
  intros pda digest sig Hrand Hfetch.
  pose proof (absentOrUnsigned_spec account (publicKey sender)) as Hcond.
  unfold submitCollateralSignature, bind, random.
  rewrite Hrand. unfold fetchNullableAdminSignatures. fold pda.
  rewrite Hfetch. cbn [awaited]. fold digest. fold sig.
  split.
  - intros Hrec.
    assert (Hb : match account with
                 | None => true
                 | Some a => forallb (fun signer =>
                     negb (PublicKey_equals signer (publicKey sender))) (signers a)
                 end = false).
    { apply not_true_iff_false. by intros Hb%Hcond. }
    by rewrite Hb.
  - intros Hnot Hsig. apply Hcond in Hnot. rewrite Hnot.
    destruct (createSignatureVerificationInstruction_single
                (Ed25519.mkSignatureVerificationData (publicKey sender) sig digest))
      as [Hbuild _].
    destruct Hbuild as [ix Hix].
    { split; [done | apply Collateral_getWithdrawMessage_length]. }
    rewrite Hix. unfold lift, sendAndConfirmTransaction.
    destruct (rpc_sendAndConfirmTransaction _ [sender] w1) as [reply w2] eqn:Hsend.
    exists ix, reply, w2. split; [done|]. split; [done|].
    rewrite <- app_assoc. by destruct reply.
Qed.

(** C5: when the approval record fetched at the derived address exists and
    lists the sender, [submitCollateralSignature] makes the fetch and nothing
    else: no verification instruction is built (the outcome does not depend
    on the signature's size), no transaction is sent, and the derived record
    address is returned.  Otherwise (record absent, or sender not among its
    signers), with the 64-byte signature nacl produces, exactly one
    transaction, the verification instruction followed by the approval
    submission, is sent after the fetch. *)
Theorem submitCollateralSignature_idempotent
    (sender : Keypair) (recipientAddress mintAddress : PublicKey)
    (withdrawRequest : WithdrawCollateral) (nonce : Z)
    (programId collateralAddress : PublicKey)
    (w w1 : World) (log : list Call) (salt : list Z)
    (account : option CollateralAdminSignatures) :
  let pda :=
    CollateralPDA.generateWithdrawCollateralPDA collateralAddress
      (publicKey sender) recipientAddress mintAddress withdrawRequest nonce
      programId in
  let digest :=
    Collateral.getWithdrawMessage collateralAddress (publicKey sender)
      recipientAddress mintAddress withdrawRequest salt nonce in
  let sig := nacl_sign_detached digest (secretKey sender) in
  let run :=
    submitCollateralSignature sender recipientAddress mintAddress
      withdrawRequest nonce programId collateralAddress (w, log) in
  randomBytes 32 w = (salt, w1) ->
  account_collateralAdminSignatures_fetchNullable pda w1 = Answer account ->
  (recorded account (publicKey sender) ->
     run = (Ok pda, (w1, log ++ [CallFetchNullableAdminSignatures pda]))) /\
  (account = None \/
   (exists a, account = Some a /\ publicKey sender ∉ signers a) ->
   length sig = 64%nat ->
     exists ix reply w2,
       Ed25519.createSignatureVerificationInstruction
         [Ed25519.mkSignatureVerificationData (publicKey sender) sig digest]
         = Ok ix /\
       let tx :=
         mkTransaction
           [IxVerify ix;
            IxSubmitSignatures
              (mkSubmitSignaturesArgs [salt] nonce (publicKey sender)
                 recipientAddress mintAddress withdrawRequest
                 collateralAddress pda (publicKey sender))] in
       rpc_sendAndConfirmTransaction tx [sender] w1 = (reply, w2) /\
       run = (try! hash <- awaited reply; Ok pda,
              (w2, log ++ [CallFetchNullableAdminSignatures pda;
                           CallSendTransaction tx [sender]]))).
Proof.
  intros pda digest sig run Hrand Hfetch.
  destruct (submitCollateralSignature_run sender recipientAddress mintAddress
              withdrawRequest nonce programId collateralAddress w w1 log salt
              account Hrand Hfetch) as [Hskip Hsubmit].
  split; [exact Hskip|].
  intros Hcase Hsig. apply Hsubmit; [|exact Hsig].
  intros (a & Ha & Hin). destruct Hcase as [Hnone|(a' & Ha' & Hout)].
  - rewrite Hnone in Ha. discriminate.
  - rewrite Ha' in Ha. injection Ha as ->. done.
Qed.

(** C9 (amended): when the approval-submission transaction fails, for any
    reason whatever, a duplicate-approval reason included,
    [submitCollateralSignature] and with it [executeWithdrawal] (for an
    expiry and an amount that [new BN] accepts) fail with that same
    failure, unmodified: no reason is inspected, nothing is turned into a
    success, and the flow stops before the coordinator is fetched. *)
Theorem approval_submission_failure_propagates
    (programId collateral depositAddress : PublicKey) (sender : Keypair)
    (recipientAddress mintAddress : PublicKey) (expiration amountInCents : Z)
    (signatureSalt signatureData : list Z)
    (w wa w1 w2 : World) (log : list Call)
    (ca : CollateralAccount) (dest : TokenAccount) (salt : list Z)
    (account : option CollateralAdminSignatures)
    (ix : Ed25519.TransactionInstruction) (reason : string) :
  let withdrawRequest :=
    mkWithdrawCollateral amountInCents expiration signatureSalt in
  let nonce := adminFundsNonce ca in
  let pda :=
    CollateralPDA.generateWithdrawCollateralPDA collateral (publicKey sender)
      recipientAddress mintAddress withdrawRequest nonce programId in
  let digest :=
    Collateral.getWithdrawMessage collateral (publicKey sender)
      recipientAddress mintAddress withdrawRequest salt nonce in
  let sig := nacl_sign_detached digest (secretKey sender) in
  let tx :=
    mkTransaction
      [IxVerify ix;
       IxSubmitSignatures
         (mkSubmitSignaturesArgs [salt] nonce (publicKey sender)
            recipientAddress mintAddress withdrawRequest collateral pda
            (publicKey sender))] in
  let calls :=
    [CallFetchNullableAdminSignatures pda; CallSendTransaction tx [sender]] in
  account_collateral_fetch collateral w = Answer ca ->
  rpc_getOrCreateAssociatedTokenAccount sender mintAddress recipientAddress w
    = (Answer dest, wa) ->
  randomBytes 32 wa = (salt, w1) ->
  account_collateralAdminSignatures_fetchNullable pda w1 = Answer account ->
  ~ recorded account (publicKey sender) ->
  Ed25519.createSignatureVerificationInstruction
    [Ed25519.mkSignatureVerificationData (publicKey sender) sig digest] = Ok ix ->
  rpc_sendAndConfirmTransaction tx [sender] w1 = (Failure reason, w2) ->
  (forall log',
     submitCollateralSignature sender recipientAddress mintAddress
       withdrawRequest nonce programId collateral (wa, log')
     = (Throw (TransportFailure reason), (w2, log' ++ calls))) /\
  (BN_fits expiration -> BN_fits amountInCents ->
   executeWithdrawal programId collateral depositAddress sender
     recipientAddress mintAddress expiration amountInCents signatureSalt
     signatureData (w, log)
   = (Throw (TransportFailure reason),
      (w2, log ++ [CallFetchCollateral collateral;
                   CallGetOrCreateTokenAccount mintAddress recipientAddress]
               ++ calls))).
Proof.
  intros withdrawRequest nonce pda digest sig tx calls
    Hca Hdest Hrand Hfetch Hnot Hix Hsend.
  assert (Hsub : forall log',
     submitCollateralSignature sender recipientAddress mintAddress
       withdrawRequest nonce programId collateral (wa, log')
     = (Throw (TransportFailure reason), (w2, log' ++ calls))).
  { intros log'.
    destruct (submitCollateralSignature_run sender recipientAddress
                mintAddress withdrawRequest nonce programId collateral
                wa w1 log' salt account Hrand Hfetch) as [_ Hsubmit].
    assert (Hlen : length sig = 64%nat).
    { destruct (sizes_ok_dec
        (Ed25519.mkSignatureVerificationData (publicKey sender) sig digest))
        as [[Hs _]|Hbad]; [exact Hs|].
      destruct (createSignatureVerificationInstruction_single
        (Ed25519.mkSignatureVerificationData (publicKey sender) sig digest))
        as (_ & Hthrow & _).
      destruct (Hthrow Hbad) as [t Ht]. rewrite Hix in Ht. discriminate. }
    destruct (Hsubmit Hnot Hlen) as (ix' & reply & w2' & Hix' & Hsend' & Hrun).
    fold digest sig in Hix'. rewrite Hix in Hix'. injection Hix' as <-.
    fold pda tx in Hsend'. rewrite Hsend in Hsend'. injection Hsend' as <- <-.
    exact Hrun. }
  split; [exact Hsub|]. intros Hexpiration Hamount.
  pass_BN Hexpiration Hamount.
  unfold bind at 1, fetchCollateral. rewrite Hca. cbn [awaited].
  unfold bind at 1, getOrCreateAssociatedTokenAccount. rewrite Hdest. cbn [awaited].
  unfold bind at 1. fold withdrawRequest nonce. rewrite Hsub.
  by rewrite <- !app_assoc.
Qed.

(** C8: for an expiry and an amount that [new BN] accepts, once the
    collateral account, the destination token account and the custody
    approval are in hand and the coordinator account is fetched,
    [executeWithdrawal] fails with the no-executors error if and only if the
    executor list is missing or empty, and makes no further call then;
    otherwise the signer of the coordinator verification entry is the first
    listed executor, and the combined transaction is the next call. *)
Theorem executeWithdrawal_resolves_approver
    (programId collateral depositAddress : PublicKey) (sender : Keypair)
    (recipientAddress mintAddress : PublicKey) (expiration amountInCents : Z)
    (signatureSalt signatureData : list Z)
    (w wa w2 : World) (log log2 : list Call)
    (ca : CollateralAccount) (dest : TokenAccount) (pda : PublicKey)
    (co : CoordinatorAccount) :
  let withdrawRequest :=
    mkWithdrawCollateral amountInCents expiration signatureSalt in
  let run :=
    executeWithdrawal programId collateral depositAddress sender
      recipientAddress mintAddress expiration amountInCents signatureSalt
      signatureData (w, log) in
  let resolved := log2 ++ [CallFetchCoordinator (coordinator ca)] in
  BN_fits expiration -> BN_fits amountInCents ->
  account_collateral_fetch collateral w = Answer ca ->
  rpc_getOrCreateAssociatedTokenAccount sender mintAddress recipientAddress w
    = (Answer dest, wa) ->
  submitCollateralSignature sender recipientAddress mintAddress
    withdrawRequest (adminFundsNonce ca) programId collateral
    (wa, log ++ [CallFetchCollateral collateral;
                 CallGetOrCreateTokenAccount mintAddress recipientAddress])
    = (Ok pda, (w2, log2)) ->
  account_coordinator_fetch (coordinator ca) w2 = Answer co ->
  (fst run = Throw NoApproverConfigured <->
     executors co = None \/ executors co = Some []) /\
  (executors co = None \/ executors co = Some [] ->
     run = (Throw NoApproverConfigured, (w2, resolved))) /\
  (forall first others, executors co = Some (first :: others) ->
     let entry :=
       Ed25519.mkSignatureVerificationData first signatureData
         (Coordinator.getWithdrawMessage collateral (coordinator ca)
            (publicKey sender) recipientAddress mintAddress withdrawRequest
            (adminFundsNonce ca)) in
     match Ed25519.createSignatureVerificationInstruction [entry] with
     | Throw t => run = (Throw t, (w2, resolved))
     | Ok verify =>
         let tx :=
           mkTransaction
             [IxVerify verify;
              IxWithdrawCollateralAsset
                (mkWithdrawCollateralAssetArgs withdrawRequest
                   (publicKey sender) recipientAddress mintAddress
                   (getAssociatedTokenAddress mintAddress depositAddress)
                   (address dest) (coordinator ca) collateral pda)] in
         run = (awaited (fst (rpc_sendAndConfirmTransaction tx [sender] w2)),
                (snd (rpc_sendAndConfirmTransaction tx [sender] w2),
                 resolved ++ [CallSendTransaction tx [sender]]))
     end).
Proof.
  intros withdrawRequest run resolved Hexpiration Hamount Hca Hdest Hsub Hco.
  assert (Hrun : run =
    (let noExecutors := match executors co with
                        | None => true
                        | Some l => (length l =? 0)%nat
                        end in
     if noExecutors then throw NoApproverConfigured (w2, resolved)
     else match List.find (fun _ => true) (default [] (executors co)) with
          | None => throw JsTypeError (w2, resolved)
          | Some first =>
              match Ed25519.createSignatureVerificationInstruction
                      [Ed25519.mkSignatureVerificationData first signatureData
                         (Coordinator.getWithdrawMessage collateral (coordinator ca)
                            (publicKey sender) recipientAddress mintAddress
                            withdrawRequest (adminFundsNonce ca))] with
              | Throw t => (Throw t, (w2, resolved))
              | Ok verify =>
                  sendAndConfirmTransaction
                    (mkTransaction
                       [IxVerify verify;
                        IxWithdrawCollateralAsset
                          (mkWithdrawCollateralAssetArgs withdrawRequest
                             (publicKey sender) recipientAddress mintAddress
                             (getAssociatedTokenAddress mintAddress depositAddress)
                             (address dest) (coordinator ca) collateral pda)])
                    [sender] (w2, resolved)
              end
          end)).
  { subst run. pass_BN Hexpiration Hamount.
    unfold bind at 1, fetchCollateral. rewrite Hca. cbn [awaited].
    unfold bind at 1, getOrCreateAssociatedTokenAccount. rewrite Hdest. cbn [awaited].
    unfold bind at 1. fold withdrawRequest. rewrite <- app_assoc. cbn [app].
    rewrite Hsub. unfold bind at 1, fetchCoordinator. rewrite Hco. cbn [awaited].
    cbv zeta. destruct (match executors co with None => true | Some l => _ end);
      [done|].
    destruct (List.find _ _); [|done].
    unfold bind, lift. by destruct (Ed25519.createSignatureVerificationInstruction _). }
  assert (Hsome : forall first others, executors co = Some (first :: others) ->
     run = match Ed25519.createSignatureVerificationInstruction
                  [Ed25519.mkSignatureVerificationData first signatureData
                     (Coordinator.getWithdrawMessage collateral (coordinator ca)
                        (publicKey sender) recipientAddress mintAddress
                        withdrawRequest (adminFundsNonce ca))] with
           | Throw t => (Throw t, (w2, resolved))
           | Ok verify =>
               sendAndConfirmTransaction
                 (mkTransaction
                    [IxVerify verify;
                     IxWithdrawCollateralAsset
                       (mkWithdrawCollateralAssetArgs withdrawRequest
                          (publicKey sender) recipientAddress mintAddress
                          (getAssociatedTokenAddress mintAddress depositAddress)
                          (address dest) (coordinator ca) collateral pda)])
                 [sender] (w2, resolved)
           end).
  { intros first others Hex. rewrite Hrun, Hex. reflexivity. }
  assert (Hnone : executors co = None \/ executors co = Some [] ->
                  run = (Throw NoApproverConfigured, (w2, resolved))).
  { intros [Hex|Hex]; rewrite Hrun, Hex; reflexivity. }
  split; [|split].
  - split.
    + intros Hthrown. destruct (executors co) as [[|first others]|] eqn:Hex; auto.
      exfalso. rewrite (Hsome first others eq_refl) in Hthrown.
      destruct (Ed25519.createSignatureVerificationInstruction _) as [verify|t] eqn:Hb.
      * unfold sendAndConfirmTransaction in Hthrown.
        destruct (rpc_sendAndConfirmTransaction _ _ _) as [[hash|reason] w3];
          simpl in Hthrown; discriminate.
      * simpl in Hthrown. injection Hthrown as ->.
        apply createSignatureVerificationInstruction_single in Hb.
        destruct Hb as [Ht|Ht]; discriminate.
    + intros Hex. by rewrite (Hnone Hex).
  - exact Hnone.
  - intros first others Hex entry. rewrite (Hsome first others Hex). fold entry.
    destruct (Ed25519.createSignatureVerificationInstruction [entry]); [|done].
    unfold sendAndConfirmTransaction.
    by destruct (rpc_sendAndConfirmTransaction _ _ _).
Qed.

End FlowProofs.

(** ** The codecs never fail and always give 32 bytes *)

(** C10: for every input, both [getWithdrawMessage] functions return exactly
    32 bytes, so the digest passes the message-size guard
    [message.length !== MESSAGE_SIZE] of
    [createSignatureVerificationInstruction]. *)
Theorem getWithdrawMessage_is_32_bytes
    (collateral coordinator sender receiver asset : PublicKey)
    (withdraw : WithdrawCollateral) (salt : list Z) (nonce : Z) :
  let custody :=
    Collateral.getWithdrawMessage collateral sender receiver asset withdraw
      salt nonce in
  let coordinated :=
    Coordinator.getWithdrawMessage collateral coordinator sender receiver
      asset withdraw nonce in
  length custody = 32%nat /\
  length coordinated = 32%nat /\
  negb (length custody =? Ed25519.MESSAGE_SIZE)%nat = false /\
  negb (length coordinated =? Ed25519.MESSAGE_SIZE)%nat = false.
Proof.
  cbv zeta.
  rewrite Collateral_getWithdrawMessage_length,
    Coordinator_getWithdrawMessage_length.
  by repeat split.
Qed.

(** C7 (amended): the codecs validate nothing and never fail.  An amount or
    expiry of 2^64 or more and a nonce of 2^32 or more are encoded with all
    their hex digits, more than the 16 or 8 of the declared width (padStart
    does not truncate); a salt of n numbers, whatever n, is encoded as 2n
    hex digits; and for every input both [getWithdrawMessage] functions
    return a 32-byte digest. *)
Theorem codecs_hash_unvalidated_fields :
  (forall v, 2 ^ 64 <= v ->
     HashUtils.encodeUInt64 v = Js.toString16 v /\
     (16 < String.length (HashUtils.encodeUInt64 v))%nat) /\
  (forall v, 2 ^ 32 <= v ->
     HashUtils.encodeUInt32 v = Js.toString16 v /\
     (8 < String.length (HashUtils.encodeUInt32 v))%nat) /\
  (forall salt,
     String.length (HashUtils.encodeBytes (Js.Uint8Array_from salt))
     = (2 * length salt)%nat) /\
  (forall collateral coordinator sender receiver asset withdraw salt nonce,
     length (Collateral.getWithdrawMessage collateral sender receiver asset
               withdraw salt nonce) = 32%nat /\
     length (Coordinator.getWithdrawMessage collateral coordinator sender
               receiver asset withdraw nonce) = 32%nat).
Proof.
  split; [exact encodeUInt64_oversized|].
  split; [exact encodeUInt32_oversized|].
  split; [exact encodeBytes_length|].
  intros. split.
  - apply Collateral_getWithdrawMessage_length.
  - apply Coordinator_getWithdrawMessage_length.
Qed.

(** ** Concrete runs *)
Section Runs.
Import Fixture Scenario.

Lemma keccak256_empty :
  Js.toHex (Keccak.keccak256 [])
  = "c5d2460186f7233c927e7db2dcc703c0e500b653ca82273b7bfad8045d85a470"%string.
Proof. vm_compute. reflexivity. Qed.

Lemma keccak256_abc :
  HashUtils.keccak256 "abc"
  = "4e03657aea45a94fc7d47ba826c8d667c0d1e6e33a64a036ec44f58fa12d6c45"%string.
Proof. vm_compute. reflexivity. Qed.

Lemma DOMAIN_TYPE_HASH_value :
  Collateral.DOMAIN_TYPE_HASH
  = "d87cd6ef79d4e2b95e15ce8abf732db51ec771f1ca2edccf22a46c729ac56472"%string.
Proof. vm_compute. reflexivity. Qed.

Lemma WITHDRAW_TYPE_HASH_values :
  Collateral.WITHDRAW_TYPE_HASH
  = "74d63e4bf441631d053a425b91bbce942ae34ae3030c75e327b65b729f9ef9d5"%string /\
  Coordinator.WITHDRAW_TYPE_HASH
  = "947f5e3b95089db2a80a00e383947991b50e131febda16f519522edd0af91cc8"%string.
Proof. split; vm_compute; reflexivity. Qed.

Lemma WITHDRAW_TYPE_HASH_distinct :
  Collateral.WITHDRAW_TYPE_HASH <> Coordinator.WITHDRAW_TYPE_HASH.
Proof. destruct WITHDRAW_TYPE_HASH_values as [-> ->]. discriminate. Qed.

Lemma scenario_digests :
  custodyDigest =
    [251; 189; 164; 130; 142; 218; 1; 235; 173; 144; 113; 29; 217; 250; 233;
     152; 117; 127; 24; 60; 108; 122; 128; 251; 201; 67; 105; 25; 79; 78;
     147; 203] /\
  coordinatorDigest =
    [68; 136; 178; 201; 7; 170; 249; 160; 64; 229; 214; 72; 210; 218; 151;
     37; 245; 89; 11; 226; 64; 222; 41; 53; 146; 54; 136; 24; 254; 190; 244;
     183].
Proof. split; vm_compute; reflexivity. Qed.

Lemma scenario_digests_differ : custodyDigest <> coordinatorDigest.
Proof. destruct scenario_digests as [-> ->]. discriminate. Qed.

Lemma salt_bytes : Forall Spec.is_byte salt.
Proof. unfold salt, Spec.is_byte. repeat (constructor; [lia|]). constructor. Qed.

Lemma validEntry_valid : Layout.valid_entry validEntry.
Proof. by repeat split. Qed.

Lemma badEntry_bad : ~ sizes_ok badEntry.
Proof. unfold sizes_ok. simpl. intros [? _]. discriminate. Qed.

Lemma custody_signature_length : length custodySignature = 64%nat.
Proof.
  cbn [nacl_sign_detached solana].
  rewrite length_take, length_app, Collateral_getWithdrawMessage_length.
  reflexivity.
Qed.

Lemma custodyEntry_sizes : sizes_ok custodyEntry.
Proof.
  split; cbn [Ed25519.signature Ed25519.message].
  - exact custody_signature_length.
  - apply Collateral_getWithdrawMessage_length.
Qed.

Lemma custodyEntry_valid : Layout.valid_entry custodyEntry.
Proof. split; [reflexivity | exact custodyEntry_sizes]. Qed.

Lemma coordinatorEntry_sizes : sizes_ok coordinatorEntry.
Proof.
  split; cbn [Ed25519.signature Ed25519.message].
  - reflexivity.
  - apply Coordinator_getWithdrawMessage_length.
Qed.

Lemma batch_valid : Forall Layout.valid_entry [validEntry; custodyEntry].
Proof.
  apply Forall_cons. split; [exact validEntry_valid|].
  apply Forall_cons. split; [exact custodyEntry_valid | apply Forall_nil_2].
Qed.

(** A right-sized single entry is built into the instruction [verifyOf]
    names. *)
Lemma entry_built e :
  sizes_ok e ->
  Ed25519.createSignatureVerificationInstruction [e] = Ok (verifyOf e).
Proof.
  intros Hok.
  destruct (createSignatureVerificationInstruction_single e) as [Hbuild _].
  destruct (Hbuild Hok) as [ix Hix]. unfold verifyOf. by rewrite Hix.
Qed.

Lemma Ok_inj {A} (a b : A) : Ok a = Ok b -> a = b.
Proof. by intros [= ->]. Qed.

Lemma random_draw (w : Script) : randomBytes 32 w = (salt, w).
Proof. reflexivity. Qed.

Lemma unrecorded (pk : PublicKey) : ~ recorded None pk.
Proof. intros (a & Ha & _). discriminate. Qed.

(** In a world without an approval record, the approval step fetches the
    record and sends [approvalTx]; the world answers as scripted. *)
Lemma approval_run (w : Script) (log : list Call) :
  approvalRecord w = None ->
  Withdraw.submitCollateralSignature sender recipient assetAddress
    withdrawRequest nonce programKey collateralProxy (w, log)
  = (try! hash <- awaited (fst (rpc_sendAndConfirmTransaction approvalTx
                                  [sender] w));
     Ok pda,
     (w, log ++ approvalCalls)).
Proof.
  intros Hnone.
  destruct (submitCollateralSignature_run sender recipient assetAddress
              withdrawRequest nonce programKey collateralProxy w w log salt
              None (random_draw w)) as [_ Hsubmit].
  { cbn [account_collateralAdminSignatures_fetchNullable network].
    by rewrite Hnone. }
  destruct (Hsubmit (unrecorded _) custody_signature_length)
    as (ix & reply & w2 & Hix & Hsend & Hrun).
  rewrite (entry_built _ custodyEntry_sizes) in Hix.
  apply Ok_inj in Hix. subst ix.
  rewrite Hrun, Hsend. cbn [fst].
  cbn [rpc_sendAndConfirmTransaction network] in Hsend.
  destruct (rejection w); apply (f_equal snd) in Hsend; cbn [snd] in Hsend;
    by subst w2.
Qed.

Lemma approval_sent (w : Script) (log : list Call) :
  approvalRecord w = None -> rejection w = None ->
  Withdraw.submitCollateralSignature sender recipient assetAddress
    withdrawRequest nonce programKey collateralProxy (w, log)
  = (Ok pda, (w, log ++ approvalCalls)).
Proof.
  intros Hnone Hsent. rewrite approval_run by done.
  cbn [rpc_sendAndConfirmTransaction network]. by rewrite Hsent.
Qed.

(** Witness of C3, for a batch of two entries. *)
Lemma createSignatureVerificationInstruction_layout_witness :
  exists ix,
    Ed25519.createSignatureVerificationInstruction [validEntry; custodyEntry]
      = Ok ix /\
    Ed25519.keys ix = [] /\
    length (Ed25519.data ix)
      = (length [validEntry; custodyEntry] * 142 + 2)%nat /\
    Ed25519.data ix !! 0%nat
      = Some (Z.of_nat (length [validEntry; custodyEntry])) /\
    forall i e, [validEntry; custodyEntry] !! i = Some e ->
      Layout.slice (Ed25519.data ix) (2 + i * 14) 14
        = Layout.descriptor (length [validEntry; custodyEntry]) i /\
      Layout.slice (Ed25519.data ix)
        (Layout.publicKeyOffset (length [validEntry; custodyEntry]) i) 32
        = toBuffer (Ed25519.signer e) /\
      Layout.slice (Ed25519.data ix)
        (Layout.signatureOffset (length [validEntry; custodyEntry]) i) 64
        = Ed25519.signature e /\
      Layout.slice (Ed25519.data ix)
        (Layout.messageOffset (length [validEntry; custodyEntry]) i) 32
        = Ed25519.message e.
Proof.
  apply (createSignatureVerificationInstruction_layout [validEntry; custodyEntry]).
  - cbn [length]. lia.
  - exact batch_valid.
Defined.

(** Witness of C4, for the same batch. *)
Lemma createSignatureVerificationInstruction_roundtrip_witness :
  exists ix,
    Ed25519.createSignatureVerificationInstruction [validEntry; custodyEntry]
      = Ok ix /\
    Layout.decode (Ed25519.data ix) (length [validEntry; custodyEntry])
      = [validEntry; custodyEntry].
Proof.
  apply (createSignatureVerificationInstruction_roundtrip [validEntry; custodyEntry]).
  - cbn [length]. lia.
  - exact batch_valid.
Defined.

(** Witness of C5: the approved world is left alone, the fresh one gets
    one transaction. *)
Lemma submitCollateralSignature_idempotent_witness :
  Withdraw.submitCollateralSignature sender recipient assetAddress
    withdrawRequest nonce programKey collateralProxy (approved, [])
  = (Ok pda, (approved, [] ++ [CallFetchNullableAdminSignatures pda])) /\
  exists ix reply w2,
    Ed25519.createSignatureVerificationInstruction [custodyEntry] = Ok ix /\
    let tx :=
      mkTransaction
        [IxVerify ix;
         IxSubmitSignatures
           (mkSubmitSignaturesArgs [salt] nonce (publicKey sender) recipient
              assetAddress withdrawRequest collateralProxy pda
              (publicKey sender))] in
    rpc_sendAndConfirmTransaction tx [sender] fresh = (reply, w2) /\
    Withdraw.submitCollateralSignature sender recipient assetAddress
      withdrawRequest nonce programKey collateralProxy (fresh, [])
    = (try! hash <- awaited reply; Ok pda,
       (w2, [] ++ [CallFetchNullableAdminSignatures pda;
                   CallSendTransaction tx [sender]])).
Proof.
  split.
  - apply (proj1 (submitCollateralSignature_idempotent sender recipient
                    assetAddress withdrawRequest nonce programKey
                    collateralProxy approved approved [] salt
                    (approvalRecord approved) (random_draw approved) eq_refl)).
    exists (mkCollateralAdminSignatures [executorKey; senderKey]).
    split; [reflexivity|]. apply list_elem_of_further, list_elem_of_here.
  - apply (proj2 (submitCollateralSignature_idempotent sender recipient
                    assetAddress withdrawRequest nonce programKey
                    collateralProxy fresh fresh [] salt None
                    (random_draw fresh) eq_refl)).
    + left. reflexivity.
    + exact custody_signature_length.
Defined.

(** Against C6 as stated: a 256-entry batch with a wrong-sized entry fails
    on the count byte, with a [RangeError], before any entry is looked at. *)
Lemma oversized_batch_range_error :
  Exists (fun e => ~ sizes_ok e) (repeat badEntry 256) /\
  Ed25519.createSignatureVerificationInstruction (repeat badEntry 256)
    = Throw JsRangeError /\
  ~ InvalidEntrySize JsRangeError.
Proof.
  split; [|split].
  - apply Exists_cons_hd, badEntry_bad.
  - vm_compute. reflexivity.
  - intros [?|?]; discriminate.
Qed.

(** Witness of C6 (amended), on a batch whose second entry has an empty
    signature. *)
Lemma createSignatureVerificationInstruction_rejects_witness :
  (exists t, InvalidEntrySize t /\
     Ed25519.writeSignature 4000 500 badEntry [] = Throw t) /\
  (exists t, InvalidEntrySize t /\
     Ed25519.createSignatureVerificationInstruction [validEntry; badEntry]
       = Throw t).
Proof.
  split.
  - apply (proj1 createSignatureVerificationInstruction_rejects
             4000%nat 500%nat badEntry [] badEntry_bad).
  - apply (proj2 createSignatureVerificationInstruction_rejects
             [validEntry; badEntry]).
    + cbn [length]. lia.
    + apply Exists_cons_tl, Exists_cons_hd, badEntry_bad.
Defined.

(** Against C7 as stated: an oversized amount, an oversized nonce, an empty
    salt and an oversized expiry are each hashed to a digest; nothing
    fails. *)
Lemma codecs_hash_invalid_fields :
  (2 ^ 64 <= 2 ^ 68 /\
   Collateral.getWithdrawMessage collateralProxy senderKey recipient
     assetAddress (mkWithdrawCollateral (2 ^ 68) 1763066371 salt) salt 7
   = [70; 203; 208; 101; 78; 219; 177; 201; 27; 22; 160; 239; 149; 129; 36;
      18; 175; 8; 241; 121; 26; 189; 178; 5; 80; 98; 200; 252; 143; 216; 62;
      172]) /\
  (2 ^ 32 <= 2 ^ 36 /\
   Collateral.getWithdrawMessage collateralProxy senderKey recipient
     assetAddress request salt (2 ^ 36)
   = [231; 140; 215; 214; 152; 46; 25; 234; 33; 192; 255; 9; 253; 40; 237; 5;
      10; 85; 3; 69; 215; 194; 99; 108; 105; 111; 103; 1; 72; 169; 164; 40]) /\
  (length (@nil Z) <> 32%nat /\
   Collateral.getWithdrawMessage collateralProxy senderKey recipient
     assetAddress request [] 7
   = [85; 16; 35; 204; 111; 175; 72; 36; 21; 182; 22; 156; 210; 27; 147; 161;
      36; 197; 151; 92; 113; 200; 127; 62; 97; 140; 70; 224; 172; 70; 25;
      116]) /\
  (2 ^ 64 <= 2 ^ 68 /\
   Coordinator.getWithdrawMessage collateralProxy coordinatorKey senderKey
     recipient assetAddress (mkWithdrawCollateral 1000000 (2 ^ 68) salt) 7
   = [150; 175; 138; 70; 35; 234; 133; 27; 7; 48; 34; 235; 126; 248; 249;
      126; 129; 7; 253; 141; 252; 118; 233; 60; 187; 114; 66; 113; 172; 144;
      216; 24]).
Proof.
  split; [split; [lia | vm_compute; reflexivity]|].
  split; [split; [lia | vm_compute; reflexivity]|].
  split; [split; [discriminate | vm_compute; reflexivity]|].
  split; [lia | vm_compute; reflexivity].
Qed.

(** Witness of C7 (amended), at 2^68, 2^36 and the salt [1; 2; 3]. *)
Lemma codecs_hash_unvalidated_fields_witness :
  (HashUtils.encodeUInt64 (2 ^ 68) = Js.toString16 (2 ^ 68) /\
   (16 < String.length (HashUtils.encodeUInt64 (2 ^ 68)))%nat) /\
  (HashUtils.encodeUInt32 (2 ^ 36) = Js.toString16 (2 ^ 36) /\
   (8 < String.length (HashUtils.encodeUInt32 (2 ^ 36)))%nat) /\
  String.length (HashUtils.encodeBytes (Js.Uint8Array_from [1; 2; 3]))
  = (2 * length [1; 2; 3])%nat.
Proof.
  split; [|split].
  - apply (proj1 codecs_hash_unvalidated_fields (2 ^ 68)). lia.
  - apply (proj1 (proj2 codecs_hash_unvalidated_fields) (2 ^ 36)). lia.
  - apply (proj1 (proj2 (proj2 codecs_hash_unvalidated_fields)) [1; 2; 3]).
Defined.

Lemma expiration_fits : BN_fits 1763066371.
Proof. unfold BN_fits. simpl. lia. Qed.

Lemma amount_fits : BN_fits 1000000.
Proof. unfold BN_fits. simpl. lia. Qed.

(** Witness of C8: an empty executor list stops the flow right after the
    coordinator is fetched; with one executor listed, and with three, the
    first of them signs the verification entry of the combined
    transaction, which is sent next. *)
Lemma executeWithdrawal_resolves_approver_witness :
  execute unconfigured
  = (Throw NoApproverConfigured,
     (unconfigured,
      (([] ++ prefix) ++ approvalCalls)
      ++ [CallFetchCoordinator (coordinator collateralAccount)])) /\
  (fst (execute unconfigured) = Throw NoApproverConfigured <->
   executors (mkCoordinatorAccount (approvers unconfigured)) = None \/
   executors (mkCoordinatorAccount (approvers unconfigured)) = Some []) /\
  execute fresh
  = (awaited (fst (rpc_sendAndConfirmTransaction withdrawalTx [sender] fresh)),
     (snd (rpc_sendAndConfirmTransaction withdrawalTx [sender] fresh),
      ((([] ++ prefix) ++ approvalCalls)
       ++ [CallFetchCoordinator (coordinator collateralAccount)])
      ++ [CallSendTransaction withdrawalTx [sender]])) /\
  approvers shared = Some [executorKey; coordinatorKey; senderKey] /\
  execute shared
  = (awaited (fst (rpc_sendAndConfirmTransaction withdrawalTx [sender] shared)),
     (snd (rpc_sendAndConfirmTransaction withdrawalTx [sender] shared),
      ((([] ++ prefix) ++ approvalCalls)
       ++ [CallFetchCoordinator (coordinator collateralAccount)])
      ++ [CallSendTransaction withdrawalTx [sender]])).
Proof.
  pose proof (executeWithdrawal_resolves_approver programKey
             collateralProxy collateralProxy sender recipient assetAddress
             1763066371 1000000 salt coordinatorSignature
             unconfigured unconfigured unconfigured []
             (([] ++ prefix) ++ approvalCalls)
             collateralAccount destination pda
             (mkCoordinatorAccount (approvers unconfigured))
             expiration_fits amount_fits eq_refl eq_refl
             (approval_sent unconfigured ([] ++ prefix) eq_refl eq_refl)
             eq_refl) as Hempty.
  pose proof (proj2 (proj2 (executeWithdrawal_resolves_approver programKey
             collateralProxy collateralProxy sender recipient assetAddress
             1763066371 1000000 salt coordinatorSignature
             fresh fresh fresh []
             (([] ++ prefix) ++ approvalCalls)
             collateralAccount destination pda
             (mkCoordinatorAccount (approvers fresh))
             expiration_fits amount_fits eq_refl eq_refl
             (approval_sent fresh ([] ++ prefix) eq_refl eq_refl)
             eq_refl)) executorKey [] eq_refl)
    as Hlisted.
  pose proof (proj2 (proj2 (executeWithdrawal_resolves_approver programKey
             collateralProxy collateralProxy sender recipient assetAddress
             1763066371 1000000 salt coordinatorSignature
             shared shared shared []
             (([] ++ prefix) ++ approvalCalls)
             collateralAccount destination pda
             (mkCoordinatorAccount (approvers shared))
             expiration_fits amount_fits eq_refl eq_refl
             (approval_sent shared ([] ++ prefix) eq_refl eq_refl)
             eq_refl)) executorKey [coordinatorKey; senderKey] eq_refl)
    as Hshared.
  cbv zeta in Hempty, Hlisted, Hshared.
  rewrite (entry_built _ coordinatorEntry_sizes) in Hlisted.
  rewrite (entry_built _ coordinatorEntry_sizes) in Hshared.
  split; [|split; [|split; [|split]]].
  - apply (proj1 (proj2 Hempty)). right. reflexivity.
  - exact (proj1 Hempty).
  - exact Hlisted.
  - reflexivity.
  - exact Hshared.
Defined.

(** Against C9 as stated: the ledger rejects the approval as a duplicate,
    and the withdrawal fails with that rejection instead of going on. *)
Lemma duplicate_approval_is_fatal :
  ~ recorded (approvalRecord racing) (publicKey sender) /\
  execute racing
  = (Throw (TransportFailure "DuplicateApproval"),
     (racing, prefix ++ approvalCalls)).
Proof.
  split; [apply unrecorded|]. vm_compute. reflexivity.
Qed.

(** Witness of C9 (amended), in the racing world. *)
Lemma approval_submission_failure_propagates_witness :
  execute racing
  = (Throw (TransportFailure "DuplicateApproval"),
     (racing, [] ++ prefix ++ approvalCalls)).
Proof.
  exact (proj2 (approval_submission_failure_propagates programKey
           collateralProxy collateralProxy sender recipient assetAddress
           1763066371 1000000 salt coordinatorSignature
           racing racing racing racing []
           collateralAccount destination salt None
           (verifyOf custodyEntry) "DuplicateApproval"
           eq_refl eq_refl (random_draw racing) eq_refl (unrecorded _)
           (entry_built _ custodyEntry_sizes) eq_refl)
           expiration_fits amount_fits).
Defined.

End Runs.


(** * Further properties of the verification-instruction builder *)
Section BuilderProperties.
Import Ed25519 Layout.

(** X1: a batch of more than 255 entries is refused with a [RangeError] when
    its count is written to byte 0, whatever the entries are, wrong-sized
    or not, and before any of them is looked at. *)
Theorem createSignatureVerificationInstruction_too_many sigs :
  (255 < length sigs)%nat ->
  createSignatureVerificationInstruction sigs = Throw JsRangeError.
Proof.
  intros Hmany. unfold createSignatureVerificationInstruction, writeUInt8.
  destruct (Z.ltb_spec 255 (Z.of_nat (length sigs))) as [_|Hle]; [|lia].
  by rewrite orb_true_r.
Qed.

Lemma writeSignatures_app start l1 : forall i l2 buf,
  writeSignatures start i (l1 ++ l2) buf
  = try! buf' <- writeSignatures start i l1 buf;
    writeSignatures start (i + length l1) l2 buf'.
Proof.
  induction l1 as [|e l1 IH]; intros i l2 buf.
  - cbn [app writeSignatures rbind length]. by rewrite Nat.add_0_r.
  - cbn [app writeSignatures length].
    destruct (writeSignature start i e buf) as [buf1|t]; cbn [rbind]; [|done].
    rewrite IH. by replace (S i + length l1)%nat with (i + S (length l1))%nat by lia.
Qed.

Lemma writeSignatures_accepts N good : forall i buf,
  Forall sizes_ok good -> (i + length good <= N)%nat -> (N <= 255)%nat ->
  exists buf', writeSignatures (dataRegionStart N) i good buf = Ok buf'.
Proof.
  induction good as [|e good IH]; intros i buf Hok HN Hcap.
  - by exists buf.
  - apply Forall_cons in Hok as [He Hok]. cbn [writeSignatures length] in *.
    destruct (writeSignature_accepts N i e buf He) as [buf1 ->].
    { unfold messageOffset, signatureOffset, publicKeyOffset, dataRegionStart. lia. }
    cbn [rbind]. apply IH; [done | lia | done].
Qed.

(** X2: the error is that of the first wrong-sized entry, and its signature
    is checked before its message: after any number of right-sized entries,
    an entry whose signature is not 64 bytes gives the signature error,
    and one whose signature is right and whose message is not 32 bytes gives
    the message error, whatever follows. *)
Theorem createSignatureVerificationInstruction_first_error good bad rest :
  Forall sizes_ok good ->
  (length (good ++ bad :: rest) <= 255)%nat ->
  (length (signature bad) <> 64%nat ->
     createSignatureVerificationInstruction (good ++ bad :: rest)
     = Throw (JsError "Signature size must be 64 bytes")) /\
  (length (signature bad) = 64%nat -> length (message bad) <> 32%nat ->
     createSignatureVerificationInstruction (good ++ bad :: rest)
     = Throw (JsError "Message size must be 32 bytes")).
Proof.
  intros Hgood Hcap.
  assert (Hrun : forall t,
    (forall buf i, writeSignature (dataRegionStart (length (good ++ bad :: rest)))
                     i bad buf = Throw t) ->
    createSignatureVerificationInstruction (good ++ bad :: rest) = Throw t).
  { intros t Hbad. unfold createSignatureVerificationInstruction, writeUInt8.
    destruct (Z.ltb_spec (Z.of_nat (length (good ++ bad :: rest))) 0); [lia|].
    destruct (Z.ltb_spec 255 (Z.of_nat (length (good ++ bad :: rest)))); [lia|].
    simpl orb. cbv iota. unfold alloc at 1. rewrite repeat_length.
    destruct (Nat.ltb_spec
      (length (good ++ bad :: rest) * SIGNATURE_DATA_PLUS_STRUCTURE_SIZE + 2)
      (0 + 1)); [lia|].
    cbn [rbind].
    change (length (good ++ bad :: rest) * SIGNATURE_STRUCTURE_SIZE + 2)%nat
      with (dataRegionStart (length (good ++ bad :: rest))).
    rewrite writeSignatures_app.
    edestruct (writeSignatures_accepts (length (good ++ bad :: rest)) good 0)
      as [buf' ->]; [done | rewrite length_app; simpl; lia | done |].
    cbn [rbind writeSignatures]. by rewrite Hbad. }
  split.
  - intros Hs. apply Hrun. intros buf i. unfold writeSignature, SIGNATURE_SIZE.
    by destruct (Nat.eqb_spec (length (signature bad)) 64).
  - intros Hs Hm. apply Hrun. intros buf i.
    unfold writeSignature, SIGNATURE_SIZE, MESSAGE_SIZE. rewrite Hs.
    cbn [Nat.eqb negb]. change (64 =? 64)%nat with true. cbn [negb].
    by destruct (Nat.eqb_spec (length (message bad)) 32).
Qed.

(** X3: [new SignatureStructure(i, start).toBuffer()] gives the 14 bytes of
    the descriptor as long as the message offset, the largest of the three,
    fits in 16 bits, and throws a [RangeError] as soon as it does not. *)
Theorem SignatureStructure_toBuffer_range i start :
  let s := SignatureStructure_new i start in
  (Z.of_nat (Ed25519.messageOffset s) <= 65535 ->
     SignatureStructure_toBuffer s
     = Ok (le16 (Z.of_nat (Ed25519.signatureOffset s)) ++ le16 sentinel ++
           le16 (Z.of_nat (Ed25519.publicKeyOffset s)) ++ le16 sentinel ++
           le16 (Z.of_nat (Ed25519.messageOffset s)) ++ le16 32 ++
           le16 sentinel)) /\
  (65535 < Z.of_nat (Ed25519.messageOffset s) ->
     SignatureStructure_toBuffer s = Throw JsRangeError).
Proof.
  cbv zeta. unfold SignatureStructure_toBuffer, SignatureStructure_new.
  cbn [Ed25519.signatureOffset Ed25519.publicKeyOffset Ed25519.messageOffset].
  unfold INSTRUCTION_INDEX, SIGNATURE_DATA_SIZE, PUBKEY_SIZE,
    SIGNATURE_SIZE, MESSAGE_SIZE, SIGNATURE_STRUCTURE_SIZE, alloc.
  change (2 ^ 16 - 1) with 65535. change (32 + 64 + 32)%nat with 128%nat.
  change (Z.of_nat 32) with 32. cbn [repeat].
  set (pko := (i * 128 + start)%nat).
  split.
  - intros Hfit.
    repeat (rewrite writeUInt16LE_ok; [ cbn [rbind] | lia | cbn; lia ]).
    reflexivity.
  - intros Hover.
    destruct (Z_le_gt_dec (Z.of_nat (pko + 32)) 65535) as [Hso|Hso].
    + rewrite writeUInt16LE_ok; [ cbn [rbind] | lia | cbn; lia ].
      rewrite writeUInt16LE_ok; [ cbn [rbind] | lia | cbn; lia ].
      rewrite writeUInt16LE_ok; [ cbn [rbind] | lia | cbn; lia ].
      rewrite writeUInt16LE_ok; [ cbn [rbind] | lia | cbn; lia ].
      unfold writeUInt16LE at 1.
      destruct (Z.ltb_spec 65535 (Z.of_nat (pko + 32 + 64))); [|lia].
      by rewrite orb_true_r.
    + unfold writeUInt16LE at 1.
      destruct (Z.ltb_spec 65535 (Z.of_nat (pko + 32))); [|lia].
      by rewrite orb_true_r.
Qed.


Lemma slice_lookup (l b : list Z) off len k :
  slice l off len = b -> (k < len)%nat -> l !! (off + k)%nat = b !! k.
Proof.
  intros <- Hk. unfold slice. by rewrite lookup_take_lt, lookup_drop.
Qed.

Lemma readUInt16LE_le16 (l : list Z) off v :
  l !! off = Some (v mod 256) -> l !! S off = Some (v / 256) ->
  Reader.readUInt16LE l off = Some v.
Proof.
  intros Hlo Hhi. unfold Reader.readUInt16LE. rewrite Hlo, Hhi.
  f_equal. pose proof (Z.div_mod v 256). lia.
Qed.

Lemma readBytes_slice (l : list Z) off len :
  (off + len <= length l)%nat ->
  Reader.readBytes l off len = Some (slice l off len).
Proof.
  intros Hin. unfold Reader.readBytes.
  by destruct (Nat.leb_spec (off + len) (length l)); [|lia].
Qed.

(** The consumer finds in the descriptor of entry [i] the offsets the
    builder computed. *)
Lemma readOffsets_image sigs i e :
  Forall valid_entry sigs -> sigs !! i = Some e ->
  Reader.readOffsets (image sigs) i
  = Some (Reader.mkOffsets
            (Z.of_nat (signatureOffset (length sigs) i)) 65535
            (Z.of_nat (publicKeyOffset (length sigs) i)) 65535
            (Z.of_nat (messageOffset (length sigs) i)) 32 65535).
Proof.
  intros Hv Hi. destruct (image_entry sigs i e Hv Hi) as (Hd & _).
  unfold Reader.readOffsets. cbv zeta.
  assert (Hat : forall k, (k < 14)%nat ->
    image sigs !! (2 + i * 14 + k)%nat = descriptor (length sigs) i !! k).
  { intros k Hk. by apply slice_lookup with (len := 14%nat). }
  assert (Hread : forall k v,
    descriptor (length sigs) i !! k = Some (v mod 256) ->
    descriptor (length sigs) i !! S k = Some (v / 256) ->
    (S k < 14)%nat ->
    Reader.readUInt16LE (image sigs) (2 + i * 14 + k) = Some v).
  { intros k v Hlo Hhi Hk. apply readUInt16LE_le16.
    - rewrite Hat by lia. done.
    - replace (S (2 + i * 14 + k)) with (2 + i * 14 + S k)%nat by lia.
      rewrite Hat by lia. done. }
  rewrite <- (Nat.add_0_r (2 + i * 14)) at 1.
  rewrite (Hread 0%nat (Z.of_nat (signatureOffset (length sigs) i)))
    by (done || lia).
  rewrite (Hread 2%nat 65535) by (done || lia).
  rewrite (Hread 4%nat (Z.of_nat (publicKeyOffset (length sigs) i)))
    by (done || lia).
  rewrite (Hread 6%nat 65535) by (done || lia).
  rewrite (Hread 8%nat (Z.of_nat (messageOffset (length sigs) i)))
    by (done || lia).
  rewrite (Hread 10%nat 32) by (done || lia).
  rewrite (Hread 12%nat 65535) by (done || lia).
  reflexivity.
Qed.

Lemma readEntry_image sigs i e :
  Forall valid_entry sigs -> sigs !! i = Some e ->
  Reader.readEntry (image sigs) i = Some e.
Proof.
  intros Hv Hi. unfold Reader.readEntry.
  rewrite (readOffsets_image sigs i e Hv Hi). cbn [mbind option_bind].
  cbn [Reader.signature_instruction_index Reader.public_key_instruction_index
       Reader.message_instruction_index Reader.signature_offset
       Reader.public_key_offset Reader.message_data_offset
       Reader.message_data_size].
  change (65535 =? 65535) with true. cbn [andb].
  rewrite !Nat2Z.id. change (Z.to_nat 32) with 32%nat.
  pose proof (image_length sigs Hv) as Hlen.
  pose proof (lookup_lt_Some _ _ _ Hi) as Hlt.
  destruct (image_entry sigs i e Hv Hi) as (_ & Hk & Hs & Hm).
  rewrite !readBytes_slice
    by (unfold messageOffset, signatureOffset, publicKeyOffset,
          dataRegionStart; lia).
  cbn [mbind option_bind]. rewrite Hk, Hs, Hm.
  by destruct e as [[k] s m].
Qed.

Lemma readAll_image sigs :
  (length sigs <= 255)%nat -> Forall valid_entry sigs ->
  Reader.readAll (image sigs) = Some sigs.
Proof.
  intros Hcap Hv. unfold Reader.readAll.
  change (image sigs !! 0%nat) with (Some (Z.of_nat (length sigs))).
  cbn [mbind option_bind]. rewrite Nat2Z.id.
  apply mapM_Some_2, Forall2_same_length_lookup_2.
  - by rewrite length_seq.
  - intros i j e Hj Hi. apply lookup_seq in Hj as [-> _].
    by apply readEntry_image.
Qed.

(** X4: for every valid batch of 1 to 255 entries, a consumer that takes
    the count from byte 0 and the offsets, the message size and the three
    instruction indexes from the descriptors themselves reads back exactly
    the batch: every offset written points at the entry's own signature,
    key and message, inside the blob. *)
Theorem createSignatureVerificationInstruction_read_back sigs :
  (1 <= length sigs <= 255)%nat -> Forall valid_entry sigs ->
  exists ix,
    createSignatureVerificationInstruction sigs = Ok ix /\
    programId ix = ed25519ProgramId /\
    Reader.readAll (data ix) = Some sigs.
Proof.
  intros [_ Hcap] Hv. eexists. split; [|split].
  - by apply createSignatureVerificationInstruction_image.
  - reflexivity.
  - cbn [data]. by apply readAll_image.
Qed.

(** X5: the builder is injective on valid batches of at most 255 entries:
    two batches that give the same instruction data are the same batch. *)
Theorem createSignatureVerificationInstruction_injective sigs1 sigs2 ix1 ix2 :
  (length sigs1 <= 255)%nat -> (length sigs2 <= 255)%nat ->
  Forall valid_entry sigs1 -> Forall valid_entry sigs2 ->
  createSignatureVerificationInstruction sigs1 = Ok ix1 ->
  createSignatureVerificationInstruction sigs2 = Ok ix2 ->
  data ix1 = data ix2 ->
  sigs1 = sigs2.
Proof.
  intros Hc1 Hc2 Hv1 Hv2 H1 H2 Hdata.
  rewrite createSignatureVerificationInstruction_image in H1 by done.
  rewrite createSignatureVerificationInstruction_image in H2 by done.
  injection H1 as <-. injection H2 as <-. cbn [data] in Hdata.
  pose proof (readAll_image sigs1 Hc1 Hv1) as Hr1.
  pose proof (readAll_image sigs2 Hc2 Hv2) as Hr2.
  rewrite Hdata, Hr2 in Hr1. by injection Hr1.
Qed.

End BuilderProperties.

(** * Further properties of the encoders and of the two message codecs *)
Section EncoderProperties.
Import Wire.

Lemma digits16_S k v :
  digits16 (S k) v
  = String (Js.hexDigit ((v / 16 ^ Z.of_nat k) mod 16)) (digits16 k v).
Proof. unfold digits16. by rewrite seq_S, rev_app_distr. Qed.

Lemma bigEndian_S n v :
  bigEndian (S n) v = (v / 256 ^ Z.of_nat n) mod 256 :: bigEndian n v.
Proof. unfold bigEndian. by rewrite seq_S, rev_app_distr. Qed.

Lemma bigEndian_length n v : length (bigEndian n v) = n.
Proof. unfold bigEndian. by rewrite length_map, length_rev, length_seq. Qed.

Lemma bigEndian_bytes n v : Forall Spec.is_byte (bigEndian n v).
Proof.
  unfold bigEndian. apply Forall_map, Forall_forall. intros i _.
  unfold Spec.is_byte. simpl. apply Z.mod_pos_bound. lia.
Qed.

Lemma toString16_digits v :
  0 <= v -> Js.toString16 v = digits16 (Js.numDigits16 v) v.
Proof.
  intros Hv. unfold Js.toString16, digits16.
  destruct (Z.ltb_spec v 0); [lia|]. by rewrite Z.abs_eq.
Qed.

Lemma pow16_pow2 k : 0 <= k -> 16 ^ k = 2 ^ (4 * k).
Proof. intros Hk. by rewrite Z.pow_mul_r by lia. Qed.

Lemma digits16_leading_zeros m k v :
  0 <= v < 16 ^ Z.of_nat k ->
  digits16 (m + k) v = (Js.replicate_char m "0" ++ digits16 k v)%string.
Proof.
  intros Hv. induction m as [|m IH]; [done|].
  cbn [Nat.add Js.replicate_char String.append]. rewrite digits16_S, IH.
  f_equal. rewrite Z.div_small; [done|].
  split; [lia|]. eapply Z.lt_le_trans; [apply Hv|].
  apply Z.pow_le_mono_r; lia.
Qed.

(** Left-padded to [k] digits, a number below [16 ^ k] shows its [k]
    digits. *)
Lemma padStart_digits k v :
  (0 < k)%nat -> 0 <= v < 16 ^ Z.of_nat k ->
  Js.padStart (Js.toString16 v) k "0" = digits16 k v.
Proof.
  intros Hk Hv. unfold Js.padStart.
  rewrite toString16_length, toString16_digits by lia.
  assert (Hnd : (Js.numDigits16 v <= k)%nat).
  { pose proof (numDigits16_upper v (Z.of_nat k) ltac:(lia)) as Hup.
    rewrite Nat2Z.id in Hup. apply Hup. by rewrite <- pow16_pow2 by lia. }
  assert (Hlt : 0 <= v < 16 ^ Z.of_nat (Js.numDigits16 v)).
  { split; [lia|]. unfold Js.numDigits16.
    destruct (Z.eq_dec v 0) as [->|Hne]; [done|].
    pose proof (Z.log2_spec v ltac:(lia)) as [_ Hlog].
    pose proof (Z.log2_nonneg v).
    assert (0 <= Z.log2 v / 4) by (apply Z.div_pos; lia).
    rewrite Nat2Z.inj_succ, Z2Nat.id, pow16_pow2 by lia.
    eapply Z.lt_le_trans; [apply Hlog|].
    apply Z.pow_le_mono_r; [lia|].
    pose proof (Z.div_mod (Z.log2 v) 4 ltac:(lia)).
    pose proof (Z.mod_pos_bound (Z.log2 v) 4 ltac:(lia)). lia. }
  rewrite <- (digits16_leading_zeros _ _ _ Hlt).
  f_equal. lia.
Qed.

Lemma nibbles x :
  (x mod 256) mod 16 = x mod 16 /\ (x mod 256) / 16 mod 16 = (x / 16) mod 16.
Proof.
  change 256 with (16 * 16). rewrite Z.rem_mul_r by lia.
  set (a := x mod 16). set (b := (x / 16) mod 16).
  assert (0 <= a < 16) by (apply Z.mod_pos_bound; lia).
  assert (0 <= b < 16) by (apply Z.mod_pos_bound; lia).
  rewrite (Z.mul_comm 16 b). split.
  - rewrite Z.mod_add by lia. by apply Z.mod_small.
  - rewrite Z.div_add by lia. rewrite (Z.div_small a) by lia.
    by apply Z.mod_small.
Qed.

(** Two hex digits per byte: [2 n] digits are the hex form of [n] bytes. *)
Lemma digits16_bigEndian n v :
  digits16 (2 * n) v = Js.toHex (bigEndian n v).
Proof.
  induction n as [|n IH]; [done|].
  replace (2 * S n)%nat with (S (S (2 * n))) by lia.
  rewrite !digits16_S, IH, bigEndian_S, toHex_cons.
  unfold Js.byteToHex. cbn [String.append].
  assert (Hpow : 256 ^ Z.of_nat n = 16 ^ Z.of_nat (2 * n)).
  { rewrite Nat2Z.inj_mul, Z.pow_mul_r by lia. done. }
  rewrite Hpow.
  destruct (nibbles (v / 16 ^ Z.of_nat (2 * n))) as [Hlo Hhi].
  rewrite Hlo, Hhi. f_equal.
  rewrite Nat2Z.inj_succ, Z.pow_succ_r by lia.
  rewrite (Z.mul_comm 16), <- Z.div_div by lia. done.
Qed.

Lemma fold_big_endian (l : list Z) : forall acc,
  fold_left (fun acc b => acc * 256 + b) l acc
  = acc * 256 ^ Z.of_nat (length l)
    + fold_left (fun acc b => acc * 256 + b) l 0.
Proof.
  induction l as [|b l IH]; intros acc; cbn [fold_left length].
  - simpl. lia.
  - rewrite IH, (IH (0 * 256 + b)).
    rewrite Nat2Z.inj_succ, Z.pow_succ_r by lia. lia.
Qed.

Lemma fromBigEndian_bigEndian n v :
  fromBigEndian (bigEndian n v) = v mod 256 ^ Z.of_nat n.
Proof.
  induction n as [|n IH].
  - simpl. by rewrite Z.mod_1_r.
  - rewrite bigEndian_S. unfold fromBigEndian in *. cbn [fold_left].
    rewrite fold_big_endian, IH, bigEndian_length.
    rewrite Nat2Z.inj_succ, Z.pow_succ_r by lia.
    rewrite (Z.mul_comm 256), Z.rem_mul_r by lia. lia.
Qed.

Lemma Hex_parse_toHex bs :
  Forall Spec.is_byte bs -> Js.Hex_parse (Js.toHex bs) = bs.
Proof.
  intros Hbs. rewrite <- (append_nil_r (Js.toHex bs)).
  rewrite Hex_parse_toHex_app by done. cbn [Js.Hex_parse]. apply app_nil_r.
Qed.

Lemma fixed_width n v :
  (0 < n)%nat -> 0 <= v < 256 ^ Z.of_nat n ->
  Js.padStart (Js.toString16 v) (2 * n) "0" = Js.toHex (bigEndian n v).
Proof.
  intros Hn Hv. rewrite padStart_digits, digits16_bigEndian; [done | lia |].
  rewrite Nat2Z.inj_mul, Z.pow_mul_r by lia. done.
Qed.

Lemma encodeUInt64_hex v :
  0 <= v < 2 ^ 64 -> HashUtils.encodeUInt64 v = Js.toHex (bigEndian 8 v).
Proof. intros Hv. apply (fixed_width 8); [lia | exact Hv]. Qed.

Lemma encodeUInt32_hex v :
  0 <= v < 2 ^ 32 -> HashUtils.encodeUInt32 v = Js.toHex (bigEndian 4 v).
Proof. intros Hv. apply (fixed_width 4); [lia | exact Hv]. Qed.

(** X6: within their width the two integer encoders give the fixed-width
    big-endian hex of the value: 16 (resp. 8) digits that decode to the 8
    (resp. 4) bytes of the value, most significant first, from which the
    value is read back. *)
Theorem encodeUInt_round_trip :
  (forall v, 0 <= v < 2 ^ 64 ->
     String.length (HashUtils.encodeUInt64 v) = 16%nat /\
     Js.Buffer_from_hex (HashUtils.encodeUInt64 v) = bigEndian 8 v /\
     fromBigEndian (Js.Buffer_from_hex (HashUtils.encodeUInt64 v)) = v) /\
  (forall v, 0 <= v < 2 ^ 32 ->
     String.length (HashUtils.encodeUInt32 v) = 8%nat /\
     Js.Buffer_from_hex (HashUtils.encodeUInt32 v) = bigEndian 4 v /\
     fromBigEndian (Js.Buffer_from_hex (HashUtils.encodeUInt32 v)) = v).
Proof.
  split; intros v Hv.
  - rewrite encodeUInt64_hex by done.
    rewrite toHex_length, bigEndian_length, Buffer_from_hex_toHex
      by apply bigEndian_bytes.
    rewrite fromBigEndian_bigEndian. split; [done|]. split; [done|].
    by apply Z.mod_small.
  - rewrite encodeUInt32_hex by done.
    rewrite toHex_length, bigEndian_length, Buffer_from_hex_toHex
      by apply bigEndian_bytes.
    rewrite fromBigEndian_bigEndian. split; [done|]. split; [done|].
    by apply Z.mod_small.
Qed.

Lemma encodeBytes_hex l :
  Forall Spec.is_byte l -> HashUtils.encodeBytes l = Js.toHex l.
Proof.
  induction 1 as [|b l Hb Hl IH]; [done|].
  unfold HashUtils.encodeBytes, Js.join in *. cbn [map].
  rewrite concat_empty_cons, IH, toHex_cons. f_equal.
  unfold Spec.is_byte in Hb.
  pose proof (fixed_width 1 b ltac:(lia) Hb) as Hw.
  change (2 * 1)%nat with 2%nat in Hw. rewrite Hw.
  unfold bigEndian. cbn [seq rev app map Z.of_nat]. rewrite Z.pow_0_r, Z.div_1_r.
  rewrite Z.mod_small by lia.
  unfold Js.toHex. cbn [map String.concat]. done.
Qed.

Lemma Uint8Array_from_is_bytes l : Forall Spec.is_byte (Js.Uint8Array_from l).
Proof.
  unfold Js.Uint8Array_from. apply Forall_map, Forall_forall. intros x _.
  unfold Spec.is_byte. simpl. apply Z.mod_pos_bound. lia.
Qed.

(** X7: the two encoders of byte strings write two lower-case hex digits
    per byte, which [Buffer.from(_, 'hex')] undoes: a list of numbers given
    to [encodeBytes] through [new Uint8Array] comes back reduced modulo 256,
    a list of bytes and the buffer of a public key come back as they
    are. *)
Theorem hex_encoders_round_trip :
  (forall numbers,
     Js.Buffer_from_hex (HashUtils.encodeBytes (Js.Uint8Array_from numbers))
     = map (fun x => x mod 256) numbers) /\
  (forall bytes, Forall Spec.is_byte bytes ->
     String.length (HashUtils.encodeBytes bytes) = (2 * length bytes)%nat /\
     Js.Buffer_from_hex (HashUtils.encodeBytes bytes) = bytes) /\
  (forall key, key_bytes key ->
     String.length (HashUtils.encodeAddress key)
       = (2 * length (toBuffer key))%nat /\
     Js.Buffer_from_hex (HashUtils.encodeAddress key) = toBuffer key).
Proof.
  split; [|split].
  - intros numbers.
    rewrite encodeBytes_hex, Buffer_from_hex_toHex
      by apply Uint8Array_from_is_bytes. done.
  - intros bytes Hb. rewrite encodeBytes_hex by done.
    by rewrite toHex_length, Buffer_from_hex_toHex.
  - intros key Hk. unfold HashUtils.encodeAddress.
    by rewrite toHex_length, Buffer_from_hex_toHex.
Qed.

End EncoderProperties.

Section CodecProperties.
Import Wire.

Lemma typeHash_parsed value rest :
  Js.Hex_parse (HashUtils.encodeString value ++ rest)%string
  = typeHashBytes value ++ Js.Hex_parse rest.
Proof. apply encodeString_parsed. Qed.

Lemma address_parsed key rest :
  key_bytes key ->
  Js.Hex_parse (HashUtils.encodeAddress key ++ rest)%string
  = toBuffer key ++ Js.Hex_parse rest.
Proof. intros Hk. unfold HashUtils.encodeAddress. by apply Hex_parse_toHex_app. Qed.

Lemma uint64_parsed v rest :
  0 <= v < 2 ^ 64 ->
  Js.Hex_parse (HashUtils.encodeUInt64 v ++ rest)%string
  = bigEndian 8 v ++ Js.Hex_parse rest.
Proof.
  intros Hv. rewrite encodeUInt64_hex by done.
  apply Hex_parse_toHex_app, bigEndian_bytes.
Qed.

Lemma uint32_parsed v rest :
  0 <= v < 2 ^ 32 ->
  Js.Hex_parse (HashUtils.encodeUInt32 v ++ rest)%string
  = bigEndian 4 v ++ Js.Hex_parse rest.
Proof.
  intros Hv. rewrite encodeUInt32_hex by done.
  apply Hex_parse_toHex_app, bigEndian_bytes.
Qed.

Lemma parsed_last (s : string) : Js.Hex_parse s = Js.Hex_parse (s ++ "")%string.
Proof. by rewrite append_nil_r. Qed.

Lemma Collateral_domainSeparatorEncode_bytes name version chainId key salt :
  key_bytes key -> 0 <= chainId < 2 ^ 64 -> Forall Spec.is_byte salt ->
  Collateral.domainSeparatorEncode name version chainId key salt
  = Js.toHex (Keccak.keccak256 (domainBytes name version chainId key salt)).
Proof.
  intros Hk Hc Hs. unfold Collateral.domainSeparatorEncode. cbv zeta.
  rewrite join6. unfold HashUtils.keccak256Hex, Js.SHA3_256.
  unfold Collateral.DOMAIN_TYPE_HASH.
  rewrite !typeHash_parsed, uint64_parsed, address_parsed by done.
  rewrite encodeBytes_hex, Hex_parse_toHex by done. reflexivity.
Qed.

Lemma Coordinator_domainSeparatorEncode_bytes name version chainId key salt :
  key_bytes key -> 0 <= chainId < 2 ^ 64 -> Forall Spec.is_byte salt ->
  Coordinator.domainSeparatorEncode name version chainId key salt
  = Js.toHex (Keccak.keccak256 (domainBytes name version chainId key salt)).
Proof.
  intros Hk Hc Hs. unfold Coordinator.domainSeparatorEncode. cbv zeta.
  rewrite join6. unfold HashUtils.keccak256Hex, Js.SHA3_256.
  unfold Coordinator.DOMAIN_TYPE_HASH.
  rewrite !typeHash_parsed, uint64_parsed, address_parsed by done.
  rewrite encodeBytes_hex, Hex_parse_toHex by done. reflexivity.
Qed.

Lemma Collateral_encodeWithdrawMessage_bytes c s r a w n :
  key_bytes c -> key_bytes s -> key_bytes r -> key_bytes a ->
  0 <= amountOfAsset w < 2 ^ 64 -> 0 <= n < 2 ^ 32 ->
  Collateral.encodeWithdrawMessage c s r a w n
  = Js.toHex (Keccak.keccak256
                (custodyStructBytes c s r a (amountOfAsset w) n)).
Proof.
  intros Hc Hs Hr Ha Hamt Hn. unfold Collateral.encodeWithdrawMessage.
  cbv zeta. rewrite join7. unfold HashUtils.keccak256Hex, Js.SHA3_256.
  unfold Collateral.WITHDRAW_TYPE_HASH.
  rewrite typeHash_parsed, !address_parsed, uint64_parsed, address_parsed
    by done.
  rewrite parsed_last, uint32_parsed by done. cbn [Js.Hex_parse].
  rewrite app_nil_r. reflexivity.
Qed.

Lemma Coordinator_encodeWithdrawMessage_bytes c s r a w n :
  key_bytes c -> key_bytes s -> key_bytes r -> key_bytes a ->
  0 <= amountOfAsset w < 2 ^ 64 -> 0 <= n < 2 ^ 32 ->
  0 <= signatureExpirationTime w < 2 ^ 64 ->
  Coordinator.encodeWithdrawMessage c s r a w n
  = Js.toHex (Keccak.keccak256
                (coordinatorStructBytes c s r a (amountOfAsset w) n
                   (signatureExpirationTime w))).
Proof.
  intros Hc Hs Hr Ha Hamt Hn Hexp. unfold Coordinator.encodeWithdrawMessage.
  cbv zeta. rewrite join8. unfold HashUtils.keccak256Hex, Js.SHA3_256.
  unfold Coordinator.WITHDRAW_TYPE_HASH.
  rewrite typeHash_parsed, !address_parsed, uint64_parsed, address_parsed,
    uint32_parsed by done.
  rewrite parsed_last, uint64_parsed by done. cbn [Js.Hex_parse].
  rewrite app_nil_r. reflexivity.
Qed.

Lemma prefixed_parsed (x y : list Z) :
  Forall Spec.is_byte x -> Forall Spec.is_byte y ->
  Js.Hex_parse ("1901" ++ Js.toHex x ++ Js.toHex y)%string
  = [0x19; 0x01] ++ x ++ y.
Proof.
  intros Hx Hy. cbn [String.append Js.Hex_parse].
  rewrite Hex_parse_toHex_app, Hex_parse_toHex by done. reflexivity.
Qed.

Lemma Collateral_getWithdrawMessage_hashed c s r a w salt n :
  Collateral.getWithdrawMessage c s r a w salt n
  = Keccak.keccak256
      (Js.Hex_parse
         ("1901"
          ++ Collateral.domainSeparatorEncode "Collateral" "2" 900 c
               (Js.Uint8Array_from salt)
          ++ Collateral.encodeWithdrawMessage c s r a w n)%string).
Proof.
  unfold Collateral.getWithdrawMessage. cbv zeta.
  by rewrite keccak256Hex_decoded, join3, Collateral_encode_value.
Qed.

(** X8: for keys made of bytes, an amount below 2^64 and a nonce below
    2^32, the custody message is the keccak-256 digest of 0x19 0x01, the
    hash of the domain bytes and the hash of the struct bytes, where the
    numbers are fixed-width big-endian, the salt numbers are reduced modulo
    256 and the fields are laid end to end as bytes: hex-string
    concatenation followed by hex decoding is byte concatenation. *)
Theorem Collateral_getWithdrawMessage_bytes
    (collateral sender receiver asset : PublicKey)
    (withdraw : WithdrawCollateral) (salt : list Z) (nonce : Z) :
  key_bytes collateral -> key_bytes sender -> key_bytes receiver ->
  key_bytes asset ->
  0 <= amountOfAsset withdraw < 2 ^ 64 -> 0 <= nonce < 2 ^ 32 ->
  Collateral.getWithdrawMessage collateral sender receiver asset withdraw
    salt nonce
  = finalDigest
      (domainBytes "Collateral" "2" 900 collateral (Js.Uint8Array_from salt))
      (custodyStructBytes collateral sender receiver asset
         (amountOfAsset withdraw) nonce).
Proof.
  intros Hc Hs Hr Ha Hamt Hn. rewrite Collateral_getWithdrawMessage_hashed.
  rewrite Collateral_domainSeparatorEncode_bytes
    by (done || lia || apply Uint8Array_from_is_bytes).
  rewrite Collateral_encodeWithdrawMessage_bytes by done.
  rewrite prefixed_parsed by apply keccak256_bytes.
  unfold finalDigest. reflexivity.
Qed.

Lemma Coordinator_encode_value : Coordinator.encode = "1901"%string.
Proof. reflexivity. Qed.

Lemma Coordinator_getWithdrawMessage_hashed c k s r a w n :
  Coordinator.getWithdrawMessage c k s r a w n
  = Keccak.keccak256
      (Js.Hex_parse
         ("1901"
          ++ Coordinator.domainSeparatorEncode "Coordinator" "2" 900 k
               (Js.Uint8Array_from (coordinatorSignatureSalt w))
          ++ Coordinator.encodeWithdrawMessage c s r a w n)%string).
Proof.
  unfold Coordinator.getWithdrawMessage. cbv zeta.
  by rewrite keccak256Hex_decoded, join3, Coordinator_encode_value.
Qed.

(** X9: under the same conditions, and an expiry below 2^64, the
    coordinator message is the digest of 0x19 0x01, the hash of the domain
    bytes (name "Coordinator", the coordinator as verifying entity, the
    request's own salt) and the hash of the struct bytes, which end with
    the 8 bytes of the expiry. *)
Theorem Coordinator_getWithdrawMessage_bytes
    (collateral coordinator sender receiver asset : PublicKey)
    (withdraw : WithdrawCollateral) (nonce : Z) :
  key_bytes collateral -> key_bytes coordinator -> key_bytes sender ->
  key_bytes receiver -> key_bytes asset ->
  0 <= amountOfAsset withdraw < 2 ^ 64 -> 0 <= nonce < 2 ^ 32 ->
  0 <= signatureExpirationTime withdraw < 2 ^ 64 ->
  Coordinator.getWithdrawMessage collateral coordinator sender receiver asset
    withdraw nonce
  = finalDigest
      (domainBytes "Coordinator" "2" 900 coordinator
         (Js.Uint8Array_from (coordinatorSignatureSalt withdraw)))
      (coordinatorStructBytes collateral sender receiver asset
         (amountOfAsset withdraw) nonce (signatureExpirationTime withdraw)).
Proof.
  intros Hc Hk Hs Hr Ha Hamt Hn Hexp.
  rewrite Coordinator_getWithdrawMessage_hashed.
  rewrite Coordinator_domainSeparatorEncode_bytes
    by (done || lia || apply Uint8Array_from_is_bytes).
  rewrite Coordinator_encodeWithdrawMessage_bytes by done.
  rewrite prefixed_parsed by apply keccak256_bytes.
  unfold finalDigest. reflexivity.
Qed.

End CodecProperties.

Section FlowProperties.
Context `{Solana} {World : Type} `{Network World}.
Import Withdraw Trace.

Ltac absent :=
  rewrite ?not_elem_of_app, ?not_elem_of_cons;
  repeat split; try discriminate; try apply not_elem_of_nil; try assumption.

(** A single entry with a 32-byte message is accepted when its signature
    has 64 bytes and rejected with the signature-size error otherwise. *)
Lemma single_entry_outcome e :
  length (Ed25519.message e) = 32%nat ->
  (length (Ed25519.signature e) = 64%nat /\
   exists ix, Ed25519.createSignatureVerificationInstruction [e] = Ok ix) \/
  (length (Ed25519.signature e) <> 64%nat /\
   Ed25519.createSignatureVerificationInstruction [e]
   = Throw SignatureSizeError).
Proof.
  intros Hm.
  destruct (Nat.eq_dec (length (Ed25519.signature e)) 64%nat) as [Hs|Hs].
  - left. split; [done|].
    by apply createSignatureVerificationInstruction_single.
  - right. split; [done|].
    unfold Ed25519.createSignatureVerificationInstruction.
    cbn [length Ed25519.writeSignatures].
    change (Ed25519.writeUInt8 (Z.of_nat 1) 0
              (Ed25519.alloc (1 * Ed25519.SIGNATURE_DATA_PLUS_STRUCTURE_SIZE + 2)))
      with (Ok (<[0%nat := 1]> (Ed25519.alloc 144))).
    cbn [rbind]. unfold Ed25519.writeSignature, Ed25519.SIGNATURE_SIZE.
    apply Nat.eqb_neq in Hs. rewrite Hs. reflexivity.
Qed.

(** Every run of [submitCollateralSignature]: the fetch at the derived
    address, then nothing or the approval transaction. *)
Lemma submitCollateralSignature_shape
    (sender : Keypair) (recipientAddress mintAddress : PublicKey)
    (withdrawRequest : WithdrawCollateral) (nonce : Z)
    (programId collateralAddress : PublicKey) (w : World) (log : list Call) :
  let pda :=
    CollateralPDA.generateWithdrawCollateralPDA collateralAddress
      (publicKey sender) recipientAddress mintAddress withdrawRequest nonce
      programId in
  let salt := fst (randomBytes 32 w) in
  exists r w' sends,
    submitCollateralSignature sender recipientAddress mintAddress
      withdrawRequest nonce programId collateralAddress (w, log)
    = (r, (w', log ++ CallFetchNullableAdminSignatures pda :: sends)) /\
    ((sends = [] /\ w' = snd (randomBytes 32 w)) \/
     (exists ix,
        Ed25519.createSignatureVerificationInstruction
          [approvalEntry collateralAddress sender recipientAddress
             mintAddress withdrawRequest nonce salt] = Ok ix /\
        sends = [CallSendTransaction
                   (approvalTransaction programId collateralAddress sender
                      recipientAddress mintAddress withdrawRequest nonce salt
                      ix)
                   [sender]])) /\
    match r with
    | Ok a => a = pda
    | Throw t => t = SignatureSizeError \/ exists reason, t = TransportFailure reason
    end.
Proof.
  intros pda salt0.
  unfold submitCollateralSignature, bind, random.
  destruct (randomBytes 32 w) as [salt w1] eqn:Hrand. cbn [fst snd] in *.
  subst salt0.
  unfold fetchNullableAdminSignatures. fold pda.
  destruct (account_collateralAdminSignatures_fetchNullable pda w1)
    as [account|reason]; cbn [awaited].
  2:{ exists (Throw (TransportFailure reason)), w1, [].
      split; [done|]. split; [by left|]. right. by exists reason. }
  destruct (match account with
            | None => true
            | Some a => forallb _ (signers a)
            end).
  2:{ exists (Ok pda), w1, []. split; [done|]. split; [by left | done]. }
  destruct (single_entry_outcome
              (approvalEntry collateralAddress sender recipientAddress
                 mintAddress withdrawRequest nonce salt))
    as [[_ [ix Hix]]|[_ Hix]].
  { apply Collateral_getWithdrawMessage_length. }
  - pose proof Hix as Hbuilt. unfold approvalEntry in Hix. cbv zeta in Hix.
    rewrite Hix. unfold lift, sendAndConfirmTransaction.
    destruct (rpc_sendAndConfirmTransaction _ [sender] w1) as [reply w2].
    exists (match reply with
            | Answer _ => Ok pda
            | Failure reason => Throw (TransportFailure reason)
            end), w2,
      [CallSendTransaction
         (approvalTransaction programId collateralAddress sender
            recipientAddress mintAddress withdrawRequest nonce salt ix)
         [sender]].
    split.
    { rewrite <- app_assoc. cbn [app]. destruct reply; cbn [awaited ret]; reflexivity. }
    split.
    { right. exists ix. by split. }
    destruct reply as [hash|reason]; [done|]. right. by exists reason.
  - unfold approvalEntry in Hix. cbv zeta in Hix.
    rewrite Hix. unfold lift. exists (Throw SignatureSizeError), w1, [].
    split; [done|]. split; [by left | by left].
Qed.

(** X10: in every world, [submitCollateralSignature] reads the approval
    record once, at the address derived from the request, and after that
    sends either nothing or one transaction, signed by the sender alone:
    the verification instruction built from the sender's signature over
    the custody message with the freshly drawn salt, followed by the
    approval submission carrying that salt, the nonce and the derived
    address.  When it returns, it returns the derived address; it fails
    only with a transport failure or the signature-size error. *)
Theorem submitCollateralSignature_trace
    (sender : Keypair) (recipientAddress mintAddress : PublicKey)
    (withdrawRequest : WithdrawCollateral) (nonce : Z)
    (programId collateralAddress : PublicKey) (w : World) (log : list Call) :
  let pda :=
    CollateralPDA.generateWithdrawCollateralPDA collateralAddress
      (publicKey sender) recipientAddress mintAddress withdrawRequest nonce
      programId in
  let salt := fst (randomBytes 32 w) in
  let run :=
    submitCollateralSignature sender recipientAddress mintAddress
      withdrawRequest nonce programId collateralAddress (w, log) in
  exists sends,
    snd (snd run) = log ++ CallFetchNullableAdminSignatures pda :: sends /\
    ((sends = [] /\ fst (snd run) = snd (randomBytes 32 w)) \/
     (exists ix,
        Ed25519.createSignatureVerificationInstruction
          [approvalEntry collateralAddress sender recipientAddress
             mintAddress withdrawRequest nonce salt] = Ok ix /\
        sends = [CallSendTransaction
                   (approvalTransaction programId collateralAddress sender
                      recipientAddress mintAddress withdrawRequest nonce salt
                      ix)
                   [sender]])) /\
    (forall a, fst run = Ok a -> a = pda) /\
    (forall t, fst run = Throw t ->
       t = SignatureSizeError \/ exists reason, t = TransportFailure reason).
Proof.
  intros pda salt run.
  destruct (submitCollateralSignature_shape sender recipientAddress
              mintAddress withdrawRequest nonce programId collateralAddress
              w log) as (r & w' & sends & Hrun & Hsends & Hr).
  fold pda salt in Hrun, Hsends, Hr. subst run. rewrite Hrun. cbn [fst snd].
  exists sends. split; [done|]. split; [done|]. split.
  - intros a ->. done.
  - intros t ->. done.
Qed.

(** A number that [new BN] refuses stops [executeWithdrawal] before any
    call. *)
Lemma executeWithdrawal_overflow
    (programId collateral depositAddress : PublicKey) (sender : Keypair)
    (recipientAddress mintAddress : PublicKey) (expiration amountInCents : Z)
    (signatureSalt signatureData : list Z) (w : World) (log : list Call) :
  ~ (BN_fits expiration /\ BN_fits amountInCents) ->
  executeWithdrawal programId collateral depositAddress sender
    recipientAddress mintAddress expiration amountInCents signatureSalt
    signatureData (w, log)
  = (Throw AssertionFailed, (w, log)).
Proof.
  intros Hover. unfold executeWithdrawal. cbv zeta.
  unfold bind at 1, lift at 1.
  destruct (BN_fits_dec expiration) as [Hexpiration|Hexpiration].
  - rewrite (BN_new_fits _ Hexpiration). cbv beta iota.
    unfold bind at 1, lift at 1.
    destruct (BN_fits_dec amountInCents) as [Hamount|Hamount]; [tauto|].
    by rewrite (BN_new_overflow _ Hamount).
  - by rewrite (BN_new_overflow _ Hexpiration).
Qed.

(** Every run of [executeWithdrawal] past the two [new BN], by the call it
    stops after. *)
Lemma executeWithdrawal_shape
    (programId collateral depositAddress : PublicKey) (sender : Keypair)
    (recipientAddress mintAddress : PublicKey) (expiration amountInCents : Z)
    (signatureSalt signatureData : list Z) (w : World) (log : list Call) :
  let request := mkWithdrawCollateral amountInCents expiration signatureSalt in
  let salt :=
    fst (randomBytes 32
           (snd (rpc_getOrCreateAssociatedTokenAccount sender mintAddress
                   recipientAddress w))) in
  let sent (tx : Transaction) (txSigners : list Keypair) :=
    txSigners = [sender] /\
    exists account,
      account_collateral_fetch collateral w = Answer account /\
      ((exists ix,
          Ed25519.createSignatureVerificationInstruction
            [approvalEntry collateral sender recipientAddress mintAddress
               request (adminFundsNonce account) salt] = Ok ix /\
          tx = approvalTransaction programId collateral sender
                 recipientAddress mintAddress request
                 (adminFundsNonce account) salt ix) \/
       (exists destination coordinator_ w2 executor others ix,
          fst (rpc_getOrCreateAssociatedTokenAccount sender mintAddress
                 recipientAddress w) = Answer destination /\
          account_coordinator_fetch (coordinator account) w2
            = Answer coordinator_ /\
          executors coordinator_ = Some (executor :: others) /\
          Ed25519.createSignatureVerificationInstruction
            [withdrawalEntry collateral sender recipientAddress mintAddress
               request account executor signatureData] = Ok ix /\
          tx = withdrawalTransaction programId collateral depositAddress
                 sender recipientAddress mintAddress request account
                 destination ix)) in
  BN_fits expiration -> BN_fits amountInCents ->
  exists r w' calls approval,
    executeWithdrawal programId collateral depositAddress sender
      recipientAddress mintAddress expiration amountInCents signatureSalt
      signatureData (w, log)
    = (r, (w', log ++ calls)) /\
    (approval = [] \/ approval = [SendApproval]) /\
    map kind calls `prefix_of`
      [FetchCollateral; GetTokenAccount; FetchApproval] ++ approval
      ++ [FetchCoordinator; SendWithdrawal] /\
    hd_error calls = Some (CallFetchCollateral collateral) /\
    (forall tx txSigners,
       CallSendTransaction tx txSigners ∈ calls -> sent tx txSigners) /\
    match r with
    | Ok hash =>
        map kind calls
        = [FetchCollateral; GetTokenAccount; FetchApproval] ++ approval
          ++ [FetchCoordinator; SendWithdrawal] /\
        length signatureData = 64%nat
    | Throw t =>
        expected t /\
        (length signatureData <> 64%nat -> SendWithdrawal ∉ map kind calls)
    end.
Proof.
  intros request salt sent Hexpiration Hamount.
  pass_BN Hexpiration Hamount.
  unfold bind at 1, fetchCollateral.
  destruct (account_collateral_fetch collateral w) as [ca|reason] eqn:Hca;
    cbn [awaited].
  2:{ exists (Throw (TransportFailure reason)), w, [CallFetchCollateral collateral], [].
      split; [done|]. split; [by left|]. split; [by eexists|]. split; [done|].
      split.
      { intros tx txSigners Hin. apply list_elem_of_singleton in Hin. discriminate. }
      split.
      - right; right. eauto.
      - intros _. cbn [map kind]. absent. }
  unfold bind at 1, getOrCreateAssociatedTokenAccount.
  destruct (rpc_getOrCreateAssociatedTokenAccount sender mintAddress
              recipientAddress w) as [[dest|reason] wa] eqn:Hdest;
    cbn [awaited fst snd] in *.
  2:{ exists (Throw (TransportFailure reason)), wa,
        [CallFetchCollateral collateral;
         CallGetOrCreateTokenAccount mintAddress recipientAddress], [].
      split; [by rewrite <- app_assoc|]. split; [by left|].
      split; [by eexists|]. split; [done|].
      split.
      { intros tx txSigners Hin.
        apply elem_of_cons in Hin as [Hin|Hin]; [discriminate|].
        apply list_elem_of_singleton in Hin. discriminate. }
      split.
      - right; right. eauto.
      - intros _. cbn [map kind]. absent. }
  unfold bind at 1. fold request.
  destruct (submitCollateralSignature_shape sender recipientAddress
              mintAddress request (adminFundsNonce ca) programId collateral
              wa ((log ++ [CallFetchCollateral collateral])
                  ++ [CallGetOrCreateTokenAccount mintAddress recipientAddress]))
    as (r & w2 & sends & Hrun & Hsends & Hr).
  fold salt in Hsends. rewrite Hrun. clear Hrun.
  set (pda := CollateralPDA.generateWithdrawCollateralPDA _ _ _ _ _ _ _) in *.
  assert (Happroval : exists approval,
            (approval = [] \/ approval = [SendApproval]) /\
            map kind sends = approval /\
            forall tx txSigners,
              CallSendTransaction tx txSigners ∈ sends -> sent tx txSigners).
  { destruct Hsends as [[-> _]|(ix & Hix & ->)].
    - exists []. split; [by left|]. split; [done|].
      intros tx txSigners Hin. by apply elem_of_nil in Hin.
    - exists [SendApproval]. split; [by right|]. split; [done|].
      intros tx txSigners Hin. apply list_elem_of_singleton in Hin.
      injection Hin as -> ->. split; [done|].
      exists ca. split; [done|]. left. by exists ix. }
  destruct Happroval as (approval & Happroval & Hkinds & Hsent).
  assert (Happ : SendWithdrawal ∉ approval).
  { destruct Happroval as [->| ->]; absent. }
  set (pre := [CallFetchCollateral collateral;
               CallGetOrCreateTokenAccount mintAddress recipientAddress;
               CallFetchNullableAdminSignatures pda] ++ sends).
  assert (Hlog : ((log ++ [CallFetchCollateral collateral])
                      ++ [CallGetOrCreateTokenAccount mintAddress recipientAddress])
                 ++ CallFetchNullableAdminSignatures pda :: sends
                 = log ++ pre).
  { subst pre. by rewrite <- !app_assoc. }
  rewrite Hlog. clear Hlog.
  assert (Hpre : map kind pre
                 = [FetchCollateral; GetTokenAccount; FetchApproval] ++ approval).
  { subst pre. rewrite map_app, Hkinds. reflexivity. }
  assert (Hsentpre : forall tx txSigners,
            CallSendTransaction tx txSigners ∈ pre -> sent tx txSigners).
  { intros tx txSigners Hin. subst pre. cbn [app] in Hin.
    do 3 (apply elem_of_cons in Hin as [Hin|Hin]; [discriminate|]).
    by apply Hsent. }
  assert (Hhd : forall rest, hd_error (pre ++ rest)
                             = Some (CallFetchCollateral collateral)).
  { done. }
  destruct r as [recordAddress|t].
  2:{ exists (Throw t), w2, pre, approval.
      split; [done|]. split; [done|].
      split; [rewrite Hpre, app_assoc; by eexists|].
      split; [by rewrite <- (app_nil_r pre), Hhd|]. split; [done|]. split.
      - destruct Hr as [->|Hr]; [by left | by right; right].
      - intros _. rewrite Hpre. cbn [map kind]. absent. }
  subst recordAddress.
  unfold bind at 1, fetchCoordinator.
  destruct (account_coordinator_fetch (coordinator ca) w2) as [co|reason] eqn:Hco;
    cbn [awaited].
  2:{ exists (Throw (TransportFailure reason)), w2,
        (pre ++ [CallFetchCoordinator (coordinator ca)]), approval.
      split; [by rewrite <- app_assoc|]. split; [done|].
      split.
      { rewrite map_app, Hpre, <- !app_assoc. cbn [map kind app].
        do 3 apply prefix_cons. apply prefix_app. by exists [SendWithdrawal]. }
      split; [apply Hhd|].
      split.
      { intros tx txSigners Hin. apply elem_of_app in Hin as [Hin|Hin].
        - by apply Hsentpre.
        - apply list_elem_of_singleton in Hin. discriminate. }
      split.
      - right; right. eauto.
      - intros _. rewrite map_app, Hpre. cbn [map kind]. absent. }
  rewrite <- app_assoc.
  set (resolved := pre ++ [CallFetchCoordinator (coordinator ca)]).
  assert (Hres : map kind resolved
                 = [FetchCollateral; GetTokenAccount; FetchApproval] ++ approval
                   ++ [FetchCoordinator]).
  { subst resolved. by rewrite map_app, Hpre, <- app_assoc. }
  assert (Hsentres : forall tx txSigners,
            CallSendTransaction tx txSigners ∈ resolved -> sent tx txSigners).
  { intros tx txSigners Hin. apply elem_of_app in Hin as [Hin|Hin].
    - by apply Hsentpre.
    - apply list_elem_of_singleton in Hin. discriminate. }
  assert (Hstop : forall (t : Thrown) (w3 : World), expected t ->
    exists r w' calls approval0,
      ((Throw t : Result string), (w3, log ++ resolved)) = (r, (w', log ++ calls)) /\
      (approval0 = [] \/ approval0 = [SendApproval]) /\
      map kind calls `prefix_of`
        [FetchCollateral; GetTokenAccount; FetchApproval] ++ approval0
        ++ [FetchCoordinator; SendWithdrawal] /\
      hd_error calls = Some (CallFetchCollateral collateral) /\
      (forall tx txSigners,
         CallSendTransaction tx txSigners ∈ calls -> sent tx txSigners) /\
      match r with
      | Ok hash =>
          map kind calls
          = [FetchCollateral; GetTokenAccount; FetchApproval] ++ approval0
            ++ [FetchCoordinator; SendWithdrawal] /\
          length signatureData = 64%nat
      | Throw t =>
          expected t /\
          (length signatureData <> 64%nat -> SendWithdrawal ∉ map kind calls)
      end).
  { intros t w3 Ht. exists (Throw t), w3, resolved, approval.
    split; [done|]. split; [done|]. split.
    { rewrite Hres. cbn [app]. do 3 apply prefix_cons. apply prefix_app.
      by exists [SendWithdrawal]. }
    split; [apply Hhd|]. split; [done|]. split; [done|].
    intros _. rewrite Hres. cbn [map kind]. absent. }
  destruct (executors co) as [[|first others]|] eqn:Hexec; cbn [length Nat.eqb].
  - apply Hstop. right; left. done.
  - change (List.find (fun _ : PublicKey => true)
              (default [] (Some (first :: others)))) with (Some first).
    cbv iota.
    destruct (single_entry_outcome
                (withdrawalEntry collateral sender recipientAddress
                   mintAddress request ca first signatureData))
      as [[Hlen [ix Hix]]|[Hlen Hix]].
    { apply Coordinator_getWithdrawMessage_length. }
    + pose proof Hix as Hbuilt. unfold withdrawalEntry in Hix.
      unfold bind, lift. rewrite Hix. unfold sendAndConfirmTransaction.
      destruct (rpc_sendAndConfirmTransaction _ [sender] w2) as [reply w3].
      exists (awaited reply), w3,
        (resolved ++ [CallSendTransaction
                        (withdrawalTransaction programId collateral
                           depositAddress sender recipientAddress mintAddress
                           request ca dest ix) [sender]]), approval.
      split; [by rewrite <- app_assoc|]. split; [done|].
      assert (Hfull : map kind (resolved ++ [CallSendTransaction
                (withdrawalTransaction programId collateral
                   depositAddress sender recipientAddress mintAddress
                   request ca dest ix) [sender]])
              = [FetchCollateral; GetTokenAccount; FetchApproval] ++ approval
                ++ [FetchCoordinator; SendWithdrawal]).
      { rewrite map_app, Hres. rewrite <- !app_assoc. reflexivity. }
      split; [by rewrite Hfull|]. split; [done|].
      split.
      { intros tx txSigners Hin. apply elem_of_app in Hin as [Hin|Hin].
        - by apply Hsentres.
        - apply list_elem_of_singleton in Hin. injection Hin as -> ->.
          split; [done|]. exists ca. split; [done|]. right.
          exists dest, co, w2, first, others, ix. by repeat split. }
      destruct reply as [hash|reason]; cbn [awaited].
      * done.
      * split; [right; right; eauto | done].
    + unfold withdrawalEntry in Hix.
      unfold bind, lift. rewrite Hix. apply Hstop. by left.
  - apply Hstop. right; left. done.
Qed.

(** X11: in every world, a run of [executeWithdrawal] is one of two.
    If [new BN] refuses the expiry or the amount (absolute value of 2^53 or
    more), the run fails with "Assertion failed" before any call, the world
    untouched.  Otherwise its calls are a non-empty beginning of: the
    collateral fetch, the destination token account, the approval-record
    fetch, at most one approval transaction, the coordinator fetch, the
    withdrawal transaction.  Every transaction is signed by the sender
    alone.  A hash is returned only after the whole sequence, withdrawal
    transaction included, and only for a 64-byte coordinator signature.  A
    failure is then a transport failure, the no-executors error or the
    signature-size error: neither the non-null assertion on the first
    executor nor the message-size check ever fails. *)
Theorem executeWithdrawal_trace
    (programId collateral depositAddress : PublicKey) (sender : Keypair)
    (recipientAddress mintAddress : PublicKey) (expiration amountInCents : Z)
    (signatureSalt signatureData : list Z) (w : World) (log : list Call) :
  let run :=
    executeWithdrawal programId collateral depositAddress sender
      recipientAddress mintAddress expiration amountInCents signatureSalt
      signatureData (w, log) in
  (~ (BN_fits expiration /\ BN_fits amountInCents) ->
     run = (Throw AssertionFailed, (w, log))) /\
  (BN_fits expiration -> BN_fits amountInCents ->
   exists calls approval,
     snd (snd run) = log ++ calls /\
     (approval = [] \/ approval = [SendApproval]) /\
     map kind calls `prefix_of`
       [FetchCollateral; GetTokenAccount; FetchApproval] ++ approval
       ++ [FetchCoordinator; SendWithdrawal] /\
     hd_error calls = Some (CallFetchCollateral collateral) /\
     Forall (signedBy sender) calls /\
     (forall hash, fst run = Ok hash ->
        map kind calls
        = [FetchCollateral; GetTokenAccount; FetchApproval] ++ approval
          ++ [FetchCoordinator; SendWithdrawal] /\
        length signatureData = 64%nat) /\
     (forall t, fst run = Throw t -> expected t)).
Proof.
  intros run. split.
  { intros Hover. by apply executeWithdrawal_overflow. }
  intros Hexpiration Hamount.
  destruct (executeWithdrawal_shape programId collateral depositAddress
              sender recipientAddress mintAddress expiration amountInCents
              signatureSalt signatureData w log Hexpiration Hamount)
    as (r & w' & calls & approval & Hrun & Happroval & Hprefix & Hhd & Hsent & Hr).
  subst run. rewrite Hrun. cbn [fst snd]. exists calls, approval.
  repeat (split; [done|]). split.
  { apply Forall_forall. intros c Hc. destruct c; try exact I.
    by apply Hsent in Hc as [-> _]. }
  split.
  - intros hash ->. done.
  - intros t ->. by destruct Hr.
Qed.

(** X12: a coordinator signature that is not 64 bytes long is found out
    only when the last verification instruction is built.  For an expiry
    and an amount that [new BN] accepts, the run fails in every world and
    the withdrawal transaction is never sent.  And the check comes last:
    when the reads succeed and the coordinator lists an executor, the run
    fails with the signature-size error in the state the approval step
    left behind, its calls made (the approval transaction among them, if
    one was due) and the coordinator fetched. *)
Theorem executeWithdrawal_rejects_short_signature
    (programId collateral depositAddress : PublicKey) (sender : Keypair)
    (recipientAddress mintAddress : PublicKey) (expiration amountInCents : Z)
    (signatureSalt signatureData : list Z) (w : World) (log : list Call) :
  let request := mkWithdrawCollateral amountInCents expiration signatureSalt in
  let run :=
    executeWithdrawal programId collateral depositAddress sender
      recipientAddress mintAddress expiration amountInCents signatureSalt
      signatureData (w, log) in
  BN_fits expiration -> BN_fits amountInCents ->
  length signatureData <> 64%nat ->
  (exists t calls,
     fst run = Throw t /\ expected t /\
     snd (snd run) = log ++ calls /\
     SendWithdrawal ∉ map kind calls) /\
  (forall account destination wa recordAddress w2 log2 coordinator_
          executor others,
     account_collateral_fetch collateral w = Answer account ->
     rpc_getOrCreateAssociatedTokenAccount sender mintAddress
       recipientAddress w = (Answer destination, wa) ->
     submitCollateralSignature sender recipientAddress mintAddress request
       (adminFundsNonce account) programId collateral
       (wa, log ++ [CallFetchCollateral collateral;
                    CallGetOrCreateTokenAccount mintAddress recipientAddress])
     = (Ok recordAddress, (w2, log2)) ->
     account_coordinator_fetch (coordinator account) w2
       = Answer coordinator_ ->
     executors coordinator_ = Some (executor :: others) ->
     run = (Throw SignatureSizeError,
            (w2, log2 ++ [CallFetchCoordinator (coordinator account)]))).
Proof.
  intros request run Hexpiration Hamount Hlen. split.
  - destruct (executeWithdrawal_shape programId collateral depositAddress
                sender recipientAddress mintAddress expiration amountInCents
                signatureSalt signatureData w log Hexpiration Hamount)
      as (r & w' & calls & approval & Hrun & _ & _ & _ & _ & Hr).
    subst run. rewrite Hrun. cbn [fst snd].
    destruct r as [hash|t]; [by destruct Hr|].
    destruct Hr as [Ht Hnever]. exists t, calls.
    split; [done|]. split; [done|]. split; [done|]. by apply Hnever.
  - intros account destination wa recordAddress w2 log2 coordinator_
      executor others Haccount Hdestination Hsubmit Hcoordinator Hexecutors.
    subst run. pass_BN Hexpiration Hamount.
    unfold bind at 1, fetchCollateral. rewrite Haccount. cbn [awaited].
    unfold bind at 1, getOrCreateAssociatedTokenAccount.
    rewrite Hdestination. cbn [awaited].
    unfold bind at 1. fold request. rewrite <- app_assoc. cbn [app].
    rewrite Hsubmit. unfold bind at 1, fetchCoordinator.
    rewrite Hcoordinator. cbn [awaited]. rewrite Hexecutors.
    cbn [length Nat.eqb].
    change (List.find (fun _ : PublicKey => true)
              (default [] (Some (executor :: others)))) with (Some executor).
    cbv iota.
    destruct (single_entry_outcome
                (withdrawalEntry collateral sender recipientAddress
                   mintAddress request account executor signatureData))
      as [[Hsize _]|[_ Hthrown]].
    { apply Coordinator_getWithdrawMessage_length. }
    + done.
    + unfold withdrawalEntry in Hthrown. unfold bind, lift.
      by rewrite Hthrown.
Qed.

(** X13: what [executeWithdrawal] sends, in every world.  Each transaction
    of a run is signed by the sender alone and is one of two.  The approval
    transaction verifies the sender's signature over the custody message of
    this request, with the nonce of the fetched collateral account and the
    salt drawn in this run, and submits that same salt, nonce and request
    to the approval record derived from them.  The withdrawal transaction
    verifies the given signature bytes, against the first executor of the
    fetched coordinator, over the coordinator message of this request, and
    withdraws to the destination token account that was returned, naming
    the same approval record. *)
Theorem executeWithdrawal_transactions
    (programId collateral depositAddress : PublicKey) (sender : Keypair)
    (recipientAddress mintAddress : PublicKey) (expiration amountInCents : Z)
    (signatureSalt signatureData : list Z) (w : World) (log : list Call) :
  let run :=
    executeWithdrawal programId collateral depositAddress sender
      recipientAddress mintAddress expiration amountInCents signatureSalt
      signatureData (w, log) in
  let request := mkWithdrawCollateral amountInCents expiration signatureSalt in
  let salt :=
    fst (randomBytes 32
           (snd (rpc_getOrCreateAssociatedTokenAccount sender mintAddress
                   recipientAddress w))) in
  exists calls,
    snd (snd run) = log ++ calls /\
    forall tx txSigners,
      CallSendTransaction tx txSigners ∈ calls ->
      txSigners = [sender] /\
      exists account,
        account_collateral_fetch collateral w = Answer account /\
        ((exists ix,
            Ed25519.createSignatureVerificationInstruction
              [approvalEntry collateral sender recipientAddress mintAddress
                 request (adminFundsNonce account) salt] = Ok ix /\
            tx = approvalTransaction programId collateral sender
                   recipientAddress mintAddress request
                   (adminFundsNonce account) salt ix) \/
         (exists destination coordinator_ w2 executor others ix,
            fst (rpc_getOrCreateAssociatedTokenAccount sender mintAddress
                   recipientAddress w) = Answer destination /\
            account_coordinator_fetch (coordinator account) w2
              = Answer coordinator_ /\
            executors coordinator_ = Some (executor :: others) /\
            Ed25519.createSignatureVerificationInstruction
              [withdrawalEntry collateral sender recipientAddress mintAddress
                 request account executor signatureData] = Ok ix /\
            tx = withdrawalTransaction programId collateral depositAddress
                   sender recipientAddress mintAddress request account
                   destination ix)).
Proof.
  intros run request salt.
  destruct (BN_fits_dec expiration) as [Hexpiration|Hexpiration].
  2:{ subst run. rewrite executeWithdrawal_overflow by tauto.
      exists []. split; [by rewrite app_nil_r|].
      intros tx txSigners Hin. by apply elem_of_nil in Hin. }
  destruct (BN_fits_dec amountInCents) as [Hamount|Hamount].
  2:{ subst run. rewrite executeWithdrawal_overflow by tauto.
      exists []. split; [by rewrite app_nil_r|].
      intros tx txSigners Hin. by apply elem_of_nil in Hin. }
  destruct (executeWithdrawal_shape programId collateral depositAddress
              sender recipientAddress mintAddress expiration amountInCents
              signatureSalt signatureData w log Hexpiration Hamount)
    as (r & w' & calls & approval & Hrun & _ & _ & _ & Hsent & _).
  subst run. rewrite Hrun. cbn [fst snd]. exists calls. split; [done|].
  exact Hsent.
Qed.

End FlowProperties.

Section Binding.
Import Wire.







Lemma typeHashBytes_bytes signature :
  Forall Spec.is_byte (typeHashBytes signature).
Proof. apply keccak256_bytes. Qed.

Lemma domainBytes_bytes name version chainId k salt :
  key_bytes k -> Forall Spec.is_byte salt ->
  Forall Spec.is_byte (domainBytes name version chainId k salt).
Proof.
  intros Hk Hsalt. unfold domainBytes.
  rewrite !Forall_app.
  repeat split; assumption || apply typeHashBytes_bytes || apply bigEndian_bytes.
Qed.

Lemma custodyStructBytes_bytes c s r a amount n :
  key_bytes c -> key_bytes s -> key_bytes r -> key_bytes a ->
  Forall Spec.is_byte (custodyStructBytes c s r a amount n).
Proof.
  intros Hc Hs Hr Ha. unfold custodyStructBytes.
  rewrite !Forall_app.
  repeat split; assumption || apply typeHashBytes_bytes || apply bigEndian_bytes.
Qed.





End Binding.

Section Widths.
Context `{Solana}.
Import Wire.

Lemma toHex_app (a b : list Z) :
  Js.toHex (a ++ b) = (Js.toHex a ++ Js.toHex b)%string.
Proof.
  induction a as [|x a IH]; [done|].
  cbn [app]. by rewrite !toHex_cons, IH, append_assoc.
Qed.

Lemma bigEndian_snoc n v :
  bigEndian (S n) v = bigEndian n (v / 256) ++ [v mod 256].
Proof.
  induction n as [|n IH].
  - unfold bigEndian. simpl. by rewrite Z.div_1_r.
  - rewrite bigEndian_S, IH, (bigEndian_S n (v / 256)). cbn [app].
    f_equal. f_equal. rewrite Z.div_div by lia. f_equal.
    rewrite Nat2Z.inj_succ, Z.pow_succ_r by lia. reflexivity.
Qed.

Lemma bigEndian_high n h v :
  bigEndian n (h * 256 ^ Z.of_nat n + v) = bigEndian n v.
Proof.
  unfold bigEndian. apply map_ext_in. intros i Hi.
  apply in_rev, in_seq in Hi.
  replace (Z.of_nat n) with (Z.of_nat i + (Z.of_nat n - Z.of_nat i - 1) + 1)
    by lia.
  rewrite !Z.pow_add_r by lia. change (256 ^ 1) with 256.
  set (p := 256 ^ Z.of_nat i). set (q := 256 ^ (Z.of_nat n - Z.of_nat i - 1)).
  assert (Hp : 0 < p) by (subst p; apply Z.pow_pos_nonneg; lia).
  replace (h * (p * q * 256) + v) with (v + (h * q * 256) * p) by ring.
  rewrite Z.div_add by lia.
  replace (v / p + h * q * 256) with (v / p + (h * q) * 256) by ring.
  by rewrite Z.mod_add by lia.
Qed.

(** A number with exactly [2 * k] hex digits, [width] at most that many:
    no padding, [k] bytes. *)
Lemma padStart_wide (width k : nat) v :
  (0 < k)%nat -> (width <= 2 * k)%nat ->
  16 ^ (2 * Z.of_nat k - 1) <= v < 16 ^ (2 * Z.of_nat k) ->
  Js.padStart (Js.toString16 v) width "0" = Js.toHex (bigEndian k v).
Proof.
  intros Hk Hw Hv.
  assert (H0 : 0 <= v).
  { assert (0 < 16 ^ (2 * Z.of_nat k - 1)) by (apply Z.pow_pos_nonneg; lia).
    lia. }
  assert (Hlen : String.length (Js.toString16 v) = (2 * k)%nat).
  { rewrite toString16_length by done.
    pose proof (numDigits16_lower v (2 * Z.of_nat k - 1)) as Hlo.
    pose proof (numDigits16_upper v (2 * Z.of_nat k)) as Hhi.
    rewrite <- !pow16_pow2 in Hlo, Hhi by lia.
    specialize (Hlo ltac:(lia) ltac:(lia)).
    specialize (Hhi ltac:(lia) ltac:(lia)). lia. }
  rewrite padStart_long by lia.
  rewrite <- (padStart_long (Js.toString16 v) (2 * k) "0") by lia.
  apply fixed_width; [done|].
  replace (256 ^ Z.of_nat k) with (16 ^ (2 * Z.of_nat k)); [lia|].
  rewrite Z.pow_mul_r by lia. reflexivity.
Qed.

Lemma encodeUInt64_nine_bytes q y :
  16 ^ 15 <= q < 16 ^ 16 -> 0 <= y < 256 ->
  HashUtils.encodeUInt64 (q * 256 + y) = Js.toHex (bigEndian 8 q ++ [y]).
Proof.
  intros Hq Hy. unfold HashUtils.encodeUInt64.
  rewrite (padStart_wide 16 9) by lia.
  rewrite bigEndian_snoc.
  replace ((q * 256 + y) / 256) with q
    by (rewrite Z.div_add_l by lia; rewrite Z.div_small by lia; lia).
  replace ((q * 256 + y) mod 256) with y
    by (rewrite Z.add_comm, Z.mod_add by lia; symmetry; by apply Z.mod_small).
  reflexivity.
Qed.

Lemma encodeUInt32_five_bytes l n :
  16 <= l < 256 -> 0 <= n < 2 ^ 32 ->
  HashUtils.encodeUInt32 (l * 2 ^ 32 + n) = Js.toHex (l :: bigEndian 4 n).
Proof.
  intros Hl Hn. unfold HashUtils.encodeUInt32.
  rewrite (padStart_wide 8 5) by lia.
  rewrite bigEndian_S. change (256 ^ Z.of_nat 4) with (2 ^ 32).
  pose proof (bigEndian_high 4 l n) as Hhigh.
  change (256 ^ Z.of_nat 4) with (2 ^ 32) in Hhigh. rewrite Hhigh.
  replace ((l * 2 ^ 32 + n) / 2 ^ 32) with l
    by (rewrite Z.div_add_l by lia; rewrite Z.div_small by lia; lia).
  by rewrite Z.mod_small by lia.
Qed.

Lemma shifted_fields q y front l n :
  16 ^ 15 <= q < 16 ^ 16 -> 0 <= y < 256 -> 16 <= l < 256 ->
  0 <= n < 2 ^ 32 ->
  (HashUtils.encodeUInt64 (q * 256 + y)
   ++ HashUtils.encodeAddress (mkPublicKey (front ++ [l]))
   ++ HashUtils.encodeUInt32 n)%string
  = (HashUtils.encodeUInt64 q
     ++ HashUtils.encodeAddress (mkPublicKey (y :: front))
     ++ HashUtils.encodeUInt32 (l * 2 ^ 32 + n))%string.
Proof.
  intros Hq Hy Hl Hn.
  rewrite encodeUInt64_nine_bytes, encodeUInt32_five_bytes by done.
  rewrite encodeUInt64_hex, encodeUInt32_hex by lia.
  unfold HashUtils.encodeAddress. cbn [toBuffer].
  rewrite !toHex_app, !toHex_cons, !append_assoc.
  change (Js.toHex []) with ""%string. cbn ["++"%string]. reflexivity.
Qed.

(** X16: outside the field widths the struct encoding is ambiguous.  An
    amount of 18 hex digits, which [encodeUInt64] does not reject, spills
    its last byte into the place of the receiver, and a nonce of 10 hex
    digits takes the receiver's last byte: the two different requests of
    the statement have the same struct hash, hence the same custody
    message for every salt and the same approval-record address. *)
Theorem encodeWithdrawMessage_ambiguous
    (c s a programId : PublicKey) (front salt : list Z) (q y l n : Z)
    (w w' : WithdrawCollateral) :
  16 ^ 15 <= q < 16 ^ 16 -> 0 <= y < 256 -> 16 <= l < 256 ->
  0 <= n < 2 ^ 32 ->
  amountOfAsset w = q * 256 + y -> amountOfAsset w' = q ->
  let r := mkPublicKey (front ++ [l]) in
  let r' := mkPublicKey (y :: front) in
  let n' := l * 2 ^ 32 + n in
  amountOfAsset w <> amountOfAsset w' /\ n <> n' /\
  Collateral.encodeWithdrawMessage c s r a w n
  = Collateral.encodeWithdrawMessage c s r' a w' n' /\
  Collateral.getWithdrawMessage c s r a w salt n
  = Collateral.getWithdrawMessage c s r' a w' salt n' /\
  CollateralPDA.generateWithdrawCollateralPDA c s r a w n programId
  = CollateralPDA.generateWithdrawCollateralPDA c s r' a w' n' programId.
Proof.
  intros Hq Hy Hl Hn Hw Hw' r r' n'.
  assert (Henc : Collateral.encodeWithdrawMessage c s r a w n
                 = Collateral.encodeWithdrawMessage c s r' a w' n').
  { unfold Collateral.encodeWithdrawMessage. cbv zeta.
    rewrite Hw, Hw', !join7. subst r r' n'.
    by rewrite shifted_fields. }
  split; [lia|]. split; [subst n'; lia|]. split; [exact Henc|]. split.
  - unfold Collateral.getWithdrawMessage. cbv zeta. by rewrite Henc.
  - unfold CollateralPDA.generateWithdrawCollateralPDA. cbv zeta.
    by rewrite Henc.
Qed.

(** X17: the approval-record address is derived from three seeds: the 25
    bytes of "CollateralAdminSignatures", the collateral key, and a 32-byte
    identifier, which is the struct hash the custody message commits to.
    The address therefore depends on the request through its amount only
    (not on the expiry or on either salt), and a request whose custody
    message was signed is tied to this address by its struct hash. *)
Theorem generateWithdrawCollateralPDA_seeds
    (c s r a programId : PublicKey) (w : WithdrawCollateral) (n : Z) :
  exists id,
    CollateralPDA.generateWithdrawCollateralPDA c s r a w n programId
    = findProgramAddressSync
        [Js.Utf8_parse "CollateralAdminSignatures"; toBuffer c; id] programId /\
    length (Js.Utf8_parse "CollateralAdminSignatures") = 25%nat /\
    length id = 32%nat /\ Forall Spec.is_byte id /\
    (forall expiry salt,
       CollateralPDA.generateWithdrawCollateralPDA c s r a
         (mkWithdrawCollateral (amountOfAsset w) expiry salt) n programId
       = CollateralPDA.generateWithdrawCollateralPDA c s r a w n programId) /\
    (forall salt,
       Collateral.getWithdrawMessage c s r a w salt n
       = Keccak.keccak256
           ([0x19; 0x01]
            ++ Js.Buffer_from_hex
                 (Collateral.domainSeparatorEncode "Collateral" "2" 900 c
                    (Js.Uint8Array_from salt))
            ++ id)) /\
    (key_bytes c -> key_bytes s -> key_bytes r -> key_bytes a ->
     0 <= amountOfAsset w < 2 ^ 64 -> 0 <= n < 2 ^ 32 ->
     id = Keccak.keccak256 (custodyStructBytes c s r a (amountOfAsset w) n)).
Proof.
  exists (Js.Buffer_from_hex (Collateral.encodeWithdrawMessage c s r a w n)).
  split; [reflexivity|]. split; [reflexivity|].
  assert (Hid : Js.Buffer_from_hex (Collateral.encodeWithdrawMessage c s r a w n)
                = Keccak.keccak256 (Js.Hex_parse (Js.join [
                    Collateral.WITHDRAW_TYPE_HASH;
                    HashUtils.encodeAddress s; HashUtils.encodeAddress c;
                    HashUtils.encodeAddress a;
                    HashUtils.encodeUInt64 (amountOfAsset w);
                    HashUtils.encodeAddress r; HashUtils.encodeUInt32 n ]))).
  { unfold Collateral.encodeWithdrawMessage. cbv zeta.
    apply keccak256Hex_decoded. }
  split; [rewrite Hid; apply keccak256_length|].
  split; [rewrite Hid; apply keccak256_bytes|].
  split; [reflexivity|]. split.
  - intros salt. rewrite Hid.
    unfold Collateral.getWithdrawMessage. cbv zeta.
    rewrite keccak256Hex_decoded, join3, Collateral_encode_value.
    unfold Collateral.encodeWithdrawMessage, Collateral.domainSeparatorEncode.
    cbv zeta. rewrite keccak256Hex_decoded.
    cbn [String.append Js.Hex_parse].
    rewrite keccak256Hex_parsed, keccak256Hex_parsed_last. reflexivity.
  - intros Hc Hs Hr Ha Hamt Hn.
    rewrite Collateral_encodeWithdrawMessage_bytes by done.
    apply Buffer_from_hex_toHex, keccak256_bytes.
Qed.

End Widths.

(** ** The custody digest against the specification's words *)
Section SpecRefinement.
Import Wire.

Lemma nibble_cases d :
  0 <= d < 16 ->
  d = 0 \/ d = 1 \/ d = 2 \/ d = 3 \/ d = 4 \/ d = 5 \/ d = 6 \/ d = 7 \/
  d = 8 \/ d = 9 \/ d = 10 \/ d = 11 \/ d = 12 \/ d = 13 \/ d = 14 \/ d = 15.
Proof. lia. Qed.

Lemma value_digit d : 0 <= d < 16 -> Spec.value (Spec.digit d) = Some d.
Proof.
  intros Hd%nibble_cases.
  repeat (destruct Hd as [->|Hd]; [reflexivity|]). by subst.
Qed.

Lemma hexOfBytes_app (a b : list Z) :
  Spec.hexOfBytes (a ++ b) = (Spec.hexOfBytes a ++ Spec.hexOfBytes b)%string.
Proof.
  induction a as [|x a IH]; [done|].
  cbn [app Spec.hexOfBytes String.append]. by rewrite IH.
Qed.

Lemma bytesOfHex_hexOfBytes buf :
  Forall Spec.is_byte buf -> Spec.bytesOfHex (Spec.hexOfBytes buf) = Some buf.
Proof.
  induction 1 as [|b buf Hb Hbuf IH]; [done|].
  unfold Spec.is_byte in Hb. cbn [Spec.hexOfBytes Spec.bytesOfHex].
  rewrite !value_digit, IH.
  - by rewrite <- Z.div_mod by lia.
  - apply Z.mod_pos_bound. lia.
  - split; [apply Z.div_pos; lia | apply Z.div_lt_upper_bound; lia].
Qed.

Lemma bytes_spec buf : Forall Spec.is_byte buf -> Spec.bytes buf = true.
Proof.
  induction 1 as [|b buf Hb Hbuf IH]; [done|].
  unfold Spec.is_byte in Hb. unfold Spec.bytes in *. cbn [forallb]. rewrite IH.
  destruct (Z.leb_spec 0 b); [|lia]. by destruct (Z.ltb_spec b 256); [|lia].
Qed.

Lemma encodeBytes_value buf :
  Forall Spec.is_byte buf -> Spec.encodeBytes buf = Some (Spec.hexOfBytes buf).
Proof. intros Hb. unfold Spec.encodeBytes. by rewrite bytes_spec. Qed.

Lemma encodeAddress_value k :
  key32 k -> Spec.encodeAddress k = Some (Spec.hexOfBytes (toBuffer k)).
Proof.
  intros [Hlen Hb]. unfold Spec.encodeAddress. rewrite Hlen.
  by apply encodeBytes_value.
Qed.

Lemma encodeSalt_value salt :
  Forall Spec.is_byte salt -> length salt = 32%nat ->
  Spec.encodeSalt salt = Some (Spec.hexOfBytes salt).
Proof.
  intros Hb Hlen. unfold Spec.encodeSalt. rewrite Hlen.
  by apply encodeBytes_value.
Qed.

Lemma digits_bigEndian k : forall n,
  Spec.digits (2 * k) n = Spec.hexOfBytes (bigEndian k n).
Proof.
  induction k as [|k IH]; intros n; [done|].
  replace (2 * S k)%nat with (S (S (2 * k))) by lia.
  cbn [Spec.digits]. rewrite bigEndian_snoc, hexOfBytes_app, IH.
  rewrite Z.div_div by lia. change (16 * 16) with 256.
  rewrite append_assoc. cbn [Spec.hexOfBytes String.append].
  destruct (nibbles n) as [Hlow Hhigh].
  rewrite Hlow. rewrite <- Hhigh.
  rewrite (Z.mod_small (n mod 256 / 16)); [done|].
  pose proof (Z.mod_pos_bound n 256 ltac:(lia)).
  split; [apply Z.div_pos; lia | apply Z.div_lt_upper_bound; lia].
Qed.

Lemma encodeUInt64_value n :
  0 <= n < 2 ^ 64 ->
  Spec.encodeUInt n 64 = Some (Spec.hexOfBytes (bigEndian 8 n)).
Proof.
  intros Hn. unfold Spec.encodeUInt.
  destruct (Z.leb_spec 0 n); [|lia].
  destruct (Z.ltb_spec n (2 ^ 64)); [|lia]. cbn [andb].
  change (Z.to_nat (64 / 4)) with (2 * 8)%nat. by rewrite digits_bigEndian.
Qed.

Lemma encodeUInt32_value n :
  0 <= n < 2 ^ 32 ->
  Spec.encodeUInt n 32 = Some (Spec.hexOfBytes (bigEndian 4 n)).
Proof.
  intros Hn. unfold Spec.encodeUInt.
  destruct (Z.leb_spec 0 n); [|lia].
  destruct (Z.ltb_spec n (2 ^ 32)); [|lia]. cbn [andb].
  change (Z.to_nat (32 / 4)) with (2 * 4)%nat. by rewrite digits_bigEndian.
Qed.

Lemma characters_Utf8_parse s : Spec.characters s = Js.Utf8_parse s.
Proof.
  unfold Spec.characters, Js.Utf8_parse. apply map_ext. intros c.
  unfold nat_of_ascii. apply N_nat_Z.
Qed.

Lemma typeHash_value signature :
  Spec.typeHash signature = Spec.hexOfBytes (typeHashBytes signature).
Proof. unfold Spec.typeHash, typeHashBytes. by rewrite characters_Utf8_parse. Qed.

Lemma hash_value buf :
  Forall Spec.is_byte buf ->
  Spec.hash (Spec.hexOfBytes buf)
  = Some (Spec.hexOfBytes (Keccak.keccak256 buf)).
Proof. intros Hb. unfold Spec.hash. by rewrite bytesOfHex_hexOfBytes. Qed.

Lemma domainSeparatorHash_value name version chainId k salt :
  key32 k -> 0 <= chainId < 2 ^ 64 ->
  Forall Spec.is_byte salt -> length salt = 32%nat ->
  Spec.domainSeparatorHash name version chainId k salt
  = Some (Spec.hexOfBytes
            (Keccak.keccak256 (domainBytes name version chainId k salt))).
Proof.
  intros Hk Hchain Hsalt Hlen. unfold Spec.domainSeparatorHash.
  rewrite encodeUInt64_value, encodeAddress_value, encodeSalt_value by done.
  cbn [mbind option_bind]. rewrite !typeHash_value, <- !hexOfBytes_app.
  apply hash_value, domainBytes_bytes; [apply Hk | done].
Qed.

Lemma custodyStructHash_value c s r a amount n :
  key32 c -> key32 s -> key32 r -> key32 a ->
  0 <= amount < 2 ^ 64 -> 0 <= n < 2 ^ 32 ->
  Spec.custodyStructHash c s r a amount n
  = Some (Spec.hexOfBytes
            (Keccak.keccak256 (custodyStructBytes c s r a amount n))).
Proof.
  intros Hc Hs Hr Ha Hamount Hn. unfold Spec.custodyStructHash.
  rewrite !encodeAddress_value, encodeUInt64_value, encodeUInt32_value by done.
  cbn [mbind option_bind]. rewrite typeHash_value, <- !hexOfBytes_app.
  apply hash_value, custodyStructBytes_bytes;
    [apply Hc | apply Hs | apply Hr | apply Ha].
Qed.

(** C1: for every custody field set the specification encodes (32-byte
    addresses, an amount below 2^64, a nonce below 2^32, a 32-byte salt),
    the specification's final digest is defined and
    [Collateral.getWithdrawMessage] returns it: the keccak-256 digest of
    the hex-decoded concatenation of the prefix 0x19 0x01, the
    domain-separator hash (name "Collateral", version "2", chain id 900, the
    collateral address as verifying entity, the salt) and the custody
    struct hash, each hash taken over the decoded bytes of its hex
    argument. *)
Theorem Collateral_getWithdrawMessage_spec
    (collateral sender receiver asset : PublicKey)
    (withdraw : WithdrawCollateral) (salt : list Z) (adminFundsNonce : Z) :
  key32 collateral -> key32 sender -> key32 receiver -> key32 asset ->
  Forall Spec.is_byte salt -> length salt = 32%nat ->
  0 <= amountOfAsset withdraw < 2 ^ 64 -> 0 <= adminFundsNonce < 2 ^ 32 ->
  Spec.custodyFinalDigest collateral sender receiver asset
    (amountOfAsset withdraw) adminFundsNonce salt
  = Some (Collateral.getWithdrawMessage collateral sender receiver asset
            withdraw salt adminFundsNonce).
Proof.
  intros Hc Hs Hr Ha Hsalt Hlen Hamount Hnonce.
  unfold Spec.custodyFinalDigest.
  rewrite encodeBytes_value by (unfold Spec.is_byte; repeat constructor; lia).
  rewrite domainSeparatorHash_value, custodyStructHash_value by (done || lia).
  cbn [mbind option_bind]. rewrite <- !hexOfBytes_app.
  rewrite bytesOfHex_hexOfBytes.
  2:{ rewrite !Forall_app. repeat split; try apply keccak256_bytes.
      unfold Spec.is_byte. repeat constructor; lia. }
  cbn [mbind option_bind]. f_equal. symmetry.
  rewrite Collateral_getWithdrawMessage_hashed.
  rewrite Collateral_domainSeparatorEncode_bytes
    by (lia || apply Uint8Array_from_is_bytes || apply Hc).
  rewrite Collateral_encodeWithdrawMessage_bytes
    by (done || apply Hc || apply Hs || apply Hr || apply Ha).
  rewrite prefixed_parsed by apply keccak256_bytes.
  by rewrite Uint8Array_from_bytes.
Qed.

End SpecRefinement.

(** ** Concrete runs of the further properties *)
Section FurtherRuns.
Import Fixture Scenario.

Lemma range_bytes (from : Z) (n : nat) :
  0 <= from -> from + Z.of_nat n <= 256 -> Forall Spec.is_byte (range from n).
Proof.
  intros Hfrom Hto. unfold range. apply Forall_map, Forall_forall.
  intros i Hi%elem_of_seq. unfold Spec.is_byte. simpl. lia.
Qed.

Lemma range_length (from : Z) (n : nat) : length (range from n) = n.
Proof. unfold range. by rewrite length_map, length_seq. Qed.

Ltac explicit_bytes :=
  unfold Spec.is_byte; repeat (constructor; [lia|]); constructor.

Lemma collateralProxy_key : Wire.key32 collateralProxy.
Proof. split; [reflexivity|]. unfold Wire.key_bytes, collateralProxy. cbn [toBuffer]. explicit_bytes. Qed.

Lemma assetAddress_key : Wire.key32 assetAddress.
Proof. split; [reflexivity|]. unfold Wire.key_bytes, assetAddress. cbn [toBuffer]. explicit_bytes. Qed.

Lemma recipient_key : Wire.key32 recipient.
Proof. split; [reflexivity|]. unfold Wire.key_bytes, recipient. cbn [toBuffer]. explicit_bytes. Qed.

Lemma senderKey_key : Wire.key32 senderKey.
Proof. split; [reflexivity|]. apply range_bytes; simpl; lia. Qed.

Lemma coordinatorKey_key : Wire.key32 coordinatorKey.
Proof. split; [reflexivity|]. apply range_bytes; simpl; lia. Qed.

Lemma request_amount : 0 <= amountOfAsset request < 2 ^ 64.
Proof. simpl. lia. Qed.

Lemma request_expiry : 0 <= signatureExpirationTime request < 2 ^ 64.
Proof. simpl. lia. Qed.

Lemma seven_nonce : 0 <= 7 < 2 ^ 32.
Proof. lia. Qed.

Lemma validEntry_sizes : sizes_ok validEntry.
Proof. exact (proj2 validEntry_valid). Qed.

(** Witness of X1: 256 entries, each of them valid. *)
Lemma createSignatureVerificationInstruction_too_many_witness :
  (255 < length (repeat validEntry 256))%nat /\
  Ed25519.createSignatureVerificationInstruction (repeat validEntry 256)
  = Throw JsRangeError.
Proof.
  assert (Hmany : (255 < length (repeat validEntry 256))%nat).
  { rewrite repeat_length. lia. }
  split; [exact Hmany|].
  exact (createSignatureVerificationInstruction_too_many
           (repeat validEntry 256) Hmany).
Defined.

(** Witness of X2: a valid entry, then one with an empty signature, resp.
    one with an empty message. *)
Lemma createSignatureVerificationInstruction_first_error_witness :
  Ed25519.createSignatureVerificationInstruction
    ([validEntry] ++ badEntry :: [validEntry])
  = Throw (JsError "Signature size must be 64 bytes") /\
  Ed25519.createSignatureVerificationInstruction
    ([validEntry]
     ++ Ed25519.mkSignatureVerificationData senderKey (range 0 64) []
     :: [badEntry])
  = Throw (JsError "Message size must be 32 bytes").
Proof.
  assert (Hgood : Forall sizes_ok [validEntry]).
  { apply Forall_cons. split; [exact validEntry_sizes | apply Forall_nil_2]. }
  split.
  - apply (proj1 (createSignatureVerificationInstruction_first_error
                    [validEntry] badEntry [validEntry] Hgood
                    ltac:(cbn [length app]; lia))).
    discriminate.
  - apply (proj2 (createSignatureVerificationInstruction_first_error
                    [validEntry]
                    (Ed25519.mkSignatureVerificationData senderKey
                       (range 0 64) [])
                    [badEntry] Hgood ltac:(cbn [length app]; lia))).
    + reflexivity.
    + discriminate.
Defined.

(** Witness of X3: the descriptor of a single entry, and that of entry 500
    of a region that starts at byte 4000. *)
Lemma SignatureStructure_toBuffer_range_witness :
  Ed25519.SignatureStructure_toBuffer (Ed25519.SignatureStructure_new 0 16)
  = Ok (Layout.le16 (Z.of_nat (Ed25519.signatureOffset
                                 (Ed25519.SignatureStructure_new 0 16)))
        ++ Layout.le16 Layout.sentinel
        ++ Layout.le16 (Z.of_nat (Ed25519.publicKeyOffset
                                    (Ed25519.SignatureStructure_new 0 16)))
        ++ Layout.le16 Layout.sentinel
        ++ Layout.le16 (Z.of_nat (Ed25519.messageOffset
                                    (Ed25519.SignatureStructure_new 0 16)))
        ++ Layout.le16 32 ++ Layout.le16 Layout.sentinel) /\
  Ed25519.SignatureStructure_toBuffer (Ed25519.SignatureStructure_new 500 4000)
  = Throw JsRangeError.
Proof.
  split.
  - apply (proj1 (SignatureStructure_toBuffer_range 0 16)).
    vm_compute. discriminate.
  - apply (proj2 (SignatureStructure_toBuffer_range 500 4000)).
    vm_compute. reflexivity.
Defined.

(** Witness of X4, for a batch of two entries. *)
Lemma createSignatureVerificationInstruction_read_back_witness :
  exists ix,
    Ed25519.createSignatureVerificationInstruction [validEntry; custodyEntry]
      = Ok ix /\
    Ed25519.programId ix = Ed25519.ed25519ProgramId /\
    Reader.readAll (Ed25519.data ix) = Some [validEntry; custodyEntry].
Proof.
  apply (createSignatureVerificationInstruction_read_back
           [validEntry; custodyEntry]).
  - cbn [length]. lia.
  - exact batch_valid.
Defined.

(** Witness of X5, for a single entry built twice. *)
Lemma createSignatureVerificationInstruction_injective_witness :
  Ed25519.createSignatureVerificationInstruction [validEntry]
    = Ok (verifyOf validEntry) /\
  [validEntry] = [validEntry].
Proof.
  assert (Hvalid : Forall Layout.valid_entry [validEntry]).
  { apply Forall_cons. split; [exact validEntry_valid | apply Forall_nil_2]. }
  split; [exact (entry_built validEntry validEntry_sizes)|].
  apply (createSignatureVerificationInstruction_injective
           [validEntry] [validEntry] (verifyOf validEntry) (verifyOf validEntry)).
  - cbn [length]. lia.
  - cbn [length]. lia.
  - exact Hvalid.
  - exact Hvalid.
  - exact (entry_built validEntry validEntry_sizes).
  - exact (entry_built validEntry validEntry_sizes).
  - reflexivity.
Defined.

(** Witness of X6, at the amount and the nonce of the scenario. *)
Lemma encodeUInt_round_trip_witness :
  (String.length (HashUtils.encodeUInt64 1000000) = 16%nat /\
   Js.Buffer_from_hex (HashUtils.encodeUInt64 1000000)
   = Wire.bigEndian 8 1000000 /\
   Wire.fromBigEndian (Js.Buffer_from_hex (HashUtils.encodeUInt64 1000000))
   = 1000000) /\
  (String.length (HashUtils.encodeUInt32 7) = 8%nat /\
   Js.Buffer_from_hex (HashUtils.encodeUInt32 7) = Wire.bigEndian 4 7 /\
   Wire.fromBigEndian (Js.Buffer_from_hex (HashUtils.encodeUInt32 7)) = 7).
Proof.
  split.
  - apply (proj1 encodeUInt_round_trip 1000000). lia.
  - apply (proj2 encodeUInt_round_trip 7). lia.
Defined.

(** Witness of X7, at the salt and the sender key of the scenario. *)
Lemma hex_encoders_round_trip_witness :
  (String.length (HashUtils.encodeBytes salt) = (2 * length salt)%nat /\
   Js.Buffer_from_hex (HashUtils.encodeBytes salt) = salt) /\
  (String.length (HashUtils.encodeAddress senderKey)
   = (2 * length (toBuffer senderKey))%nat /\
   Js.Buffer_from_hex (HashUtils.encodeAddress senderKey) = toBuffer senderKey).
Proof.
  split.
  - apply (proj1 (proj2 hex_encoders_round_trip) salt). exact salt_bytes.
  - apply (proj2 (proj2 hex_encoders_round_trip) senderKey).
    exact (proj2 senderKey_key).
Defined.

(** Witness of X8, at the parameters of src/index.ts. *)
Lemma Collateral_getWithdrawMessage_bytes_witness :
  Collateral.getWithdrawMessage collateralProxy senderKey recipient
    assetAddress request salt 7
  = Wire.finalDigest
      (Wire.domainBytes "Collateral" "2" 900 collateralProxy
         (Js.Uint8Array_from salt))
      (Wire.custodyStructBytes collateralProxy senderKey recipient
         assetAddress (amountOfAsset request) 7).
Proof.
  exact (Collateral_getWithdrawMessage_bytes collateralProxy senderKey
           recipient assetAddress request salt 7
           (proj2 collateralProxy_key) (proj2 senderKey_key)
           (proj2 recipient_key) (proj2 assetAddress_key)
           request_amount seven_nonce).
Defined.

(** Witness of X9, at the same parameters. *)
Lemma Coordinator_getWithdrawMessage_bytes_witness :
  Coordinator.getWithdrawMessage collateralProxy coordinatorKey senderKey
    recipient assetAddress request 7
  = Wire.finalDigest
      (Wire.domainBytes "Coordinator" "2" 900 coordinatorKey
         (Js.Uint8Array_from (coordinatorSignatureSalt request)))
      (Wire.coordinatorStructBytes collateralProxy senderKey recipient
         assetAddress (amountOfAsset request) 7
         (signatureExpirationTime request)).
Proof.
  exact (Coordinator_getWithdrawMessage_bytes collateralProxy coordinatorKey
           senderKey recipient assetAddress request 7
           (proj2 collateralProxy_key) (proj2 coordinatorKey_key)
           (proj2 senderKey_key) (proj2 recipient_key)
           (proj2 assetAddress_key) request_amount seven_nonce
           request_expiry).
Defined.

(** Witness of X11: an amount of 2^53 in the fresh world, and the
    scenario's withdrawal there. *)
Lemma executeWithdrawal_trace_witness :
  Withdraw.executeWithdrawal programKey collateralProxy collateralProxy
    sender recipient assetAddress 1763066371 (2 ^ 53) salt
    coordinatorSignature (fresh, [])
  = (Throw AssertionFailed, (fresh, [])) /\
  exists calls approval,
    snd (snd (execute fresh)) = [] ++ calls /\
    (approval = [] \/ approval = [Trace.SendApproval]) /\
    map Trace.kind calls `prefix_of`
      [Trace.FetchCollateral; Trace.GetTokenAccount; Trace.FetchApproval]
      ++ approval ++ [Trace.FetchCoordinator; Trace.SendWithdrawal] /\
    hd_error calls = Some (CallFetchCollateral collateralProxy) /\
    Forall (Trace.signedBy sender) calls /\
    (forall hash, fst (execute fresh) = Ok hash ->
       map Trace.kind calls
       = [Trace.FetchCollateral; Trace.GetTokenAccount; Trace.FetchApproval]
         ++ approval ++ [Trace.FetchCoordinator; Trace.SendWithdrawal] /\
       length coordinatorSignature = 64%nat) /\
    (forall t, fst (execute fresh) = Throw t -> Trace.expected t).
Proof.
  split.
  - pose proof (executeWithdrawal_trace programKey collateralProxy
                  collateralProxy sender recipient assetAddress 1763066371
                  (2 ^ 53) salt coordinatorSignature fresh []) as Hrun.
    cbv zeta in Hrun. apply (proj1 Hrun).
    unfold BN_fits. intros [_ Hamount]. simpl in Hamount. lia.
  - pose proof (executeWithdrawal_trace programKey collateralProxy
                  collateralProxy sender recipient assetAddress 1763066371
                  1000000 salt coordinatorSignature fresh []) as Hrun.
    cbv zeta in Hrun. exact (proj2 Hrun expiration_fits amount_fits).
Defined.

(** Witness of X12: an empty coordinator signature in the fresh world.  The
    approval transaction has been sent and the coordinator fetched when the
    run fails. *)
Lemma executeWithdrawal_rejects_short_signature_witness :
  (exists t calls,
     fst (Withdraw.executeWithdrawal programKey collateralProxy
            collateralProxy sender recipient assetAddress 1763066371 1000000
            salt [] (fresh, [])) = Throw t /\
     Trace.expected t /\
     snd (snd (Withdraw.executeWithdrawal programKey collateralProxy
                 collateralProxy sender recipient assetAddress 1763066371
                 1000000 salt [] (fresh, []))) = [] ++ calls /\
     Trace.SendWithdrawal ∉ map Trace.kind calls) /\
  Withdraw.executeWithdrawal programKey collateralProxy collateralProxy
    sender recipient assetAddress 1763066371 1000000 salt [] (fresh, [])
  = (Throw Trace.SignatureSizeError,
     (fresh,
      (([] ++ prefix) ++ approvalCalls)
      ++ [CallFetchCoordinator (coordinator collateralAccount)])).
Proof.
  pose proof (executeWithdrawal_rejects_short_signature programKey
                collateralProxy collateralProxy sender recipient assetAddress
                1763066371 1000000 salt [] fresh []) as Hrun.
  cbv zeta in Hrun.
  specialize (Hrun expiration_fits amount_fits ltac:(discriminate)).
  split; [exact (proj1 Hrun)|].
  exact (proj2 Hrun collateralAccount destination fresh pda fresh
           (([] ++ prefix) ++ approvalCalls)
           (mkCoordinatorAccount (approvers fresh)) executorKey []
           eq_refl eq_refl
           (approval_sent fresh ([] ++ prefix) eq_refl eq_refl)
           eq_refl eq_refl).
Defined.





(** Witness of C1, at the parameters of src/index.ts. *)
Lemma Collateral_getWithdrawMessage_spec_witness :
  Spec.custodyFinalDigest collateralProxy senderKey recipient assetAddress
    (amountOfAsset request) 7 salt
  = Some (Collateral.getWithdrawMessage collateralProxy senderKey recipient
            assetAddress request salt 7).
Proof.
  exact (Collateral_getWithdrawMessage_spec collateralProxy senderKey
           recipient assetAddress request salt 7
           collateralProxy_key senderKey_key recipient_key assetAddress_key
           salt_bytes eq_refl request_amount seven_nonce).
Defined.

(** Witness of X16: an amount of 2^68 + 5 with nonce 7, against an amount
    of 2^60 with nonce 16 * 2^32 + 7. *)
Lemma encodeWithdrawMessage_ambiguous_witness :
  Collateral.getWithdrawMessage collateralProxy senderKey
    (mkPublicKey (range 1 31 ++ [16])) assetAddress
    (mkWithdrawCollateral (16 ^ 15 * 256 + 5) 1763066371 salt) salt 7
  = Collateral.getWithdrawMessage collateralProxy senderKey
      (mkPublicKey (5 :: range 1 31)) assetAddress
      (mkWithdrawCollateral (16 ^ 15) 1763066371 salt) salt (16 * 2 ^ 32 + 7).
Proof.
  pose proof (encodeWithdrawMessage_ambiguous collateralProxy senderKey
           assetAddress programKey (range 1 31) salt (16 ^ 15) 5 16 7
           (mkWithdrawCollateral (16 ^ 15 * 256 + 5) 1763066371 salt)
           (mkWithdrawCollateral (16 ^ 15) 1763066371 salt)
           ltac:(lia) ltac:(lia) ltac:(lia) ltac:(lia) eq_refl eq_refl)
    as Hsame.
  cbv zeta in Hsame.
  exact (proj1 (proj2 (proj2 (proj2 Hsame)))).
Defined.

End FurtherRuns.
